(** * OuraDataHandler: a shallow embedding of [src/oura_data_handler.py]

    The handler fetches Oura Ring data from the REST API or from local CSV
    exports, reshapes it into a table and draws it.  This development
    embeds the handler's methods as Rocq functions and proves the
    properties its specification states about them.

    Layout:
    - [Datetime]: the part of Python's [datetime] the handler calls
      ([strptime], [date +/- timedelta], [strftime]);
    - [Pandas]: tables as ordered sequences of records, with the few
      DataFrame operations the handler uses;
    - [Effects]: printed lines, network requests, file accesses and
      drawing calls as a trace, faults as raised exceptions;
    - section [OuraDataHandler]: the methods of the class;
    - the vocabulary of the specification and sample data;
    - the proofs, component by component;
    - further properties of the methods: edge cases, faults, what a run
      draws and what it touches. *)

From stdpp Require Import base strings gmap.
From Stdlib Require Import ZArith QArith Lia List Ascii String Bool.
From Stdlib Require SpecFloat.
Import ListNotations.

Local Open Scope string_scope.
Local Open Scope list_scope.
Local Open Scope Z_scope.

(** ** Python exceptions and results *)

Inductive exn : Type :=
| ValueError
| OverflowError
| KeyError
| TypeError
| AttributeError
| IndexError
| IOError.

(** The result of evaluating a Python expression: a value or a raised
    exception. *)
Inductive outcome (A : Type) : Type :=
| Ret (a : A)
| Raise (e : exn).
Arguments Ret {A} a.
Arguments Raise {A} e.

Definition obind {A B} (o : outcome A) (f : A -> outcome B) : outcome B :=
  match o with
  | Ret a => f a
  | Raise e => Raise e
  end.

(** ** The [datetime] library *)

Module Datetime.

(** A calendar date, [datetime.date(year, month, day)]. *)
Record date : Type := mkDate { year : Z; month : Z; day : Z }.

Definition MINYEAR : Z := 1.
Definition MAXYEAR : Z := 9999.
(** [date.max.toordinal()] *)
Definition MAXORDINAL : Z := 3652059.

Definition is_leap (y : Z) : bool :=
  (y mod 4 =? 0) && (negb (y mod 100 =? 0) || (y mod 400 =? 0)).

(** Number of days before January 1st of year [y]. *)
Definition days_before_year (y : Z) : Z :=
  let y' := y - 1 in
  y' * 365 + y' / 4 - y' / 100 + y' / 400.

(** [_DAYS_IN_MONTH], months 1 to 12. *)
Definition DAYS_IN_MONTH (m : Z) : Z :=
  match m with
  | 1 => 31 | 2 => 28 | 3 => 31 | 4 => 30 | 5 => 31 | 6 => 30
  | 7 => 31 | 8 => 31 | 9 => 30 | 10 => 31 | 11 => 30 | 12 => 31
  | _ => 0
  end.

(** [_DAYS_BEFORE_MONTH], months 1 to 12. *)
Definition DAYS_BEFORE_MONTH (m : Z) : Z :=
  match m with
  | 1 => 0 | 2 => 31 | 3 => 59 | 4 => 90 | 5 => 120 | 6 => 151
  | 7 => 181 | 8 => 212 | 9 => 243 | 10 => 273 | 11 => 304 | 12 => 334
  | _ => 0
  end.

Definition days_in_month (y m : Z) : Z :=
  if (m =? 2) && is_leap y then 29 else DAYS_IN_MONTH m.

Definition days_before_month (y m : Z) : Z :=
  DAYS_BEFORE_MONTH m + (if (2 <? m) && is_leap y then 1 else 0).

(** The check done by the [date] constructor. *)
Definition valid_ymd (y m d : Z) : bool :=
  (MINYEAR <=? y) && (y <=? MAXYEAR) &&
  (1 <=? m) && (m <=? 12) &&
  (1 <=? d) && (d <=? days_in_month y m).

Definition valid_date (dt : date) : bool :=
  valid_ymd (year dt) (month dt) (day dt).

(** [_ymd2ord]: 0001-01-01 is day 1. *)
Definition ymd2ord (y m d : Z) : Z :=
  days_before_year y + days_before_month y m + d.

Definition toordinal (dt : date) : Z :=
  ymd2ord (year dt) (month dt) (day dt).

Definition DI400Y : Z := 146097.
Definition DI100Y : Z := 36524.
Definition DI4Y : Z := 1461.

(** [_ord2ymd]: the inverse of [_ymd2ord], written as the library
    writes it. *)
Definition ord2ymd (n : Z) : date :=
  let n := n - 1 in
  let n400 := n / DI400Y in
  let n := n mod DI400Y in
  let y := n400 * 400 + 1 in
  let n100 := n / DI100Y in
  let n := n mod DI100Y in
  let n4 := n / DI4Y in
  let n := n mod DI4Y in
  let n1 := n / 365 in
  let n := n mod 365 in
  let y := y + n100 * 100 + n4 * 4 + n1 in
  if (n1 =? 4) || (n100 =? 4) then mkDate (y - 1) 12 31
  else
    let leapyear := (n1 =? 3) && (negb (n4 =? 24) || (n100 =? 3)) in
    let m := Z.shiftr (n + 50) 5 in
    let preceding :=
      DAYS_BEFORE_MONTH m + (if (2 <? m) && leapyear then 1 else 0) in
    if n <? preceding then
      let m' := m - 1 in
      let preceding' :=
        preceding
        - (DAYS_IN_MONTH m' + (if (m' =? 2) && leapyear then 1 else 0)) in
      mkDate y m' (n - preceding' + 1)
    else mkDate y m (n - preceding + 1).

Definition fromordinal (n : Z) : date := ord2ymd n.

(** [date.__add__(timedelta(days))]; subtraction of a [timedelta] is
    the addition of its negation. *)
Definition date_add (dt : date) (days : Z) : outcome date :=
  let o := toordinal dt + days in
  if (0 <? o) && (o <=? MAXORDINAL) then Ret (fromordinal o)
  else Raise OverflowError.

Definition date_sub (dt : date) (days : Z) : outcome date :=
  date_add dt (- days).

(** *** Decimal digits *)

Definition is_digit (c : ascii) : bool :=
  let n := nat_of_ascii c in ((48 <=? n) && (n <=? 57))%nat.

Definition digit_val (c : ascii) : Z := Z.of_nat (nat_of_ascii c) - 48.

Definition digit_char (k : Z) : ascii := ascii_of_nat (Z.to_nat (48 + k)).

Definition in_range (lo hi : Z) (c : ascii) : bool :=
  is_digit c && (lo <=? digit_val c) && (digit_val c <=? hi).

(** A number printed with at least two (resp. four) digits, as
    [%02d] and [%04d] do for the values met here. *)
Definition pad2 (n : Z) : string :=
  String (digit_char (n / 10)) (String (digit_char (n mod 10)) "").

Definition pad4 (n : Z) : string :=
  String (digit_char (n / 1000))
    (String (digit_char (n / 100 mod 10))
       (String (digit_char (n / 10 mod 10))
          (String (digit_char (n mod 10)) ""))).

(** A number below 1000 printed without leading zeros. *)
Definition unpadded (n : Z) : string :=
  if n <? 10 then String (digit_char n) ""
  else if n <? 100 then pad2 n
  else String (digit_char (n / 100)) (pad2 (n mod 100)).

(** *** [strptime(s, '%Y-%m-%d')]

    The library compiles the format to the regular expression
    [(?P<Y>\d\d\d\d)-(?P<m>1[0-2]|0[1-9]|[1-9])-(?P<d>3[01]|[12]\d|0[1-9]|[1-9]| [1-9])],
    matches it at the start of the string and rejects a string with
    characters left over.  Each group below lists the ways its
    alternatives match, in the order the regular expression tries
    them.  Strings are sequences of ASCII characters. *)

Definition re_Y (s : string) : list (Z * string) :=
  match s with
  | String a (String b (String c (String d rest))) =>
      if is_digit a && is_digit b && is_digit c && is_digit d
      then [(1000 * digit_val a + 100 * digit_val b
             + 10 * digit_val c + digit_val d, rest)]
      else []
  | _ => []
  end.

Definition re_m (s : string) : list (Z * string) :=
  match s with
  | String a rest =>
      (match rest with
       | String b rest' =>
           (if Ascii.eqb a "1" && in_range 0 2 b
            then [(10 + digit_val b, rest')] else [])
           ++ (if Ascii.eqb a "0" && in_range 1 9 b
               then [(digit_val b, rest')] else [])
       | EmptyString => []
       end)
      ++ (if in_range 1 9 a then [(digit_val a, rest)] else [])
  | EmptyString => []
  end.

Definition re_d (s : string) : list (Z * string) :=
  match s with
  | String a rest =>
      (match rest with
       | String b rest' =>
           (if Ascii.eqb a "3" && in_range 0 1 b
            then [(30 + digit_val b, rest')] else [])
           ++ (if in_range 1 2 a && is_digit b
               then [(10 * digit_val a + digit_val b, rest')] else [])
           ++ (if Ascii.eqb a "0" && in_range 1 9 b
               then [(digit_val b, rest')] else [])
       | EmptyString => []
       end)
      ++ (if in_range 1 9 a then [(digit_val a, rest)] else [])
      ++ (match rest with
          | String b rest' =>
              if Ascii.eqb a " " && in_range 1 9 b
              then [(digit_val b, rest')] else []
          | EmptyString => []
          end)
  | EmptyString => []
  end.

Definition re_dash (s : string) : list string :=
  match s with
  | String a rest => if Ascii.eqb a "-" then [rest] else []
  | EmptyString => []
  end.

(** All the ways the whole pattern matches a prefix of [s], first
    match first; each comes with the unmatched rest. *)
Definition re_match (s : string) : list (Z * Z * Z * string) :=
  flat_map (fun '(y, s1) =>
    flat_map (fun s2 =>
      flat_map (fun '(m, s3) =>
        flat_map (fun s4 =>
          map (fun '(d, s5) => (y, m, d, s5)) (re_d s4))
          (re_dash s3))
        (re_m s2))
      (re_dash s1))
    (re_Y s).

Definition strptime (s : string) : outcome date :=
  match re_match s with
  | [] => Raise ValueError
  | (y, m, d, rest) :: _ =>
      match rest with
      | EmptyString =>
          if valid_ymd y m d then Ret (mkDate y m d) else Raise ValueError
      | String _ _ => Raise ValueError
      end
  end.

(** *** [strftime('%Y-%m-%d')]

    [%m] and [%d] are two digits.  [%Y] is four digits where the
    platform's C library pads the year ([pads_year = true], what the
    library documents), and the plain decimal number where it does
    not (glibc), which differs for the years before 1000. *)
Definition strftime_Y (pads_year : bool) (y : Z) : string :=
  if pads_year || (1000 <=? y) then pad4 y else unpadded y.

Definition strftime (pads_year : bool) (dt : date) : string :=
  (strftime_Y pads_year (year dt) ++ "-" ++ pad2 (month dt)
     ++ "-" ++ pad2 (day dt))%string.

(** The ISO 8601 calendar date [YYYY-MM-DD]. *)
Definition isoformat (dt : date) : string := strftime true dt.

End Datetime.

Import Datetime.

(** ** Tables

    The part of pandas the handler uses.  A table is an ordered sequence
    of records under a list of column names; a column that is read by
    name is taken to bear a name of its own (pandas answers a repeated
    name with a sub-table).  JSON objects in cells are one level deep,
    as the API's [contributors] and [spo2_percentage] are.  A number in
    a cell is the rational the payload or the file writes; the z-scores
    of a column are computed in doubles. *)

Module Pandas.

(** A point in time, as [pd.to_datetime] and [datetime.fromisoformat]
    produce it; only the fields the handler reads. *)
Record timestamp : Type :=
  mkTimestamp { ts_date : date; ts_hour : Z; ts_minute : Z }.

(** A scalar of a JSON payload or of a CSV file.  [Null] is the missing
    value ([None], [NaN]); numbers are exact rationals. *)
Inductive atom : Type :=
| Null
| Num (q : Q)
| Str (s : string)
| Time (t : timestamp).

(** A cell of a table: a scalar, or a JSON object of scalars (the
    [contributors] and [spo2_percentage] fields of the API). *)
Inductive cell : Type :=
| Atom (a : atom)
| Obj (fields : list (string * atom)).

(** A Python dict with string keys, in insertion order. *)
Definition dict (A : Type) : Type := list (string * A).

Definition dict_get {A} (k : string) (d : dict A) : option A :=
  option_map snd (find (fun kv => String.eqb (fst kv) k) d).

(** A row: column name to cell. *)
Definition record : Type := dict cell.

(** A table: the column names and the rows in order.  The row labels
    are the positions. *)
Record DataFrame : Type :=
  mkDataFrame { columns : list string; records : list record }.

(** [pd.DataFrame()] *)
Definition DataFrame_empty : DataFrame := mkDataFrame [] [].

(** [df.empty]: no row or no column. *)
Definition empty (df : DataFrame) : bool :=
  match records df, columns df with
  | [], _ => true
  | _, [] => true
  | _, _ => false
  end.

Definition has_column (c : string) (df : DataFrame) : bool :=
  existsb (String.eqb c) (columns df).

Definition cell_of (c : string) (r : record) : cell :=
  match dict_get c r with
  | Some v => v
  | None => Atom Null
  end.

(** The column names of a list of dicts: every key, in the order of
    its first appearance. *)
Definition add_keys (cols keys : list string) : list string :=
  fold_left
    (fun acc k => if existsb (String.eqb k) acc then acc else acc ++ [k])
    keys cols.

Definition keys_union (data : list record) : list string :=
  fold_left (fun acc r => add_keys acc (map fst r)) data [].

(** [pd.DataFrame.from_dict(data, orient='columns')] for a list of
    dicts: a key missing from a row is a missing value. *)
Definition from_records (data : list record) : DataFrame :=
  let cols := keys_union data in
  mkDataFrame cols
    (map (fun r => map (fun c => (c, cell_of c r)) cols) data).

(** [df[c]]: the cells of a column. *)
Definition getitem (df : DataFrame) (c : string) : outcome (list cell) :=
  if has_column c df then Ret (map (cell_of c) (records df))
  else Raise KeyError.

Fixpoint mapM {A B} (f : A -> outcome B) (l : list A) : outcome (list B) :=
  match l with
  | [] => Ret []
  | x :: l' =>
      obind (f x) (fun y => obind (mapM f l') (fun ys => Ret (y :: ys)))
  end.

(** [cell >= s] and [cell <= s] for a string [s]: strings compare
    character by character, a missing value compares false, a number
    does not compare with a string. *)
Definition ge_str (s : string) (c : cell) : outcome bool :=
  match c with
  | Atom Null => Ret false
  | Atom (Str x) => Ret (String.leb s x)
  | _ => Raise TypeError
  end.

Definition le_str (s : string) (c : cell) : outcome bool :=
  match c with
  | Atom Null => Ret false
  | Atom (Str x) => Ret (String.leb x s)
  | _ => Raise TypeError
  end.

(** [cell == s] never raises. *)
Definition eq_str (s : string) (c : cell) : bool :=
  match c with
  | Atom (Str x) => String.eqb x s
  | _ => false
  end.

Fixpoint select {A} (mask : list bool) (l : list A) : list A :=
  match mask, l with
  | b :: mask', x :: l' => if b then x :: select mask' l' else select mask' l'
  | _, _ => []
  end.

(** [df.loc[mask]] *)
Definition loc (df : DataFrame) (mask : list bool) : DataFrame :=
  mkDataFrame (columns df) (select mask (records df)).

Fixpoint zip_with {A B C} (f : A -> B -> C) (l1 : list A) (l2 : list B)
    : list C :=
  match l1, l2 with
  | x :: l1', y :: l2' => f x y :: zip_with f l1' l2'
  | _, _ => []
  end.

(** [df.drop(columns=[c])] *)
Definition drop_column (df : DataFrame) (c : string) : outcome DataFrame :=
  if has_column c df then
    Ret (mkDataFrame
           (filter (fun k => negb (String.eqb k c)) (columns df))
           (map (filter (fun kv => negb (String.eqb (fst kv) c)))
              (records df)))
  else Raise KeyError.

(** [pd.json_normalize(series)] for a column of flat JSON objects:
    every sub-field becomes a column. *)
Definition fields_of (c : cell) : outcome record :=
  match c with
  | Obj fields => Ret (map (fun kv => (fst kv, Atom (snd kv))) fields)
  | Atom _ => Raise AttributeError
  end.

Definition json_normalize (series : list cell) : outcome DataFrame :=
  obind (mapM fields_of series) (fun rs => Ret (from_records rs)).

(** [pd.concat([df1, df2], axis=1)] for two tables with the same row
    labels. *)
Definition concat_columns (df1 df2 : DataFrame) : DataFrame :=
  mkDataFrame (columns df1 ++ columns df2)
    (zip_with (fun r1 r2 => r1 ++ r2) (records df1) (records df2)).

(** [df.rename(columns={old: new})] *)
Definition rename_key (old new k : string) : string :=
  if String.eqb k old then new else k.

Definition rename (df : DataFrame) (old new : string) : DataFrame :=
  mkDataFrame (map (rename_key old new) (columns df))
    (map (map (fun kv => (rename_key old new (fst kv), snd kv)))
       (records df)).

Definition is_null (c : cell) : bool :=
  match c with
  | Atom Null => true
  | _ => false
  end.

(** [series.dropna()] *)
Definition dropna (series : list cell) : list cell :=
  filter (fun c => negb (is_null c)) series.

(** [df.dropna(subset=[c])] *)
Definition dropna_subset (df : DataFrame) (c : string) : outcome DataFrame :=
  if has_column c df then
    Ret (mkDataFrame (columns df)
           (filter (fun r => negb (is_null (cell_of c r))) (records df)))
  else Raise KeyError.

(** [df[c] = values]: replaces the column, or appends it. *)
Definition set_key (c : string) (v : cell) (r : record) : record :=
  if existsb (fun kv => String.eqb (fst kv) c) r
  then map (fun kv => if String.eqb (fst kv) c then (c, v) else kv) r
  else r ++ [(c, v)].

Definition setitem (df : DataFrame) (c : string) (values : list cell)
    : DataFrame :=
  mkDataFrame
    (if has_column c df then columns df else columns df ++ [c])
    (zip_with (fun r v => set_key c v r) (records df) values).

(** [x[k]] for a cell [x]: only an object has fields. *)
Definition subscript (k : string) (c : cell) : outcome cell :=
  match c with
  | Obj fields =>
      match dict_get k fields with
      | Some a => Ret (Atom a)
      | None => Raise KeyError
      end
  | Atom _ => Raise TypeError
  end.

(** [series.iloc[i]] for [i >= 0] *)
Definition iloc {A} (series : list A) (i : nat) : outcome A :=
  match nth_error series i with
  | Some x => Ret x
  | None => Raise IndexError
  end.

(** *** Numeric series *)

(** The number in a cell of a numeric column; [None] is NaN. *)
Definition to_num (c : cell) : outcome (option Q) :=
  match c with
  | Atom Null => Ret None
  | Atom (Num q) => Ret (Some q)
  | _ => Raise TypeError
  end.

Definition observed (xs : list (option Q)) : list Q :=
  flat_map (fun x => match x with Some q => [q] | None => [] end) xs.

Definition Qsum (qs : list Q) : Q := fold_right Qplus (0 # 1)%Q qs.

Definition count (qs : list Q) : Q := inject_Z (Z.of_nat (List.length qs)).

(** The mean of the observed values; NaN when there is none. *)
Definition mean_obs (qs : list Q) : option Q :=
  match qs with
  | [] => None
  | _ => Some (Qsum qs / count qs)%Q
  end.

(** [series.mean()] *)
Definition mean (series : list cell) : outcome (option Q) :=
  obind (mapM to_num series) (fun xs => Ret (mean_obs (observed xs))).

(** The trailing window of [w] samples that ends at position [i]. *)
Definition window {A} (w : nat) (xs : list A) (i : nat) : list A :=
  skipn (i + 1 - w) (firstn (i + 1) xs).

Definition positions {A} (xs : list A) : list nat := seq 0 (List.length xs).

(** *** Doubles

    Where the handler compares numbers with a threshold it computes in
    IEEE 754 binary64, as numpy does: the operations are those of the
    standard library's specification of floating-point arithmetic, with
    53 bits of precision and rounding to nearest even. *)
Definition float64 : Type := SpecFloat.spec_float.

Definition NaN : float64 := SpecFloat.S754_nan.

Definition fadd : float64 -> float64 -> float64 := SpecFloat.SFadd 53 1024.
Definition fsub : float64 -> float64 -> float64 := SpecFloat.SFsub 53 1024.
Definition fmul : float64 -> float64 -> float64 := SpecFloat.SFmul 53 1024.
Definition fdiv : float64 -> float64 -> float64 := SpecFloat.SFdiv 53 1024.
Definition fsqrt : float64 -> float64 := SpecFloat.SFsqrt 53 1024.
Definition fabs : float64 -> float64 := SpecFloat.SFabs.

(** [x < y]: false when an operand is NaN. *)
Definition fltb : float64 -> float64 -> bool := SpecFloat.SFltb.

Definition is_nan (x : float64) : bool :=
  match x with
  | SpecFloat.S754_nan => true
  | _ => false
  end.

(** The double nearest to an integer. *)
Definition of_Z (z : Z) : float64 :=
  SpecFloat.binary_normalize 53 1024 z 0 false.

(** The double of the number in a cell: the rounded quotient of its two
    terms, which is the double nearest to the number when both terms
    are doubles themselves (below 2^53 in absolute value). *)
Definition of_Q (q : Q) : float64 :=
  fdiv (of_Z (Qnum q)) (of_Z (Zpos (Qden q))).

(** The double in a cell of a numeric column; a missing value is NaN. *)
Definition to_float (c : cell) : outcome float64 :=
  match c with
  | Atom Null => Ret NaN
  | Atom (Num q) => Ret (of_Q q)
  | _ => Raise TypeError
  end.

(** *** Time index *)

(** Minutes since the start of 0001-01-01. *)
Definition ts_minutes (t : timestamp) : Z :=
  toordinal (ts_date t) * 1440 + ts_hour t * 60 + ts_minute t.

(** The order of index labels; a missing label sorts last. *)
Definition label_le (a b : cell) : bool :=
  match a, b with
  | Atom (Time t1), Atom (Time t2) => ts_minutes t1 <=? ts_minutes t2
  | Atom (Time _), _ => true
  | _, Atom (Time _) => false
  | _, _ => true
  end.

Fixpoint insert_row (x : cell * record) (l : list (cell * record))
    : list (cell * record) :=
  match l with
  | [] => [x]
  | y :: l' =>
      if label_le (fst x) (fst y) then x :: y :: l'
      else y :: insert_row x l'
  end.

(** [df.set_index(c).sort_index()]: the column [c] leaves the columns
    and labels the rows, which are put in label order (rows with the
    same label keep their order).  The result is the labels and the
    table. *)
Definition set_index_sorted (df : DataFrame) (c : string)
    : outcome (list cell * DataFrame) :=
  obind (getitem df c) (fun labels =>
  obind (drop_column df c) (fun df' =>
  let rows := fold_right insert_row []
                (zip_with pair labels (records df')) in
  Ret (map fst rows, mkDataFrame (columns df') (map snd rows)))).

(** [series.dt.hour + series.dt.minute / 60] *)
Definition hour_of_day (c : cell) : outcome cell :=
  match c with
  | Atom (Time t) =>
      Ret (Atom (Num (inject_Z (ts_hour t) + inject_Z (ts_minute t) / 60)%Q))
  | Atom Null => Ret (Atom Null)
  | _ => Raise AttributeError
  end.

End Pandas.

Import Pandas.

(** ** Effects *)

Module Effects.

(** [np.log(n)], kept symbolic. *)
Inductive penalty : Type :=
| Log (n : nat).

(** What a call does to the world outside the handler, in the order it
    happens.  Drawing calls are taken to succeed. *)
Inductive event : Type :=
| Print (text : string)
    (** [print(text)] *)
| HttpGet (url : string) (headers params : gmap string string) (timeout : Z)
    (** [requests.get(url, headers=..., params=..., timeout=...)] *)
| ReadCsv (path : string)
    (** [pd.read_csv(path)] *)
| WriteCsv (path : string) (df : DataFrame)
    (** [df.to_csv(path, index=False)] having written the file [path] *)
| PeltFit (model : string) (signal : list cell) (pen : penalty)
    (** [rpt.Pelt(model=model).fit(signal).predict(pen=pen)] *)
| RcParams
    (** [plt.rcParams.update({'font.size': 14})] *)
| Subplots
    (** [plt.subplots(figsize=(18, 6))], [plt.figure(figsize=(18, 6))] *)
| PlotLine (xs ys : list cell) (color label : string)
    (** [plot(xs, ys, color=color, linewidth=2, label=label)] *)
| AxHLine (y : option Q) (color label : string)
    (** [axhline(y, ...)]; [label] is the legend text before the
        formatted number *)
| AxVLine (x : cell)
    (** [axvline(x=x, color='red', linestyle='--', label=...)] *)
| Scatter (xs ys : list cell)
    (** [scatter(xs, ys, color='red', label='Anomalies', zorder=5)] *)
| HLines (y : Z) (xmin xmax : nat) (color : string)
    (** [ax.hlines(y=y, xmin=xmin, xmax=xmax, color=color, ...)] *)
| Stem (xs ys : list cell) (color label : string)
    (** [ax.stem(xs, ys, linefmt=color, ..., label=label)] *)
| XTicks (labels : list string)
    (** [plt.xticks], [ax.set_xticks] and [ax.set_xticklabels] *)
| Decorate (xlabel ylabel title : string)
    (** axis labels, title, legend, tick and spine settings *)
| Show
    (** [plt.show()] *)
| Display (markdown : string)
    (** [display(Markdown(markdown))] *).

(** A computation: the events it produced and how it ended. *)
Definition M (A : Type) : Type := (list event * outcome A)%type.

Definition trace {A} (m : M A) : list event := fst m.
Definition result {A} (m : M A) : outcome A := snd m.

#[global] Instance M_ret : MRet M := fun A a => ([], Ret a).

#[global] Instance M_bind : MBind M := fun A B f m =>
  match snd m with
  | Ret a => (fst m ++ fst (f a), snd (f a))
  | Raise e => (fst m, Raise e)
  end.

Definition emit (e : event) : M unit := ([e], Ret tt).

(** A pure computation that may raise. *)
Definition lift {A} (o : outcome A) : M A := ([], o).

(** [for x in l: body x] *)
Fixpoint for_each {A} (l : list A) (body : A -> M unit) : M unit :=
  match l with
  | [] => mret tt
  | x :: l' => body x ;; for_each l' body
  end.

(** What a method hands back: a table, or [None]. *)
Inductive pyret : Type :=
| RNone
| RTable (df : DataFrame).

(** The table behind a returned value, for [df.empty] and [df[...]]. *)
Definition as_table (r : pyret) : outcome DataFrame :=
  match r with
  | RTable df => Ret df
  | RNone => Raise AttributeError
  end.

(** The world the handler runs in: the C library's [strftime], the
    remote API, the files, and the libraries whose results the handler
    only passes on. *)
Record Env : Type := mkEnv {
  (** does [%Y] print four digits for a year before 1000? *)
  pads_year : bool;
  (** [requests.get(...).json().get('data', [])]: the rows the API
      answers, or a transport or decoding fault *)
  requests_get :
    string -> gmap string string -> gmap string string -> Z
    -> outcome (list record);
  (** [pd.read_csv(path)] *)
  read_csv : string -> outcome DataFrame;
  (** the cut indices of the penalised segmentation *)
  pelt_predict : string -> list cell -> penalty -> outcome (list nat);
  (** [pd.to_datetime(series)] *)
  to_datetime : list cell -> outcome (list cell);
  (** [datetime.fromisoformat(s)] *)
  fromisoformat : string -> outcome timestamp;
  (** [series.resample(f'{n}D').mean()] on a time index: the bucket
      starts and the bucket means *)
  resample_mean :
    Z -> list cell -> list cell -> outcome (list (timestamp * cell));
  (** does the file system take the file that
      [df.to_csv(path, index=False)] writes?  An empty or unwritable
      path raises. *)
  write_csv : string -> DataFrame -> outcome unit;
  (** [series.rolling(window=w, min_periods=p).mean()] and [.std()] on
      a column of doubles: one value per row *)
  rolling_mean : nat -> nat -> list float64 -> list float64;
  rolling_std : nat -> nat -> list float64 -> list float64
}.

End Effects.

Import Effects.

(** ** The handler *)

(** [self]: the configuration given to [__init__]. *)
Record Handler : Type := mkHandler {
  api_address : string;
  local_data_paths : gmap string string;
  access_token : option string
}.

(** Truth value of an optional string: [None] and [''] are false. *)
Definition truthy (x : option string) : bool :=
  match x with
  | Some s => negb (String.eqb s "")
  | None => false
  end.

(** [x == tag] for an optional string [x] ([None] equals no string). *)
Definition is_str (x : option string) (tag : string) : bool :=
  match x with
  | Some s => String.eqb s tag
  | None => false
  end.

(** [f'{x}'] for an optional string. *)
Definition py_str (x : option string) : string :=
  match x with
  | Some s => s
  | None => "None"
  end.

(** [s.replace("_", " ").capitalize()] on ASCII text. *)
Definition upper (c : ascii) : ascii :=
  let n := nat_of_ascii c in
  if ((97 <=? n) && (n <=? 122))%nat then ascii_of_nat (n - 32) else c.

Definition lower (c : ascii) : ascii :=
  let n := nat_of_ascii c in
  if ((65 <=? n) && (n <=? 90))%nat then ascii_of_nat (n + 32) else c.

Fixpoint string_map (f : ascii -> ascii) (s : string) : string :=
  match s with
  | EmptyString => EmptyString
  | String c s' => String (f c) (string_map f s')
  end.

Definition capitalize (s : string) : string :=
  match s with
  | EmptyString => EmptyString
  | String c s' => String (upper c) (string_map lower s')
  end.

Definition pretty_name (data_type : string) : string :=
  capitalize
    (string_map (fun c => if Ascii.eqb c "_" then " "%char else c) data_type).

Definition valid_data_types : list string :=
  ["sleep"; "daily_sleep"; "daily_activity"; "daily_readiness"; "daily_spo2";
   "heartrate"; "daily_stress"].

Section OuraDataHandler.

Variable env : Env.
Variable self : Handler.

Definition _convert_date (input_date : string) (period : option string)
    : outcome string :=
  obind (strptime input_date) (fun parsed_date =>
  obind
    (if is_str period "week" then date_sub parsed_date 7
     else if is_str period "month" then date_sub parsed_date 30
     else if is_str period "year" then date_sub parsed_date 365
     else if is_str period "day" then date_add parsed_date 1
     else Ret parsed_date)
    (fun adjusted_date => Ret (strftime (pads_year env) adjusted_date))).

(** The query parameters of a request (lines 74-84). *)
Definition request_params (data_type start_date : string)
    (end_date duration : option string) : outcome (gmap string string) :=
  match end_date with
  | None =>
      obind (_convert_date start_date duration) (fun new_start_day =>
      let end_date := start_date in
      if negb (String.eqb data_type "heartrate") then
        Ret {[ "start_date" := new_start_day; "end_date" := end_date ]}
      else
        obind (_convert_date start_date (Some "day")) (fun new_end_day =>
        Ret {[ "start_datetime" := new_start_day;
               "end_datetime" := new_end_day ]}))
  | Some end_date =>
      Ret {[ "start_date" := start_date; "end_date" := end_date ]}
  end.

(** [df.to_csv(filename, index=False)]: without a path the text is
    returned to the caller and no file is written; with a path the file
    is written unless the file system refuses it, which raises. *)
Definition to_csv (df : DataFrame) (filename : option string) : M unit :=
  match filename with
  | Some path =>
      lift (write_csv env path df) ;;
      emit (WriteCsv path df)
  | None => mret tt
  end.

Definition fetch_data_from_api (data_type start_date : string)
    (end_date duration : option string) (save_file : bool)
    (filename : option string) : M pyret :=
  if negb (truthy (access_token self)) then
    emit (Print "Invalid token!") ;;
    mret (RTable DataFrame_empty)
  else if negb (existsb (String.eqb data_type) valid_data_types) then
    emit (Print "Invalid data type!") ;;
    mret (RTable DataFrame_empty)
  else
    emit (Print ("Requesting " ++ data_type ++ " data... ")) ;;
    params ← lift (request_params data_type start_date end_date duration) ;
    let url := (api_address self ++ "/v2/usercollection/" ++ data_type)%string in
    let headers : gmap string string :=
      {[ "Authorization" := ("Bearer " ++ py_str (access_token self))%string ]} in
    emit (HttpGet url headers params 10) ;;
    response_json ← lift (requests_get env url headers params 10) ;
    match response_json with
    | [] =>
        emit (Print "No data received.") ;;
        mret (RTable DataFrame_empty)
    | _ :: _ =>
        emit (Print "done!") ;;
        let df := from_records response_json in
        let finish : M pyret :=
          emit (Print ("Data successfully saved to " ++ py_str filename)) ;;
          mret (RTable df) in
        if save_file then
          if empty df then
            emit (Print "No data available to save.") ;;
            mret RNone
          else
            to_csv df filename ;;
            finish
        else finish
    end.

(** [save_to_csv] (lines 105-117). *)
Definition save_to_csv (df : DataFrame) (filename : option string) : M pyret :=
  if empty df then
    emit (Print "No data available to save.") ;;
    mret RNone
  else
    to_csv df filename ;;
    emit (Print ("Data successfully saved to " ++ py_str filename)) ;;
    mret RNone.

(** [(df['day'] >= lo) & (df['day'] <= hi)] *)
Definition between_mask (df : DataFrame) (lo hi : string)
    : outcome (list bool) :=
  obind (getitem df "day") (fun day =>
  obind (mapM (ge_str lo) day) (fun m1 =>
  obind (getitem df "day") (fun day' =>
  obind (mapM (le_str hi) day') (fun m2 =>
  Ret (zip_with andb m1 m2))))).

Definition load_data_from_csv (data_type start_date : string)
    (end_date duration : option string) : M pyret :=
  let file_path := local_data_paths self !! data_type in
  if negb (truthy file_path) then
    emit (Print "Invalid data type for CSV!") ;;
    mret (RTable DataFrame_empty)
  else
    emit (ReadCsv (py_str file_path)) ;;
    df ← lift (read_csv env (py_str file_path)) ;
    match end_date with
    | None =>
        target_date ← lift (_convert_date start_date duration) ;
        mask ← lift (between_mask df target_date start_date) ;
        mret (RTable (loc df mask))
    | Some end_date =>
        mask ← lift (between_mask df start_date end_date) ;
        mret (RTable (loc df mask))
    end.

(** The rolling z-scores of a column and the rows they flag
    (lines 188-191 and 329-332). *)
Definition z_scores (series : list cell) : outcome (list float64) :=
  obind (mapM to_float series) (fun xs =>
  let means := rolling_mean env 7 1 xs in
  let stds := rolling_std env 7 1 xs in
  Ret (zip_with fdiv (zip_with fsub xs means) stds)).

Definition anomalies_of (df : DataFrame) (column : string)
    (anomaly_threshold : Q) : outcome DataFrame :=
  obind (getitem df column) (fun series =>
  obind (z_scores series) (fun zs =>
  Ret (loc df (map (fun z => fltb (of_Q anomaly_threshold) (fabs z)) zs)))).

(** The change points of a column (lines 179-181 and 321-323). *)
Definition change_points_of (model : string) (df : DataFrame)
    (column : string) : M (list nat) :=
  series ← lift (getitem df column) ;
  let signal := dropna series in
  let pen := Log (List.length signal) in
  emit (PeltFit model signal pen) ;;
  lift (pelt_predict env model signal pen).

Definition plot_data (df : DataFrame) (column y_label title caption : string)
    (x_labels : option (list string)) (column2 : option string)
    (detect_trends : bool) (n_bkps : Z) (detect_anomalies : bool)
    (anomaly_threshold : Q) : M pyret :=
  if empty df then
    emit (Print "No data to plot.") ;;
    mret RNone
  else
    emit RcParams ;;
    emit Subplots ;;
    mean_value ← lift (obind (getitem df column) mean) ;
    day ← lift (getitem df "day") ;
    ys ← lift (getitem df column) ;
    emit (PlotLine day ys "black" ("Daily " ++ column)) ;;
    emit (AxHLine mean_value "blue" ("Mean " ++ column)) ;;
    (if truthy column2 then
       mean_value2 ← lift (obind (getitem df (py_str column2)) mean) ;
       day ← lift (getitem df "day") ;
       ys2 ← lift (getitem df (py_str column2)) ;
       emit (PlotLine day ys2 "red" ("Daily " ++ py_str column2)) ;;
       emit (AxHLine mean_value2 "green" ("Mean " ++ py_str column2))
     else mret tt) ;;
    (if detect_trends then
       change_points ← change_points_of "l2" df column ;
       for_each (removelast change_points) (fun cp =>
         day ← lift (getitem df "day") ;
         change_date ← lift (iloc day cp) ;
         emit (AxVLine change_date))
     else mret tt) ;;
    (if detect_anomalies then
       anomalies ← lift (anomalies_of df column anomaly_threshold) ;
       if negb (empty anomalies) then
         xs ← lift (getitem anomalies "day") ;
         ys ← lift (getitem anomalies column) ;
         emit (Scatter xs ys)
       else mret tt
     else mret tt) ;;
    emit (Decorate "Day" y_label title) ;;
    emit Show ;;
    (if negb (String.eqb caption "") then
       emit (Display ("**Figure:** " ++ caption))
     else mret tt) ;;
    mret RNone.

(** The reshaping of the API's daily sleep rows (lines 221-222): the
    [contributors] column goes, its sub-fields become columns, and
    [deep_sleep] is renamed. *)
Definition flatten_contributors (df : DataFrame) : outcome DataFrame :=
  obind (drop_column df "contributors") (fun rest =>
  obind (getitem df "contributors") (fun contributors =>
  obind (json_normalize contributors) (fun lifted =>
  Ret (rename (concat_columns rest lifted)
         "deep_sleep" "contributors_deep_sleep")))).

Definition get_deep_sleep_duration (source start_date : string)
    (end_date duration : option string) (caption : string) : M pyret :=
  let plot (df : DataFrame) : M pyret :=
    if negb (empty df) then
      plot_data df "contributors_deep_sleep" "Deep Sleep Duration"
        "Deep Sleep Duration Over Time" caption None None false 0 false
        (2 # 1)%Q ;;
      mret RNone
    else
      emit (Print "No data available for plotting.") ;;
      mret RNone in
  if String.eqb source "csv" then
    r ← load_data_from_csv "daily_sleep" start_date end_date duration ;
    df ← lift (as_table r) ;
    plot df
  else if String.eqb source "api" then
    r ← fetch_data_from_api "daily_sleep" start_date end_date duration
          false None ;
    df ← lift (as_table r) ;
    df ← (if negb (empty df) then lift (flatten_contributors df)
          else mret df) ;
    plot df
  else
    emit (Print "Invalid data source!") ;;
    mret RNone.

(** The reshaping of the API's SpO2 rows (lines 269-270 and 297-298):
    rows without a value go, the rest keep the [average] sub-field. *)
Definition spo2_average (df : DataFrame) : outcome DataFrame :=
  obind (dropna_subset df "spo2_percentage") (fun df =>
  obind (getitem df "spo2_percentage") (fun series =>
  obind (mapM (subscript "average") series) (fun averages =>
  Ret (setitem df "spo2_percentage" averages)))).

(** The axis label of a bucket that starts at [t] and lasts [n] days. *)
Definition period_label (n : Z) (t : timestamp) : outcome string :=
  obind (date_add (ts_date t) (n - 1)) (fun last =>
  Ret (strftime (pads_year env) (ts_date t) ++ " to "
       ++ strftime (pads_year env) last)%string).

Definition get_and_plot_daily_data (data_type source start_date : string)
    (end_date duration : option string) (caption : string)
    (peacewisedDays : Z) (detect_trends : bool) (n_bkps : Z)
    (detect_anomalies : bool) (anomaly_threshold : Q) : M pyret :=
  let continue (r : pyret) : M pyret :=
    df ← lift (as_table r) ;
    if empty df then
      emit (Print "No data available to plot.") ;;
      mret RNone
    else if peacewisedDays =? 1 then
      if String.eqb data_type "daily_spo2" then
        df ← (if String.eqb source "api" then lift (spo2_average df)
              else mret df) ;
        plot_data df "spo2_percentage" (pretty_name data_type ++ " Score")
          ("Daily " ++ pretty_name data_type) caption None None
          detect_trends n_bkps detect_anomalies anomaly_threshold ;;
        mret RNone
      else
        plot_data df "score" (pretty_name data_type ++ " Score")
          ("Daily " ++ pretty_name data_type) caption None None
          detect_trends n_bkps detect_anomalies anomaly_threshold ;;
        mret RNone
    else
      df ← (if String.eqb data_type "daily_spo2" && String.eqb source "api"
            then lift (spo2_average df) else mret df) ;
      let column :=
        if String.eqb data_type "daily_spo2" then "spo2_percentage"
        else "score" in
      day ← lift (getitem df "day") ;
      times ← lift (to_datetime env day) ;
      let df := setitem df "day" times in
      indexed ← lift (set_index_sorted df "day") ;
      let index := fst indexed in
      let df := snd indexed in
      series ← lift (getitem df column) ;
      df_resampled ← lift (resample_mean env peacewisedDays index series) ;
      period_labels ←
        lift (mapM (fun b => period_label peacewisedDays (fst b))
                df_resampled) ;
      if empty df then
        emit (Print "No data to plot.") ;;
        mret RNone
      else
        emit RcParams ;;
        mean_value ← lift (obind (getitem df column) mean) ;
        emit Subplots ;;
        let y_label := (pretty_name data_type ++ " " ++ column)%string in
        let title := ("Daily " ++ pretty_name data_type)%string in
        emit (PlotLine (map (fun b => Atom (Time (fst b))) df_resampled)
                (map snd df_resampled) "black" ("Daily " ++ y_label)) ;;
        emit (AxHLine mean_value "blue" "Mean score") ;;
        (if detect_trends then
           change_points ← change_points_of "rbf" df column ;
           for_each (removelast change_points) (fun cp =>
             day ← lift (getitem df "day") ;
             change_date ← lift (iloc day cp) ;
             emit (AxVLine change_date))
         else mret tt) ;;
        (if detect_anomalies then
           anomalies ← lift (anomalies_of df column anomaly_threshold) ;
           if detect_anomalies && negb (empty anomalies) then
             xs ← lift (getitem anomalies "day") ;
             ys ← lift (getitem anomalies column) ;
             emit (Scatter xs ys)
           else mret tt
         else mret tt) ;;
        emit (XTicks period_labels) ;;
        emit (Decorate "Day" y_label title) ;;
        emit Show ;;
        (if negb (String.eqb caption "") then
           emit (Display ("**Figure:** " ++ caption))
         else emit (Print "out of range of peacewised Days")) ;;
        mret RNone in
  if String.eqb source "csv" then
    r ← load_data_from_csv data_type start_date end_date duration ;
    continue r
  else if String.eqb source "api" then
    r ← fetch_data_from_api data_type start_date end_date duration
          false None ;
    continue r
  else
    emit (Print "Invalid data source!") ;;
    mret RNone.

(** [[float(x) for x in phases]]: the phases are a string of digits,
    one per five minutes. *)
Definition phase_values_of (c : cell) : outcome (list Z) :=
  match c with
  | Atom (Str s) =>
      mapM (fun x => if is_digit x then Ret (digit_val x)
                     else Raise ValueError)
        (list_ascii_of_string s)
  | _ => Raise TypeError
  end.

(** [(start_time + i * timedelta(minutes=5)).strftime("%H:%M")] *)
Definition time_label (start_time : timestamp) (i : nat) : outcome string :=
  let minutes :=
    ts_hour start_time * 60 + ts_minute start_time + 5 * Z.of_nat i in
  obind (date_add (ts_date start_time) (minutes / 1440)) (fun _ =>
  Ret (pad2 (minutes / 60 mod 24) ++ ":" ++ pad2 (minutes mod 60))%string).

(** [colors.get(phase, 'black')] *)
Definition phase_color (phase : Z) : string :=
  match phase with
  | 4 => "red"
  | 3 => "blue"
  | 2 => "green"
  | 1 => "purple"
  | _ => "black"
  end.

Fixpoint enumerate {A} (i : nat) (l : list A) : list (nat * A) :=
  match l with
  | [] => []
  | x :: l' => (i, x) :: enumerate (S i) l'
  end.

Definition plot_sleep_phases (source date caption : string) : M pyret :=
  end_date ← lift (_convert_date date (Some "day")) ;
  let continue (r : pyret) : M pyret :=
    df ← lift (as_table r) ;
    if empty df then
      emit (Print "No data available for plotting.") ;;
      mret RNone
    else
      day ← lift (getitem df "day") ;
      phases ← lift (getitem (loc df (map (eq_str date) day))
                       "sleep_phase_5_min") ;
      sleep_phases ← lift (iloc phases 0) ;
      phase_values ← lift (phase_values_of sleep_phases) ;
      bedtime_start ← lift (getitem df "bedtime_start") ;
      first_start ← lift (iloc bedtime_start 0) ;
      start_time ← lift (match first_start with
                         | Atom (Str s) => fromisoformat env s
                         | _ => Raise TypeError
                         end) ;
      time_labels ← lift (mapM (time_label start_time)
                            (positions phase_values)) ;
      emit Subplots ;;
      for_each (enumerate 0 (removelast phase_values)) (fun ip =>
        emit (HLines (snd ip) (fst ip) (fst ip + 1)
                (phase_color (snd ip)))) ;;
      emit (XTicks time_labels) ;;
      emit (Decorate "Time (5-minute intervals)" "Sleep Phase"
              ("Sleep Phases on " ++ date)) ;;
      emit Show ;;
      (if negb (String.eqb caption "") then
         emit (Display ("**Figure:** " ++ caption))
       else mret tt) ;;
      mret RNone in
  if String.eqb source "csv" then
    r ← load_data_from_csv "sleep" date (Some end_date) None ;
    continue r
  else if String.eqb source "api" then
    r ← fetch_data_from_api "sleep" date (Some end_date) None false None ;
    continue r
  else
    emit (Print "Invalid data source!") ;;
    mret RNone.

Definition plot_bedtime (data_type source start_date : string)
    (end_date duration : option string) (caption : string) : M pyret :=
  let continue (r : pyret) : M pyret :=
    df ← lift (as_table r) ;
    if empty df then
      emit (Print "No data available for plotting.") ;;
      mret RNone
    else
      let draw (bedtime_column title label line_color : string) : M pyret :=
        stamps ← lift (getitem df bedtime_column) ;
        bedtime ← lift (to_datetime env stamps) ;
        let df := setitem df "bedtime" bedtime in
        bedtime ← lift (getitem df "bedtime") ;
        bedtime_time ← lift (mapM hour_of_day bedtime) ;
        let df := setitem df "bedtime_time" bedtime_time in
        emit Subplots ;;
        day ← lift (getitem df "day") ;
        ys ← lift (getitem df "bedtime_time") ;
        emit (Stem day ys line_color label) ;;
        emit (Decorate "Day" "Time (Hours)" title) ;;
        emit Show ;;
        (if negb (String.eqb caption "") then
           emit (Display ("**Figure:** " ++ caption))
         else mret tt) ;;
        mret RNone in
      if String.eqb data_type "start" then
        draw "bedtime_start" "Bedtime Start" "Start Time" "blue"
      else if String.eqb data_type "end" then
        draw "bedtime_end" "Bedtime End" "End Time" "red"
      else
        emit (Print "Invalid data type!") ;;
        mret RNone in
  if String.eqb source "csv" then
    r ← load_data_from_csv "sleep" start_date end_date duration ;
    continue r
  else if String.eqb source "api" then
    r ← fetch_data_from_api "sleep" start_date end_date duration
          false None ;
    continue r
  else
    emit (Print "Invalid data source!") ;;
    mret RNone.

Definition plot_heart_rate (date source caption : string) : M pyret :=
  r ← fetch_data_from_api "heartrate" date None None false None ;
  df ← lift (as_table r) ;
  if empty df then
    emit (Print "No data available for plotting.") ;;
    mret RNone
  else
    df ← (if String.eqb source "rest" then
            tags ← lift (getitem df "source") ;
            mret (loc df (map (eq_str "rest") tags))
          else if String.eqb source "awake" then
            tags ← lift (getitem df "source") ;
            mret (loc df (map (eq_str "awake") tags))
          else mret df) ;
    stamps ← lift (getitem df "timestamp") ;
    times ← lift (to_datetime env stamps) ;
    let df := setitem df "timestamp" times in
    times ← lift (getitem df "timestamp") ;
    hours ← lift (mapM hour_of_day times) ;
    mean_value ← lift (obind (getitem df "bpm") mean) ;
    emit Subplots ;;
    bpm ← lift (getitem df "bpm") ;
    emit (PlotLine hours bpm "black" "Heart Rate") ;;
    emit (AxHLine mean_value "blue" "Mean Heart Rate") ;;
    emit (Decorate "Time (Hours)" "Heart Rate (BPM)"
            "Heart Rate Over Time") ;;
    emit Show ;;
    (if negb (String.eqb caption "") then
       emit (Display ("**Figure:** " ++ caption))
     else mret tt) ;;
    mret RNone.

End OuraDataHandler.

(** ** Vocabulary of the specification *)

(** The specification's offset table: the signed number of days a
    period tag stands for. *)
Definition offset_table (period : option string) : Z :=
  if is_str period "week" then -7
  else if is_str period "month" then -30
  else if is_str period "year" then -365
  else if is_str period "day" then 1
  else 0.

(** [check] holds on the [len] integers from [lo] on, by halving. *)
Fixpoint all_in_range (check : Z -> bool) (depth : nat) (lo len : Z) : bool :=
  match depth with
  | O => (len <=? 0) || ((len =? 1) && check lo)
  | S depth' =>
      if len <=? 1 then (len <=? 0) || check lo
      else
        let half := len / 2 in
        all_in_range check depth' lo half
        && all_in_range check depth' (lo + half) (len - half)
  end.

(** The month and day of the [n]-th day (from 0) of a year, as
    [ord2ymd] finds them. *)
Definition month_day (leapyear : bool) (n : Z) : Z * Z :=
  let m := Z.shiftr (n + 50) 5 in
  let preceding :=
    DAYS_BEFORE_MONTH m + (if (2 <? m) && leapyear then 1 else 0) in
  if n <? preceding then
    let m' := m - 1 in
    let preceding' :=
      preceding
      - (DAYS_IN_MONTH m' + (if (m' =? 2) && leapyear then 1 else 0)) in
    (m', n - preceding' + 1)
  else (m, n - preceding + 1).

Definition check_month_day (leapyear : bool) (n : Z) : bool :=
  let '(m, d) := month_day leapyear n in
  (1 <=? m) && (m <=? 12) && (1 <=? d)
  && (d <=? (if (m =? 2) && leapyear then 29 else DAYS_IN_MONTH m))
  && (DAYS_BEFORE_MONTH m + (if (2 <? m) && leapyear then 1 else 0) + d
      =? n + 1).

(** The day of a row, when it is a string. *)
Definition day_of (r : record) : option string :=
  match dict_get "day" r with
  | Some (Atom (Str s)) => Some s
  | _ => None
  end.

(** [lo <= day <= hi], both ends included, in the order of strings. *)
Definition in_window (lo hi : string) (r : record) : bool :=
  match day_of r with
  | Some s => String.leb lo s && String.leb s hi
  | None => false
  end.

(** The window of a request: from the resolved start to the start date
    when no end date is given, from the start date to the end date
    otherwise. *)
Definition date_window (env : Env) (start_date : string)
    (end_date duration : option string) : outcome (string * string) :=
  match end_date with
  | None =>
      obind (_convert_date env start_date duration) (fun resolved_start =>
      Ret (resolved_start, start_date))
  | Some end_date => Ret (start_date, end_date)
  end.

(** What an entry point loads from its source, ['csv'] or ['api']. *)
Definition load_from (env : Env) (self : Handler)
    (source data_type start_date : string) (end_date duration : option string)
    : M pyret :=
  if String.eqb source "csv" then
    load_data_from_csv env self data_type start_date end_date duration
  else
    fetch_data_from_api env self data_type start_date end_date duration
      false None.

(** The order of two dates as triples. *)
Definition compare_ymd (d1 d2 : date) : comparison :=
  match year d1 ?= year d2 with
  | Eq =>
      match month d1 ?= month d2 with
      | Eq => day d1 ?= day d2
      | c => c
      end
  | c => c
  end.

(** The sub-fields of a row's [contributors] object, as cells. *)
Definition lifted_fields (r : record) : record :=
  match dict_get "contributors" r with
  | Some (Obj fields) => map (fun kv => (fst kv, Atom (snd kv))) fields
  | _ => []
  end.

(** The [deep_sleep] sub-field of a row's [contributors] object. *)
Definition deep_sleep_of (r : record) : cell :=
  cell_of "deep_sleep" (lifted_fields r).

(** The normalised deep-sleep table in the specification's words: the
    columns of the payload without [contributors], then the sub-fields
    of [contributors] as columns, with [deep_sleep] named
    [contributors_deep_sleep]. *)
Definition flattened (payload : list record) : DataFrame :=
  let name := rename_key "deep_sleep" "contributors_deep_sleep" in
  let kept :=
    filter (fun k => negb (String.eqb k "contributors")) (keys_union payload) in
  let lifted := keys_union (map lifted_fields payload) in
  mkDataFrame (map name (kept ++ lifted))
    (map (fun r =>
            map (fun c => (name c, cell_of c r)) kept
            ++ map (fun c => (name c, cell_of c (lifted_fields r))) lifted)
       payload).



(** The events that draw anomaly markers, and those that fit the
    changepoint model. *)
Definition is_scatter (e : event) : bool :=
  match e with
  | Scatter _ _ => true
  | _ => false
  end.

Definition is_pelt_fit (e : event) : bool :=
  match e with
  | PeltFit _ _ _ => true
  | _ => false
  end.


(** The events of loading: printed lines, requests, file accesses. *)
Definition is_io (e : event) : bool :=
  match e with
  | Print _ | HttpGet _ _ _ _ | ReadCsv _ | WriteCsv _ _ => true
  | _ => false
  end.


(** ** Vocabulary of the further properties *)

(** A table is rectangular when its column names are distinct and every
    row holds exactly one cell per column, in the order of the columns. *)
Definition rectangular (df : DataFrame) : Prop :=
  NoDup (columns df) /\ Forall (fun r => map fst r = columns df) (records df).

(** Kinds of events. *)
Definition is_write (e : event) : bool :=
  match e with
  | WriteCsv _ _ => true
  | _ => false
  end.

Definition is_request (e : event) : bool :=
  match e with
  | HttpGet _ _ _ _ => true
  | _ => false
  end.

Definition is_read (e : event) : bool :=
  match e with
  | ReadCsv _ => true
  | _ => false
  end.

Definition is_show (e : event) : bool :=
  match e with
  | Show => true
  | _ => false
  end.

Definition is_display (e : event) : bool :=
  match e with
  | Display _ => true
  | _ => false
  end.

Definition is_plot_line (e : event) : bool :=
  match e with
  | PlotLine _ _ _ _ => true
  | _ => false
  end.

(** An event of a run that stays on the machine: no request sent and no
    file written. *)
Definition stays_offline (e : event) : Prop :=
  is_request e = false /\ is_write e = false.

(** An event of a run that leaves the local files alone: none read and
    none written. *)
Definition leaves_files (e : event) : Prop :=
  is_read e = false /\ is_write e = false.

(** The line the aggregated view prints after a figure without
    caption. *)
Definition is_range_message (e : event) : bool :=
  match e with
  | Print text => String.eqb text "out of range of peacewised Days"
  | _ => false
  end.

(** The segment of the sample at position [i] with phase [v]. *)
Definition segment (ip : nat * Z) : event :=
  HLines (snd ip) (fst ip) (fst ip + 1) (phase_color (snd ip)).

(** The rows of a heart-rate table that a source tag selects: those
    tagged [rest] or [awake] for these two tags, every row for any
    other tag. *)
Definition heart_rate_rows (source : string) (df : DataFrame) : list record :=
  if String.eqb source "rest" then
    filter (fun r => eq_str "rest" (cell_of "source" r)) (records df)
  else if String.eqb source "awake" then
    filter (fun r => eq_str "awake" (cell_of "source" r)) (records df)
  else records df.

(** Text in ASCII, and text all of whose characters pass a test. *)
Definition is_ascii (c : ascii) : bool := (nat_of_ascii c <? 128)%nat.

Fixpoint string_forallb (p : ascii -> bool) (s : string) : bool :=
  match s with
  | EmptyString => true
  | String c s' => p c && string_forallb p s'
  end.

(** ** Sample data *)

(** A file system that takes every file but one without a name. *)
Definition sample_write (path : string) (df : DataFrame) : outcome unit :=
  if String.eqb path "" then Raise IOError else Ret tt.

(** Rolling statistics computed in two passes over the observed samples
    of each window. *)
Definition fsum (xs : list float64) : float64 := fold_left fadd xs (of_Z 0).

Definition window_mean (obs : list float64) : float64 :=
  fdiv (fsum obs) (of_Z (Z.of_nat (List.length obs))).

Definition window_std (obs : list float64) : float64 :=
  let m := window_mean obs in
  fsqrt (fdiv (fsum (map (fun x => fmul (fsub x m) (fsub x m)) obs))
           (of_Z (Z.of_nat (List.length obs) - 1))).

Definition two_pass (stat : list float64 -> float64) (least : nat)
    (w p : nat) (xs : list float64) : list float64 :=
  map (fun i =>
         let obs := filter (fun x => negb (is_nan x)) (window w xs i) in
         if (List.length obs <? Nat.max p least)%nat then NaN else stat obs)
    (positions xs).

Definition two_pass_mean : nat -> nat -> list float64 -> list float64 :=
  two_pass window_mean 1.

Definition two_pass_std : nat -> nat -> list float64 -> list float64 :=
  two_pass window_std 2.

(** Two daily sleep rows as the API answers them. *)
Definition sample_rows : list record :=
  [ [("id", Atom (Str "a1")); ("contributors",
       Obj [("deep_sleep", Num (90 # 1)); ("efficiency", Num (80 # 1))]);
     ("day", Atom (Str "2023-11-01")); ("score", Atom (Num (75 # 1)))];
    [("id", Atom (Str "b2")); ("contributors",
       Obj [("deep_sleep", Num (60 # 1)); ("efficiency", Num (85 # 1))]);
     ("day", Atom (Str "2023-11-02")); ("score", Atom (Num (80 # 1)))] ].

(** A daily sleep export. *)
Definition sample_file : DataFrame :=
  from_records
    [ [("day", Atom (Str "2023-10-31")); ("score", Atom (Num (70 # 1)))];
      [("day", Atom (Str "2023-11-01")); ("score", Atom (Num (75 # 1)))];
      [("day", Atom (Str "2023-11-02")); ("score", Atom (Num (80 # 1)))];
      [("day", Atom (Str "2023-11-08")); ("score", Atom (Num (78 # 1)))] ].

Definition sample_env : Env :=
  mkEnv false
    (fun _ _ _ _ => Ret sample_rows)
    (fun _ => Ret sample_file)
    (fun _ signal _ => Ret [List.length signal])
    (fun series => Ret series)
    (fun _ => Raise ValueError)
    (fun _ _ _ => Ret [])
    sample_write two_pass_mean two_pass_std.



(** An API that answers one night of four samples. *)
Definition night_env : Env :=
  mkEnv false
    (fun _ _ _ _ =>
       Ret [[("day", Atom (Str "2023-11-01"));
             ("sleep_phase_5_min", Atom (Str "4432"));
             ("bedtime_start", Atom (Str "2023-11-01T23:50:00"))]])
    (fun _ => Raise IOError)
    (fun _ _ _ => Ret [])
    (fun l => Ret l)
    (fun _ => Ret (mkTimestamp (mkDate 2023 11 1) 23 50))
    (fun _ _ _ => Ret [])
    sample_write two_pass_mean two_pass_std.

Definition sample_handler : Handler :=
  mkHandler "https://api.ouraring.com"
    {[ "daily_sleep" := "oura_daily-sleep.csv" ]}
    (Some "YOUR_ACCESS_TOKEN").

Definition tokenless_handler : Handler :=
  mkHandler "https://api.ouraring.com"
    {[ "daily_sleep" := "oura_daily-sleep.csv" ]}
    None.

(** Two daily SpO2 rows as the API answers them, the second without a
    value, and the table the reshaping makes of them. *)
Definition spo2_rows : list record :=
  [ [("day", Atom (Str "2023-11-01"));
     ("spo2_percentage", Obj [("average", Num (97 # 1))])];
    [("day", Atom (Str "2023-11-02")); ("spo2_percentage", Atom Null)] ].

Definition spo2_flat : DataFrame :=
  mkDataFrame ["day"; "spo2_percentage"]
    [ [("day", Atom (Str "2023-11-01"));
       ("spo2_percentage", Atom (Num (97 # 1)))] ].

(** Two heart-rate samples as the API answers them, and the clock that
    reads their timestamps. *)
Definition heart_rows : list record :=
  [ [("bpm", Atom (Num (52 # 1))); ("source", Atom (Str "rest"));
     ("timestamp", Atom (Str "2023-11-01T03:10:00+00:00"))];
    [("bpm", Atom (Num (88 # 1))); ("source", Atom (Str "awake"));
     ("timestamp", Atom (Str "2023-11-01T13:45:00+00:00"))] ].

Definition clock_of (c : cell) : cell :=
  match c with
  | Atom (Str s) =>
      if String.eqb s "2023-11-01T03:10:00+00:00"
      then Atom (Time (mkTimestamp (mkDate 2023 11 1) 3 10))
      else if String.eqb s "2023-11-01T13:45:00+00:00"
      then Atom (Time (mkTimestamp (mkDate 2023 11 1) 13 45))
      else Atom Null
  | _ => Atom Null
  end.

Definition heart_env : Env :=
  mkEnv false
    (fun _ _ _ _ => Ret heart_rows)
    (fun _ => Raise IOError)
    (fun _ _ _ => Ret [])
    (fun series => Ret (map clock_of series))
    (fun _ => Raise ValueError)
    (fun _ _ _ => Ret [])
    sample_write two_pass_mean two_pass_std.

(** * Proofs *)

#[local] Arguments String.append : simpl nomatch.

(** ** The calendar *)

Lemma all_in_range_sound check depth :
  forall lo len,
    all_in_range check depth lo len = true ->
    forall k, lo <= k < lo + len -> check k = true.
Proof.
  induction depth as [| depth IH]; intros lo len H k Hk; cbn in H.
  - apply orb_true_iff in H as [H | H]; [lia |].
    apply andb_true_iff in H as [H1 H2].
    replace k with lo by lia. exact H2.
  - destruct (len <=? 1) eqn:Hlen.
    + apply orb_true_iff in H as [H | H]; [lia |].
      replace k with lo by lia. exact H.
    + apply andb_true_iff in H as [H1 H2].
      assert (0 <= len / 2 <= len) by (Z.div_mod_to_equations; lia).
      destruct (Z.lt_ge_cases k (lo + len / 2)).
      * apply (IH _ _ H1). lia.
      * apply (IH _ _ H2). lia.
Qed.

Lemma month_day_checked leapyear n :
  0 <= n < 365 -> check_month_day leapyear n = true.
Proof.
  intros Hn.
  assert (all_in_range (check_month_day true) 9 0 365 = true
          /\ all_in_range (check_month_day false) 9 0 365 = true) as [Ht Hf]
    by (split; vm_compute; reflexivity).
  destruct leapyear;
    [apply (all_in_range_sound _ _ _ _ Ht) | apply (all_in_range_sound _ _ _ _ Hf)];
    lia.
Qed.

Lemma days_before_year_split q400 q100 q4 q1 :
  0 <= q400 -> 0 <= q100 <= 3 -> 0 <= q4 <= 24 -> 0 <= q1 <= 3 ->
  days_before_year (400 * q400 + 100 * q100 + 4 * q4 + q1 + 1)
  = 146097 * q400 + 36524 * q100 + 1461 * q4 + 365 * q1.
Proof.
  intros. unfold days_before_year. Z.div_mod_to_equations; lia.
Qed.

Lemma is_leap_split q400 q100 q4 q1 :
  0 <= q400 -> 0 <= q100 <= 3 -> 0 <= q4 <= 24 -> 0 <= q1 <= 3 ->
  is_leap (400 * q400 + 100 * q100 + 4 * q4 + q1 + 1)
  = (q1 =? 3) && (negb (q4 =? 24) || (q100 =? 3)).
Proof.
  intros. unfold is_leap.
  (repeat match goal with
         | |- context [?a =? ?b] => destruct (Z.eqb_spec a b)
         end; cbn; try reflexivity; exfalso; Z.div_mod_to_equations; lia).
Qed.

Lemma fromordinal_correct n :
  1 <= n <= MAXORDINAL ->
  valid_date (fromordinal n) = true /\ toordinal (fromordinal n) = n.
Proof.
  unfold MAXORDINAL. intros Hn. unfold fromordinal, ord2ymd.
  unfold DI400Y, DI100Y, DI4Y. cbv zeta.
  remember ((n - 1) / 146097) as q400 eqn:E400.
  remember ((n - 1) mod 146097) as r400 eqn:R400.
  remember (r400 / 36524) as q100 eqn:E100.
  remember (r400 mod 36524) as r100 eqn:R100.
  remember (r100 / 1461) as q4 eqn:E4.
  remember (r100 mod 1461) as r4 eqn:R4.
  remember (r4 / 365) as q1 eqn:E1.
  remember (r4 mod 365) as r eqn:R1.
  assert (n - 1 = 146097 * q400 + r400 /\ 0 <= r400 < 146097 /\ 0 <= q400 <= 24)
    as (D400 & B400 & Q400) by (subst q400 r400; Z.div_mod_to_equations; lia).
  assert (r400 = 36524 * q100 + r100 /\ 0 <= r100 < 36524 /\ 0 <= q100 <= 4)
    as (D100 & B100 & Q100) by (subst q100 r100; Z.div_mod_to_equations; lia).
  assert (r100 = 1461 * q4 + r4 /\ 0 <= r4 < 1461 /\ 0 <= q4 <= 24)
    as (D4 & B4 & Q4) by (subst q4 r4; Z.div_mod_to_equations; lia).
  assert (r4 = 365 * q1 + r /\ 0 <= r < 365 /\ 0 <= q1 <= 4)
    as (D1 & B1 & Q1) by (subst q1 r; Z.div_mod_to_equations; lia).
  clear E400 R400 E100 R100 E4 R4 E1 R1.
  destruct ((q1 =? 4) || (q100 =? 4)) eqn:Hedge.
  - (* the last day of a leap year *)
    unfold valid_date, toordinal, valid_ymd, ymd2ord, days_in_month,
      days_before_month, MINYEAR, MAXYEAR; cbn [year month day].
    apply orb_true_iff in Hedge as [Hq | Hq]; apply Z.eqb_eq in Hq.
    + replace (q400 * 400 + 1 + q100 * 100 + q4 * 4 + q1 - 1)
        with (400 * q400 + 100 * q100 + 4 * q4 + 3 + 1) by lia.
      rewrite is_leap_split, days_before_year_split by lia.
      replace (q4 =? 24) with false by (symmetry; apply Z.eqb_neq; lia).
      cbn. split; [| lia].
      repeat (apply andb_true_iff; split); lia.
    + replace (q400 * 400 + 1 + q100 * 100 + q4 * 4 + q1 - 1)
        with (400 * q400 + 100 * 3 + 4 * 24 + 3 + 1) by lia.
      rewrite is_leap_split, days_before_year_split by lia.
      cbn. split; [| lia].
      repeat (apply andb_true_iff; split); lia.
  - apply orb_false_iff in Hedge as [Hq1 Hq100].
    apply Z.eqb_neq in Hq1, Hq100.
    set (leapyear := (q1 =? 3) && (negb (q4 =? 24) || (q100 =? 3))).
    pose proof (month_day_checked leapyear r B1) as Hmd.
    unfold check_month_day, month_day in Hmd. cbv zeta in Hmd.
    replace (q400 * 400 + 1 + q100 * 100 + q4 * 4 + q1)
      with (400 * q400 + 100 * q100 + 4 * q4 + q1 + 1) by lia.
    assert (Hleap : is_leap (400 * q400 + 100 * q100 + 4 * q4 + q1 + 1)
                    = leapyear) by (apply is_leap_split; lia).
    assert (Hdby : days_before_year (400 * q400 + 100 * q100 + 4 * q4 + q1 + 1)
                   = 146097 * q400 + 36524 * q100 + 1461 * q4 + 365 * q1)
      by (apply days_before_year_split; lia).
    destruct (r <? _) eqn:Hlt in Hmd |- *;
      unfold valid_date, toordinal, valid_ymd, ymd2ord, days_in_month,
        days_before_month, MINYEAR, MAXYEAR; cbn [year month day];
      rewrite Hleap, Hdby;
      repeat (apply andb_true_iff in Hmd as [Hmd ?]);
      repeat match goal with
        | H : (_ <=? _) = true |- _ => apply Z.leb_le in H
        | H : (_ =? _) = true |- _ => apply Z.eqb_eq in H
        end.
    + split; [| lia].
      repeat (apply andb_true_iff; split); try apply Z.leb_le; lia.
    + split; [| lia].
      repeat (apply andb_true_iff; split); try apply Z.leb_le; lia.
Qed.

Lemma digit_char_val k :
  0 <= k <= 9 -> is_digit (digit_char k) = true /\ digit_val (digit_char k) = k.
Proof.
  intros Hk.
  assert (k = 0 \/ k = 1 \/ k = 2 \/ k = 3 \/ k = 4 \/ k = 5 \/ k = 6
          \/ k = 7 \/ k = 8 \/ k = 9) as Hc by lia.
  repeat (destruct Hc as [-> | Hc]; [split; reflexivity |]).
  subst k; split; reflexivity.
Qed.

Lemma re_Y_pad4 y s :
  0 <= y <= 9999 -> re_Y (pad4 y ++ s) = [(y, s)].
Proof.
  intros Hy. unfold pad4. cbn [String.append]. unfold re_Y.
  destruct (digit_char_val (y / 1000)) as [-> ->].
  { Z.div_mod_to_equations; lia. }
  destruct (digit_char_val (y / 100 mod 10)) as [-> ->].
  { Z.div_mod_to_equations; lia. }
  destruct (digit_char_val (y / 10 mod 10)) as [-> ->].
  { Z.div_mod_to_equations; lia. }
  destruct (digit_char_val (y mod 10)) as [-> ->].
  { Z.div_mod_to_equations; lia. }
  cbn [andb]. do 2 f_equal.
  Z.div_mod_to_equations. lia.
Qed.


Lemma re_m_pad2 m s :
  1 <= m <= 12 -> exists tl, re_m (pad2 m ++ s) = (m, s) :: tl.
Proof.
  intros Hm.
  assert (m = 1 \/ m = 2 \/ m = 3 \/ m = 4 \/ m = 5 \/ m = 6 \/ m = 7
          \/ m = 8 \/ m = 9 \/ m = 10 \/ m = 11 \/ m = 12) as Hc by lia.
  repeat (destruct Hc as [-> | Hc]; [eexists; reflexivity |]).
  subst m; eexists; reflexivity.
Qed.

Lemma re_d_pad2 d :
  1 <= d <= 31 -> exists tl, re_d (pad2 d) = (d, "") :: tl.
Proof.
  intros Hd.
  assert (Hc : exists k, d = 1 + Z.of_nat k /\ (k < 31)%nat)
    by (exists (Z.to_nat (d - 1)); lia).
  destruct Hc as (k & -> & Hk).
  do 31 (destruct k as [| k]; [eexists; reflexivity |]).
  lia.
Qed.

Lemma days_in_month_le_31 y m : days_in_month y m <= 31.
Proof.
  unfold days_in_month, DAYS_IN_MONTH.
  destruct ((m =? 2) && is_leap y); [lia |].
  repeat (destruct m as [| [m | m |] |]; try lia).
Qed.

Lemma strptime_isoformat dt :
  valid_date dt = true -> strptime (isoformat dt) = Ret dt.
Proof.
  destruct dt as [y m d]. unfold valid_date, isoformat, strftime; cbn [year month day].
  intros Hv. pose proof Hv as Hv'. unfold valid_ymd, MINYEAR, MAXYEAR in Hv'.
  repeat (apply andb_true_iff in Hv' as [Hv' ?]).
  repeat match goal with
    | H : (_ <=? _) = true |- _ => apply Z.leb_le in H
    end.
  pose proof (days_in_month_le_31 y m).
  unfold strptime, re_match, strftime_Y. cbn [orb].
  rewrite re_Y_pad4 by lia. cbn [flat_map].
  change ("-" ++ pad2 m ++ "-" ++ pad2 d)%string
    with (String "-" (pad2 m ++ String "-" (pad2 d))).
  cbn [re_dash Ascii.eqb Bool.eqb flat_map].
  destruct (re_m_pad2 m (String "-" (pad2 d))) as [tl1 ->]; [lia |].
  cbn [flat_map re_dash Ascii.eqb Bool.eqb].
  destruct (re_d_pad2 d) as [tl2 ->]; [lia |].
  cbn. rewrite Hv. reflexivity.
Qed.

Lemma days_before_year_succ y :
  days_before_year (y + 1)
  = days_before_year y + 365 + (if is_leap y then 1 else 0).
Proof.
  unfold days_before_year, is_leap. cbv zeta.
  replace (y + 1 - 1) with y by lia.
  repeat match goal with
    | |- context [?a =? ?b] => destruct (Z.eqb_spec a b)
    end; cbn [andb orb negb]; Z.div_mod_to_equations; lia.
Qed.

Lemma days_before_year_mono y1 y2 :
  y1 <= y2 -> days_before_year y1 + 365 * (y2 - y1) <= days_before_year y2.
Proof.
  intros H. pattern y2. apply (Z.le_ind _ ltac:(intros ? ? ->; tauto) y1); [lia | | exact H].
  intros y Hy IH. replace (Z.succ y) with (y + 1) by lia.
  rewrite days_before_year_succ. destruct (is_leap y); lia.
Qed.

Lemma day_of_year_bounds y m d :
  valid_ymd y m d = true ->
  1 <= days_before_month y m + d <= 365 + (if is_leap y then 1 else 0).
Proof.
  unfold valid_ymd, days_before_month, days_in_month. intros Hv.
  repeat (apply andb_true_iff in Hv as [Hv ?]).
  repeat match goal with
    | H : (_ <=? _) = true |- _ => apply Z.leb_le in H
    end.
  assert (m = 1 \/ m = 2 \/ m = 3 \/ m = 4 \/ m = 5 \/ m = 6 \/ m = 7
          \/ m = 8 \/ m = 9 \/ m = 10 \/ m = 11 \/ m = 12) as Hc by lia.
  destruct (is_leap y);
    repeat (destruct Hc as [-> | Hc]; [cbn in *; lia |]);
    subst m; cbn in *; lia.
Qed.

Lemma toordinal_bounds dt :
  valid_date dt = true -> 1 <= toordinal dt <= MAXORDINAL.
Proof.
  unfold valid_date, toordinal, ymd2ord. intros Hv.
  pose proof (day_of_year_bounds _ _ _ Hv) as Hd.
  unfold valid_ymd, MINYEAR, MAXYEAR in Hv.
  repeat (apply andb_true_iff in Hv as [Hv ?]).
  repeat match goal with
    | H : (_ <=? _) = true |- _ => apply Z.leb_le in H
    end.
  pose proof (days_before_year_mono 1 (year dt) ltac:(lia)) as Hlo.
  pose proof (days_before_year_mono (year dt + 1) 10000 ltac:(lia)) as Hhi.
  rewrite days_before_year_succ in Hhi.
  change (days_before_year 1) with 0 in Hlo.
  change (days_before_year 10000) with 3652059 in Hhi.
  unfold MAXORDINAL. lia.
Qed.

Lemma compare_digit a b s t :
  0 <= a <= 9 -> 0 <= b <= 9 ->
  String.compare (String (digit_char a) s) (String (digit_char b) t)
  = match a ?= b with
    | Eq => String.compare s t
    | c => c
    end.
Proof.
  intros Ha Hb.
  assert (Hc : exists i j, a = Z.of_nat i /\ b = Z.of_nat j
                           /\ (i < 10)%nat /\ (j < 10)%nat)
    by (exists (Z.to_nat a), (Z.to_nat b); lia).
  destruct Hc as (i & j & -> & -> & Hi & Hj).
  do 10 (destruct i as [| i];
         [do 10 (destruct j as [| j]; [reflexivity |]); lia |]).
  lia.
Qed.

Lemma compare_pad2 a b s t :
  0 <= a <= 99 -> 0 <= b <= 99 ->
  String.compare (pad2 a ++ s) (pad2 b ++ t)
  = match a ?= b with
    | Eq => String.compare s t
    | c => c
    end.
Proof.
  intros Ha Hb. unfold pad2. cbn [String.append].
  rewrite compare_digit by (Z.div_mod_to_equations; lia).
  destruct (Z.compare_spec (a / 10) (b / 10)) as [E | E | E].
  - rewrite compare_digit by (Z.div_mod_to_equations; lia).
    destruct (Z.compare_spec (a mod 10) (b mod 10));
      destruct (Z.compare_spec a b); try reflexivity;
      exfalso; Z.div_mod_to_equations; lia.
  - destruct (Z.compare_spec a b); try reflexivity;
      exfalso; Z.div_mod_to_equations; lia.
  - destruct (Z.compare_spec a b); try reflexivity;
      exfalso; Z.div_mod_to_equations; lia.
Qed.

Lemma pad4_pad2 y : pad4 y = (pad2 (y / 100) ++ pad2 (y mod 100))%string.
Proof.
  unfold pad4, pad2. cbn [String.append].
  replace (y / 100 / 10) with (y / 1000) by (Z.div_mod_to_equations; lia).
  replace (y mod 100 / 10) with (y / 10 mod 10)
    by (Z.div_mod_to_equations; lia).
  replace (y mod 100 mod 10) with (y mod 10)
    by (Z.div_mod_to_equations; lia).
  reflexivity.
Qed.

Lemma append_assoc (a b c : string) :
  ((a ++ b) ++ c = a ++ (b ++ c))%string.
Proof.
  induction a as [| x a IH]; [reflexivity |].
  cbn [String.append]. rewrite IH. reflexivity.
Qed.

Lemma append_dash s : ("-" ++ s)%string = String "-" s.
Proof. reflexivity. Qed.

Lemma compare_dash s t :
  String.compare (String "-" s) (String "-" t) = String.compare s t.
Proof. reflexivity. Qed.

Lemma compare_isoformat d1 d2 :
  valid_date d1 = true -> valid_date d2 = true ->
  String.compare (isoformat d1) (isoformat d2) = compare_ymd d1 d2.
Proof.
  intros H1 H2.
  pose proof (days_in_month_le_31 (year d1) (month d1)).
  pose proof (days_in_month_le_31 (year d2) (month d2)).
  unfold valid_date, valid_ymd, MINYEAR, MAXYEAR in H1, H2.
  repeat (apply andb_true_iff in H1 as [H1 ?]).
  repeat (apply andb_true_iff in H2 as [H2 ?]).
  repeat match goal with
    | H : (_ <=? _) = true |- _ => apply Z.leb_le in H
    end.
  unfold isoformat, strftime, strftime_Y, compare_ymd. cbn [orb].
  rewrite !pad4_pad2.
  rewrite !append_assoc.
  replace (pad2 (day d1)) with (pad2 (day d1) ++ "")%string by reflexivity.
  replace (pad2 (day d2)) with (pad2 (day d2) ++ "")%string by reflexivity.
  rewrite !append_dash.
  rewrite !compare_pad2 by (Z.div_mod_to_equations; lia).
  rewrite compare_dash, compare_pad2 by lia.
  rewrite compare_dash, compare_pad2 by lia.
  cbn [String.compare].
  destruct (month d1 ?= month d2); destruct (day d1 ?= day d2);
  destruct (Z.compare_spec (year d1 / 100) (year d2 / 100));
    destruct (Z.compare_spec (year d1 mod 100) (year d2 mod 100));
    destruct (Z.compare_spec (year d1) (year d2));
    try reflexivity; exfalso; Z.div_mod_to_equations; lia.
Qed.

Ltac month_cases m :=
  let H := fresh "Hm" in
  assert (H : m = 1 \/ m = 2 \/ m = 3 \/ m = 4 \/ m = 5 \/ m = 6 \/ m = 7
              \/ m = 8 \/ m = 9 \/ m = 10 \/ m = 11 \/ m = 12) by lia;
  repeat (destruct H as [H | H]); subst m.

Lemma months_before_mono leap m1 m2 d1 :
  1 <= m1 -> m1 < m2 -> m2 <= 12 ->
  d1 <= (if (m1 =? 2) && leap then 29 else DAYS_IN_MONTH m1) ->
  DAYS_BEFORE_MONTH m1 + (if (2 <? m1) && leap then 1 else 0) + d1
  <= DAYS_BEFORE_MONTH m2 + (if (2 <? m2) && leap then 1 else 0).
Proof.
  intros H1 H12 H2. month_cases m1; month_cases m2; try lia;
    destruct leap; cbn; lia.
Qed.

Lemma compare_toordinal d1 d2 :
  valid_date d1 = true -> valid_date d2 = true ->
  (toordinal d1 ?= toordinal d2) = compare_ymd d1 d2.
Proof.
  intros V1 V2.
  pose proof (day_of_year_bounds _ _ _ V1) as B1.
  pose proof (day_of_year_bounds _ _ _ V2) as B2.
  unfold valid_date, valid_ymd, MINYEAR, MAXYEAR in V1, V2.
  repeat (apply andb_true_iff in V1 as [V1 ?]).
  repeat (apply andb_true_iff in V2 as [V2 ?]).
  repeat match goal with
    | H : (_ <=? _) = true |- _ => apply Z.leb_le in H
    end.
  unfold toordinal, ymd2ord, compare_ymd.
  destruct (Z.compare_spec (year d1) (year d2)) as [Ey | Ey | Ey].
  - rewrite Ey in *. unfold days_before_month, days_in_month in *.
    destruct (Z.compare_spec (month d1) (month d2)) as [Em | Em | Em].
    + rewrite Em. destruct (Z.compare_spec (day d1) (day d2));
        [apply Z.compare_eq_iff | apply Z.compare_lt_iff
        | apply Z.compare_gt_iff]; lia.
    + apply Z.compare_lt_iff.
      pose proof (months_before_mono (is_leap (year d2)) (month d1) (month d2)
                    (day d1)). lia.
    + apply Z.compare_gt_iff.
      pose proof (months_before_mono (is_leap (year d2)) (month d2) (month d1)
                    (day d2)). lia.
  - apply Z.compare_lt_iff.
    pose proof (days_before_year_mono (year d1 + 1) (year d2) ltac:(lia)) as Hm.
    rewrite days_before_year_succ in Hm. lia.
  - apply Z.compare_gt_iff.
    pose proof (days_before_year_mono (year d2 + 1) (year d1) ltac:(lia)) as Hm.
    rewrite days_before_year_succ in Hm. lia.
Qed.

(** On ISO dates the order of strings is the order of days. *)
Lemma isoformat_leb d1 d2 :
  valid_date d1 = true -> valid_date d2 = true ->
  String.leb (isoformat d1) (isoformat d2) = (toordinal d1 <=? toordinal d2).
Proof.
  intros V1 V2. unfold String.leb, Z.leb.
  rewrite (compare_isoformat d1 d2 V1 V2), (compare_toordinal d1 d2 V1 V2).
  reflexivity.
Qed.

(** ** The date resolver *)

Lemma strftime_iso pads dt :
  pads = true \/ 1000 <= year dt -> strftime pads dt = isoformat dt.
Proof.
  intros H. unfold isoformat, strftime, strftime_Y.
  destruct H as [-> | H]; [reflexivity |].
  apply Z.leb_le in H. rewrite H, orb_true_r. reflexivity.
Qed.

Lemma date_add_in_range dt days :
  1 <= toordinal dt + days <= MAXORDINAL ->
  date_add dt days = Ret (fromordinal (toordinal dt + days)).
Proof.
  intros H. unfold date_add.
  replace (0 <? toordinal dt + days) with true by (symmetry; apply Z.ltb_lt; lia).
  replace (toordinal dt + days <=? MAXORDINAL) with true
    by (symmetry; apply Z.leb_le; lia).
  reflexivity.
Qed.

Lemma date_add_overflow dt days :
  ~ 1 <= toordinal dt + days <= MAXORDINAL ->
  date_add dt days = Raise OverflowError.
Proof.
  intros H. unfold date_add.
  destruct (0 <? toordinal dt + days) eqn:H1; [| reflexivity].
  destruct (toordinal dt + days <=? MAXORDINAL) eqn:H2; [| reflexivity].
  apply Z.ltb_lt in H1. apply Z.leb_le in H2. lia.
Qed.

(** What the resolver computes on a date it has parsed. *)
Lemma convert_date_parsed env dt period :
  valid_date dt = true ->
  _convert_date env (isoformat dt) period
  = if offset_table period =? 0 then Ret (strftime (pads_year env) dt)
    else obind (date_add dt (offset_table period))
           (fun adjusted => Ret (strftime (pads_year env) adjusted)).
Proof.
  intros Hv. unfold _convert_date, offset_table, date_sub.
  rewrite (strptime_isoformat dt Hv). cbn [obind].
  destruct (is_str period "week"); [reflexivity |].
  destruct (is_str period "month"); [reflexivity |].
  destruct (is_str period "year"); [reflexivity |].
  destruct (is_str period "day"); reflexivity.
Qed.

(** C1 (amended).  For a valid ISO date, the resolver returns the date
    moved by the offset table (week: 7 days back, month: 30 back, year:
    365 back, day: 1 forward) whenever the moved date is a date of the
    calendar, 0001-01-01 to 9999-12-31, and raises [OverflowError] when
    it is not; for any other or no period it returns the date it was
    given.  The text returned is the ISO form of that date when the
    platform prints years with four digits or the year is 1000 or
    later. *)
Theorem convert_date_offset_table env dt period :
  valid_date dt = true ->
  (offset_table period = 0 ->
   _convert_date env (isoformat dt) period
   = Ret (strftime (pads_year env) dt))
  /\ (1 <= toordinal dt + offset_table period <= MAXORDINAL ->
      exists dt',
        valid_date dt' = true
        /\ toordinal dt' = toordinal dt + offset_table period
        /\ _convert_date env (isoformat dt) period
           = Ret (strftime (pads_year env) dt'))
  /\ (~ 1 <= toordinal dt + offset_table period <= MAXORDINAL ->
      _convert_date env (isoformat dt) period = Raise OverflowError)
  /\ (forall dt', pads_year env = true \/ 1000 <= year dt' ->
      strftime (pads_year env) dt' = isoformat dt').
Proof.
  intros Hv. rewrite (convert_date_parsed env dt period Hv).
  repeat split.
  - intros ->. reflexivity.
  - intros Hr. destruct (Z.eqb_spec (offset_table period) 0) as [E | E].
    + exists dt. rewrite E. repeat split; [assumption | lia].
    + exists (fromordinal (toordinal dt + offset_table period)).
      destruct (fromordinal_correct _ Hr) as [Hvalid Hord].
      rewrite (date_add_in_range _ _ Hr). repeat split; assumption.
  - intros Hr. destruct (Z.eqb_spec (offset_table period) 0) as [E | E].
    + exfalso. apply Hr. rewrite E, Z.add_0_r. apply toordinal_bounds, Hv.
    + rewrite (date_add_overflow _ _ Hr). reflexivity.
  - intros dt'. apply strftime_iso.
Qed.

Lemma convert_date_offset_table_witness :
  exists dt',
    valid_date dt' = true
    /\ toordinal dt' = toordinal (mkDate 2023 11 1) + offset_table (Some "month")
    /\ _convert_date (mkEnv false (fun _ _ _ _ => Ret []) (fun _ => Raise IOError)
                        (fun _ _ _ => Ret []) (fun l => Ret l)
                        (fun _ => Raise ValueError) (fun _ _ _ => Ret [])
                        sample_write two_pass_mean two_pass_std)
         (isoformat (mkDate 2023 11 1)) (Some "month")
       = Ret (strftime false dt').
Proof.
  refine (proj1 (proj2 (convert_date_offset_table _ (mkDate 2023 11 1)
                          (Some "month") _)) _).
  - reflexivity.
  - vm_compute. split; discriminate.
Defined.

(** C1 as stated fails at both ends of the calendar and, where the C
    library does not pad years, before the year 1000: a week before
    0001-01-01 and a day after 9999-12-31 raise [OverflowError], and
    0999-01-08 comes back as 999-01-08. *)
Lemma convert_date_not_total :
  (forall env, _convert_date env "0001-01-01" (Some "week") = Raise OverflowError)
  /\ (forall env, _convert_date env "9999-12-31" (Some "day") = Raise OverflowError)
  /\ (forall env, pads_year env = false ->
       _convert_date env "0999-01-08" None = Ret "999-01-08").
Proof.
  repeat split; intros env; unfold _convert_date;
    try (intros ->); vm_compute; reflexivity.
Qed.

(** C2, on the code.  On the specification's example date the resolver
    returns 2023-12-01 for a week (seven days before 2023-12-08) and
    2023-12-09 for a day. *)
Theorem convert_date_examples env :
  _convert_date env "2023-12-08" (Some "week") = Ret "2023-12-01"
  /\ _convert_date env "2023-12-08" (Some "day") = Ret "2023-12-09".
Proof.
  unfold _convert_date. destruct (pads_year env); split; vm_compute; reflexivity.
Qed.

(** The week example returns 2023-12-01 and not the 2023-12-04 that the
    specification and the repository's test expect, whatever the
    platform. *)
Lemma convert_date_week_example_differs :
  _convert_date sample_env "2023-12-08" (Some "week") = Ret "2023-12-01"
  /\ (forall env,
        _convert_date env "2023-12-08" (Some "week") <> Ret "2023-12-04").
Proof.
  split; [reflexivity |].
  intros env. unfold _convert_date.
  destruct (pads_year env); vm_compute; discriminate.
Qed.

(** ** The CSV loader *)

#[local] Arguments _convert_date : simpl never.
#[local] Arguments between_mask : simpl never.

Lemma select_map {A} (f : A -> bool) (l : list A) :
  select (map f l) l = filter f l.
Proof.
  induction l as [| x l IH]; [reflexivity |].
  cbn. destruct (f x); rewrite IH; reflexivity.
Qed.

Lemma zip_with_map {A B C D} (h : B -> C -> D) (f : A -> B) (g : A -> C)
    (l : list A) :
  zip_with h (map f l) (map g l) = map (fun x => h (f x) (g x)) l.
Proof.
  induction l as [| x l IH]; [reflexivity |]. cbn. rewrite IH. reflexivity.
Qed.

Lemma mapM_total {A B} (f : A -> outcome B) (g : A -> B) (l : list A) :
  Forall (fun x => f x = Ret (g x)) l -> mapM f l = Ret (map g l).
Proof.
  induction 1 as [| x l Hx _ IH]; [reflexivity |].
  cbn. rewrite Hx, IH. reflexivity.
Qed.

Lemma string_leb_refl s : String.leb s s = true.
Proof. destruct (String.leb_total s s); assumption. Qed.

Lemma mapM_map_total {A B C} (f : B -> outcome C) (g : A -> B) (h : A -> C)
    (l : list A) :
  Forall (fun x => f (g x) = Ret (h x)) l -> mapM f (map g l) = Ret (map h l).
Proof.
  induction 1 as [| x l Hx _ IH]; [reflexivity |].
  cbn. rewrite Hx, IH. reflexivity.
Qed.

Lemma day_cell r s : day_of r = Some s -> cell_of "day" r = Atom (Str s).
Proof.
  unfold day_of, cell_of. destruct (dict_get "day" r) as [[[| | |] |] |];
    congruence.
Qed.

Lemma between_mask_strings df lo hi :
  has_column "day" df = true ->
  Forall (fun r => day_of r <> None) (records df) ->
  between_mask df lo hi = Ret (map (in_window lo hi) (records df)).
Proof.
  intros Hcol Hday. unfold between_mask, getitem. rewrite Hcol. cbn [obind].
  rewrite (mapM_map_total _ _
             (fun r => match day_of r with
                       | Some s => String.leb lo s
                       | None => false
                       end)).
  2: { eapply Forall_impl; [| exact Hday]. intros r Hr. cbv beta in *.
       destruct (day_of r) as [s |] eqn:E; [| congruence].
       rewrite (day_cell r s E). reflexivity. }
  cbn [obind].
  rewrite (mapM_map_total _ _
             (fun r => match day_of r with
                       | Some s => String.leb s hi
                       | None => false
                       end)).
  2: { eapply Forall_impl; [| exact Hday]. intros r Hr. cbv beta in *.
       destruct (day_of r) as [s |] eqn:E; [| congruence].
       rewrite (day_cell r s E). reflexivity. }
  cbn [obind]. rewrite zip_with_map. f_equal.
  apply map_ext. intros r. unfold in_window. destruct (day_of r); reflexivity.
Qed.

(** C3.  When the data type has a file, the loader returns exactly the
    rows of the file whose day lies between the two ends of the window,
    in file order: from the resolved start to the start date without an
    end date, from the start date to the end date with one.  Both ends
    belong to the window: a row dated at either end is returned.  The
    days compare as strings, which on ISO dates is the order of the
    calendar. *)
Theorem load_data_from_csv_window env self data_type start_date end_date
    duration path file lo hi :
  local_data_paths self !! data_type = Some path ->
  path <> "" ->
  read_csv env path = Ret file ->
  has_column "day" file = true ->
  Forall (fun r => day_of r <> None) (records file) ->
  date_window env start_date end_date duration = Ret (lo, hi) ->
  load_data_from_csv env self data_type start_date end_date duration
  = ([ReadCsv path],
     Ret (RTable (mkDataFrame (columns file)
                    (filter (in_window lo hi) (records file)))))
  /\ (forall r, In r (filter (in_window lo hi) (records file))
                <-> In r (records file)
                    /\ exists s, day_of r = Some s
                                 /\ String.leb lo s = true
                                 /\ String.leb s hi = true)
  /\ (forall r, In r (records file) -> String.leb lo hi = true ->
                day_of r = Some lo \/ day_of r = Some hi ->
                In r (filter (in_window lo hi) (records file)))
  /\ (forall dlo dhi dr r,
        valid_date dlo = true -> valid_date dhi = true ->
        valid_date dr = true ->
        lo = isoformat dlo -> hi = isoformat dhi ->
        day_of r = Some (isoformat dr) ->
        in_window lo hi r
        = (toordinal dlo <=? toordinal dr) && (toordinal dr <=? toordinal dhi)).
Proof.
  intros Hpath Hne Hread Hcol Hday Hwin.
  split; [| split; [| split]].
  - unfold load_data_from_csv. rewrite Hpath.
    assert (Ht : truthy (Some path) = true).
    { cbn. apply negb_true_iff, String.eqb_neq, Hne. }
    rewrite Ht. cbn [negb py_str].
    unfold date_window in Hwin.
    destruct end_date as [end_date |].
    + injection Hwin as <- <-.
      cbn. rewrite Hread. cbn.
      rewrite (between_mask_strings file _ _ Hcol Hday). cbn.
      unfold loc. rewrite select_map. reflexivity.
    + destruct (_convert_date env start_date duration) as [target |] eqn:E;
        [| discriminate].
      injection Hwin as <- <-.
      cbn. rewrite Hread. cbn.
      rewrite (between_mask_strings file _ _ Hcol Hday). cbn.
      unfold loc. rewrite select_map. reflexivity.
  - intros r. rewrite filter_In. unfold in_window.
    split.
    + intros [Hin Hw]. split; [exact Hin |].
      destruct (day_of r) as [s |]; [| discriminate].
      apply andb_true_iff in Hw. exists s. tauto.
    + intros [Hin (s & -> & H1 & H2)]. split; [exact Hin |].
      rewrite H1, H2. reflexivity.
  - intros r Hin Hle Hr. apply filter_In. split; [exact Hin |].
    unfold in_window. destruct Hr as [-> | ->].
    + rewrite string_leb_refl, Hle. reflexivity.
    + rewrite Hle, string_leb_refl. reflexivity.
  - intros dlo dhi dr r Vlo Vhi Vr -> -> Hr. unfold in_window. rewrite Hr.
    rewrite !isoformat_leb by assumption. reflexivity.
Qed.

Lemma load_data_from_csv_window_witness :
  load_data_from_csv sample_env sample_handler "daily_sleep" "2023-11-08" None
    (Some "week")
  = ([ReadCsv "oura_daily-sleep.csv"],
     Ret (RTable
            (mkDataFrame ["day"; "score"]
               [ [("day", Atom (Str "2023-11-01"));
                  ("score", Atom (Num (75 # 1)))];
                 [("day", Atom (Str "2023-11-02"));
                  ("score", Atom (Num (80 # 1)))];
                 [("day", Atom (Str "2023-11-08"));
                  ("score", Atom (Num (78 # 1)))] ]))).
Proof.
  refine (proj1 (load_data_from_csv_window sample_env sample_handler
                   "daily_sleep" "2023-11-08" None (Some "week")
                   "oura_daily-sleep.csv" sample_file "2023-11-01"
                   "2023-11-08" _ _ _ _ _ _)).
  - reflexivity.
  - discriminate.
  - reflexivity.
  - reflexivity.
  - repeat constructor; discriminate.
  - reflexivity.
Defined.

(** ** Computations *)

Lemma bind_emit {B} (e : event) (k : M B) :
  (emit e ;; k) = (e :: trace k, result k).
Proof. reflexivity. Qed.

Lemma bind_mret {A B} (a : A) (f : A -> M B) : (mret a ≫= f) = f a.
Proof. unfold mbind, M_bind, mret, M_ret. cbn. destruct (f a); reflexivity. Qed.

Lemma bind_lift_ret {A B} (a : A) (f : A -> M B) : (lift (Ret a) ≫= f) = f a.
Proof. apply bind_mret. Qed.

Lemma bind_lift_raise {A B} (e : exn) (f : A -> M B) :
  (lift (Raise e) ≫= f) = ([], Raise e).
Proof. reflexivity. Qed.

Lemma bind_pair_ret {A B} (t : list event) (a : A) (f : A -> M B) :
  ((t, Ret a) ≫= f) = (t ++ trace (f a), result (f a)).
Proof. reflexivity. Qed.

Lemma trace_pair {A} (t : list event) (o : outcome A) : trace (t, o) = t.
Proof. reflexivity. Qed.

Lemma result_pair {A} (t : list event) (o : outcome A) : result (t, o) = o.
Proof. reflexivity. Qed.

Ltac mstep :=
  repeat first
    [ rewrite bind_emit
    | rewrite bind_mret
    | rewrite bind_lift_ret
    | rewrite bind_lift_raise
    | rewrite trace_pair
    | rewrite result_pair
    | progress cbv beta ].

(** *** Properties of every event of a computation *)

Lemma Forall_trace_bind {A B} (P : event -> Prop) (m : M A) (f : A -> M B) :
  Forall P (trace m) ->
  (forall a, result m = Ret a -> Forall P (trace (f a))) ->
  Forall P (trace (m ≫= f)).
Proof.
  intros Hm Hf. destruct m as [t [a | e]]; unfold mbind, M_bind; cbn in *.
  - apply Forall_app. split; [exact Hm | apply Hf; reflexivity].
  - exact Hm.
Qed.

Lemma Forall_trace_emit (P : event -> Prop) (e : event) :
  P e -> Forall P (trace (emit e)).
Proof. intros H. repeat constructor. exact H. Qed.

Lemma Forall_trace_lift {A} (P : event -> Prop) (o : outcome A) :
  Forall P (trace (lift o)).
Proof. constructor. Qed.

Lemma Forall_trace_mret {A} (P : event -> Prop) (a : A) :
  Forall P (trace (mret a : M A)).
Proof. constructor. Qed.

Lemma Forall_trace_for_each {A} (P : event -> Prop) (l : list A)
    (body : A -> M unit) :
  (forall x, Forall P (trace (body x))) ->
  Forall P (trace (for_each l body)).
Proof.
  intros H. induction l as [| x l IH]; [constructor |].
  cbn [for_each]. apply Forall_trace_bind; [apply H | intros _ _; exact IH].
Qed.

Lemma dropna_no_null series : Forall (fun c => is_null c = false) (dropna series).
Proof.
  apply Forall_forall. intros c Hc. unfold dropna in Hc.
  apply filter_In in Hc as [_ Hc]. apply negb_true_iff, Hc.
Qed.

Ltac trace_solve :=
  first [ reflexivity | exact I
        | repeat split; first [reflexivity | apply dropna_no_null] ].

Ltac trace_inv :=
  repeat first
    [ apply Forall_trace_emit; trace_solve
    | apply Forall_trace_lift
    | apply Forall_trace_mret
    | apply Forall_trace_for_each; intros ?
    | apply Forall_trace_bind; [| intros ? ?]
    | match goal with
      | |- Forall _ (trace (if ?b then _ else _)) => destruct b eqn:?
      | |- Forall _ (trace (match ?x with [] => _ | _ :: _ => _ end)) =>
          destruct x
      | |- Forall _ (trace (match ?x with Some _ => _ | None => _ end)) =>
          destruct x
      end ].

(** *** Reading a computation *)

Lemma result_bind_ret {A B} (m : M A) (f : A -> M B) (a : A) :
  result m = Ret a -> result (m ≫= f) = result (f a).
Proof.
  destruct m as [t o]. cbn. intros ->. reflexivity.
Qed.

Lemma trace_bind_ret {A B} (m : M A) (f : A -> M B) (a : A) :
  result m = Ret a -> trace (m ≫= f) = trace m ++ trace (f a).
Proof.
  destruct m as [t o]. cbn. intros ->. reflexivity.
Qed.

Lemma result_bind_inv {A B} (m : M A) (f : A -> M B) (b : B) :
  result (m ≫= f) = Ret b ->
  exists a, result m = Ret a /\ result (f a) = Ret b.
Proof.
  destruct m as [t [a | e]]; cbn; [| discriminate].
  intros H. exists a. split; [reflexivity | exact H].
Qed.

Lemma In_trace_bind {A B} (m : M A) (f : A -> M B) (e : event) :
  In e (trace (m ≫= f)) ->
  In e (trace m) \/ exists a, result m = Ret a /\ In e (trace (f a)).
Proof.
  destruct m as [t [a | x]]; cbn; [| auto].
  intros H. apply in_app_or in H as [H | H]; [left; exact H |].
  right. exists a. split; [reflexivity | exact H].
Qed.

(** What follows a step that does not produce the event [e] decides
    what the presence of [e] tells. *)
Lemma event_after_result {A B} (sel : event -> bool) (m : M A)
    (f : A -> M B) (e : event) (r : outcome B) :
  sel e = true ->
  Forall (fun x => sel x = false) (trace m) ->
  (forall a, result m = Ret a -> In e (trace (f a)) -> result (f a) = r) ->
  In e (trace (m ≫= f)) -> result (m ≫= f) = r.
Proof.
  intros He Hm Hf Hin. apply In_trace_bind in Hin as [Hin | (a & Ha & Hin)].
  - rewrite Forall_forall in Hm. apply Hm in Hin. congruence.
  - rewrite (result_bind_ret m f a Ha). apply (Hf a Ha Hin).
Qed.

Lemma event_after_event {A B} (sel : event -> bool) (m : M A)
    (f : A -> M B) (e e' : event) (R : Prop) :
  sel e = true ->
  Forall (fun x => sel x = false) (trace m) ->
  (forall a, result m = Ret a -> In e (trace (f a)) ->
             In e' (trace (f a)) /\ R) ->
  In e (trace (m ≫= f)) -> In e' (trace (m ≫= f)) /\ R.
Proof.
  intros He Hm Hf Hin. apply In_trace_bind in Hin as [Hin | (a & Ha & Hin)].
  - rewrite Forall_forall in Hm. apply Hm in Hin. congruence.
  - rewrite (trace_bind_ret m f a Ha). destruct (Hf a Ha Hin) as [H1 H2].
    split; [apply in_or_app; right; exact H1 | exact H2].
Qed.

Lemma event_follows {A B} (sel : event -> bool) (m : M A) (f : A -> M B)
    (e e' : event) :
  sel e = true ->
  Forall (fun x => sel x = false) (trace m) ->
  (forall a, result m = Ret a -> In e (trace (f a)) -> In e' (trace (f a))) ->
  In e (trace (m ≫= f)) -> In e' (trace (m ≫= f)).
Proof.
  intros He Hm Hf Hin.
  apply (event_after_event sel m f e e' True He Hm); [| exact Hin].
  intros a Ha Hin'. split; [apply (Hf a Ha Hin') | exact I].
Qed.

Lemma event_after {A B} (sel : event -> bool) (m : M A) (f : A -> M B)
    (e : event) (R : Prop) :
  sel e = true ->
  Forall (fun x => sel x = false) (trace m) ->
  (forall a, result m = Ret a -> In e (trace (f a)) -> R) ->
  In e (trace (m ≫= f)) -> R.
Proof.
  intros He Hm Hf Hin. apply In_trace_bind in Hin as [Hin | (a & Ha & Hin)].
  - rewrite Forall_forall in Hm. apply Hm in Hin. congruence.
  - exact (Hf a Ha Hin).
Qed.

Lemma completes_with_event {A B} (m : M A) (f : A -> M B) (b : B)
    (e : event) :
  (forall a, result m = Ret a -> result (f a) = Ret b ->
             In e (trace (f a))) ->
  result (m ≫= f) = Ret b -> In e (trace (m ≫= f)).
Proof.
  intros Hf H. apply result_bind_inv in H as (a & Ha & Hb).
  rewrite (trace_bind_ret m f a Ha). apply in_or_app. right.
  apply (Hf a Ha Hb).
Qed.

Lemma getitem_cells df c series :
  getitem df c = Ret series -> series = map (cell_of c) (records df).
Proof.
  unfold getitem. destruct (has_column c df); [| discriminate].
  intros H. injection H as <-. reflexivity.
Qed.

(** ** Configuration errors *)

Lemma eqb_neq_false (a b : string) : a <> b -> String.eqb a b = false.
Proof. apply String.eqb_neq. Qed.

(** C4 (amended).  A missing token, a data type outside the API's list
    and a data type without a file end in one printed line and an empty
    table, with no request sent and no file read; a token that the API
    answers without rows ends in "No data received." and an empty
    table.  A source tag other than csv and api ends in the line
    "Invalid data source!" and the value None: no table exists at that
    point, nothing is loaded and nothing is drawn ([plot_sleep_phases]
    resolves its date first, so it gets there when the date
    resolves). *)
Theorem configuration_errors_soft_fail env self data_type start_date end_date
    duration save_file filename source caption peacewisedDays detect_trends
    n_bkps detect_anomalies anomaly_threshold :
  (truthy (access_token self) = false ->
   fetch_data_from_api env self data_type start_date end_date duration
     save_file filename
   = ([Print "Invalid token!"], Ret (RTable DataFrame_empty)))
  /\ (truthy (access_token self) = true ->
      existsb (String.eqb data_type) valid_data_types = false ->
      fetch_data_from_api env self data_type start_date end_date duration
        save_file filename
      = ([Print "Invalid data type!"], Ret (RTable DataFrame_empty)))
  /\ (forall params,
        truthy (access_token self) = true ->
        existsb (String.eqb data_type) valid_data_types = true ->
        request_params env data_type start_date end_date duration
        = Ret params ->
        requests_get env
          (api_address self ++ "/v2/usercollection/" ++ data_type)
          {[ "Authorization" :=
               ("Bearer " ++ py_str (access_token self))%string ]}
          params 10 = Ret [] ->
        fetch_data_from_api env self data_type start_date end_date duration
          save_file filename
        = ([Print ("Requesting " ++ data_type ++ " data... ");
            HttpGet (api_address self ++ "/v2/usercollection/" ++ data_type)
              {[ "Authorization" :=
                   ("Bearer " ++ py_str (access_token self))%string ]}
              params 10;
            Print "No data received."],
           Ret (RTable DataFrame_empty)))
  /\ (truthy (local_data_paths self !! data_type) = false ->
      load_data_from_csv env self data_type start_date end_date duration
      = ([Print "Invalid data type for CSV!"], Ret (RTable DataFrame_empty)))
  /\ (source <> "csv" -> source <> "api" ->
      get_deep_sleep_duration env self source start_date end_date duration
        caption
      = ([Print "Invalid data source!"], Ret RNone)
      /\ get_and_plot_daily_data env self data_type source start_date end_date
           duration caption peacewisedDays detect_trends n_bkps
           detect_anomalies anomaly_threshold
         = ([Print "Invalid data source!"], Ret RNone)
      /\ plot_bedtime env self data_type source start_date end_date duration
           caption
         = ([Print "Invalid data source!"], Ret RNone)
      /\ (forall end_day,
            _convert_date env start_date (Some "day") = Ret end_day ->
            plot_sleep_phases env self source start_date caption
            = ([Print "Invalid data source!"], Ret RNone))).
Proof.
  repeat split.
  - intros Ht. unfold fetch_data_from_api. rewrite Ht. reflexivity.
  - intros Ht Hd. unfold fetch_data_from_api. rewrite Ht, Hd. reflexivity.
  - intros params Ht Hd Hp Hr. unfold fetch_data_from_api.
    rewrite Ht, Hd. cbn [negb]. rewrite Hp. cbv zeta. mstep. rewrite Hr.
    mstep. reflexivity.
  - intros Hp. unfold load_data_from_csv. rewrite Hp. reflexivity.
  - unfold get_deep_sleep_duration.
    rewrite !eqb_neq_false by assumption. reflexivity.
  - unfold get_and_plot_daily_data.
    rewrite !eqb_neq_false by assumption. reflexivity.
  - unfold plot_bedtime.
    rewrite !eqb_neq_false by assumption. reflexivity.
  - intros end_day He. unfold plot_sleep_phases. rewrite He.
    rewrite !eqb_neq_false by assumption. reflexivity.
Qed.

(** ** The API loader *)

#[local] Arguments request_params : simpl never.

(** The events of a fetch that gets rows back and whose write, if it
    makes one, is accepted. *)
Lemma fetch_data_from_api_rows env self data_type start_date end_date duration
    save_file filename params row rows :
  truthy (access_token self) = true ->
  existsb (String.eqb data_type) valid_data_types = true ->
  request_params env data_type start_date end_date duration = Ret params ->
  requests_get env (api_address self ++ "/v2/usercollection/" ++ data_type)
    {[ "Authorization" := ("Bearer " ++ py_str (access_token self))%string ]}
    params 10 = Ret (row :: rows) ->
  (forall path,
     save_file = true -> empty (from_records (row :: rows)) = false ->
     filename = Some path ->
     write_csv env path (from_records (row :: rows)) = Ret tt) ->
  fetch_data_from_api env self data_type start_date end_date duration
    save_file filename
  = let df := from_records (row :: rows) in
    ([Print ("Requesting " ++ data_type ++ " data... ");
      HttpGet (api_address self ++ "/v2/usercollection/" ++ data_type)
        {[ "Authorization" := ("Bearer " ++ py_str (access_token self))%string ]}
        params 10;
      Print "done!"]
     ++ (if save_file && empty df then [Print "No data available to save."]
         else (if save_file
               then match filename with
                    | Some path => [WriteCsv path df]
                    | None => []
                    end
               else [])
              ++ [Print ("Data successfully saved to " ++ py_str filename)]),
     if save_file && empty df then Ret RNone else Ret (RTable df)).
Proof.
  intros Ht Hd Hp Hr Hw. unfold fetch_data_from_api.
  rewrite Ht, Hd. cbn [negb]. rewrite Hp. cbv zeta. mstep. rewrite Hr. mstep.
  destruct save_file; [destruct (empty (from_records (row :: rows))) |];
    cbn [andb]; [| destruct filename as [path |] |]; unfold to_csv;
    rewrite ?(Hw _ eq_refl eq_refl eq_refl); mstep; reflexivity.
Qed.

(** The events of a fetch whose write is refused. *)
Lemma fetch_data_from_api_refused env self data_type start_date end_date
    duration path params row rows e :
  truthy (access_token self) = true ->
  existsb (String.eqb data_type) valid_data_types = true ->
  request_params env data_type start_date end_date duration = Ret params ->
  requests_get env (api_address self ++ "/v2/usercollection/" ++ data_type)
    {[ "Authorization" := ("Bearer " ++ py_str (access_token self))%string ]}
    params 10 = Ret (row :: rows) ->
  empty (from_records (row :: rows)) = false ->
  write_csv env path (from_records (row :: rows)) = Raise e ->
  fetch_data_from_api env self data_type start_date end_date duration
    true (Some path)
  = ([Print ("Requesting " ++ data_type ++ " data... ");
      HttpGet (api_address self ++ "/v2/usercollection/" ++ data_type)
        {[ "Authorization" := ("Bearer " ++ py_str (access_token self))%string ]}
        params 10;
      Print "done!"],
     Raise e).
Proof.
  intros Ht Hd Hp Hr He Hw. unfold fetch_data_from_api.
  rewrite Ht, Hd. cbn [negb]. rewrite Hp. cbv zeta. mstep. rewrite Hr. mstep.
  rewrite He. unfold to_csv. rewrite Hw. mstep. reflexivity.
Qed.

Lemma fetch_sends_request env self data_type start_date end_date duration
    save_file filename params :
  truthy (access_token self) = true ->
  existsb (String.eqb data_type) valid_data_types = true ->
  request_params env data_type start_date end_date duration = Ret params ->
  exists rest,
    trace (fetch_data_from_api env self data_type start_date end_date duration
             save_file filename)
    = Print ("Requesting " ++ data_type ++ " data... ")
      :: HttpGet (api_address self ++ "/v2/usercollection/" ++ data_type)
           {[ "Authorization" := ("Bearer " ++ py_str (access_token self))%string ]}
           params 10
      :: rest.
Proof.
  intros Ht Hd Hp. unfold fetch_data_from_api.
  rewrite Ht, Hd. cbn [negb]. rewrite Hp. cbv zeta. mstep.
  eexists. reflexivity.
Qed.

(** C5, on the code.  A heart-rate request without an end date carries
    [start_datetime] and [end_datetime], the end a day after the start;
    the same request with an end date carries [start_date] and
    [end_date] like every other data type. *)
Theorem heartrate_window_keys env :
  request_params env "heartrate" "2023-12-01" None None
  = Ret {[ "start_datetime" := "2023-12-01"; "end_datetime" := "2023-12-02" ]}
  /\ request_params env "heartrate" "2023-12-01" (Some "2023-12-02") None
     = Ret {[ "start_date" := "2023-12-01"; "end_date" := "2023-12-02" ]}
  /\ exists rest,
       trace (fetch_data_from_api env sample_handler "heartrate" "2023-12-01"
                (Some "2023-12-02") None false None)
       = Print "Requesting heartrate data... "
         :: HttpGet "https://api.ouraring.com/v2/usercollection/heartrate"
              {[ "Authorization" := "Bearer YOUR_ACCESS_TOKEN" ]}
              {[ "start_date" := "2023-12-01"; "end_date" := "2023-12-02" ]}
              10
         :: rest.
Proof.
  split; [| split].
  - unfold request_params, _convert_date.
    destruct (pads_year env); vm_compute; reflexivity.
  - reflexivity.
  - apply (fetch_sends_request env sample_handler "heartrate"); reflexivity.
Qed.

(** C10 (amended).  When the API answers rows that make a non-empty
    table, a CSV file is written exactly when [save_file] is set, a
    file name is given and the file system accepts the write.  A write
    that is refused raises: the line "Data successfully saved to ..."
    is not printed and no table is returned.  In every other case,
    with or without a file written, that line is printed and the table
    is returned. *)
Theorem fetch_save_file env self data_type start_date end_date duration
    save_file filename params row rows :
  truthy (access_token self) = true ->
  existsb (String.eqb data_type) valid_data_types = true ->
  request_params env data_type start_date end_date duration = Ret params ->
  requests_get env (api_address self ++ "/v2/usercollection/" ++ data_type)
    {[ "Authorization" := ("Bearer " ++ py_str (access_token self))%string ]}
    params 10 = Ret (row :: rows) ->
  empty (from_records (row :: rows)) = false ->
  let df := from_records (row :: rows) in
  let run := fetch_data_from_api env self data_type start_date end_date
               duration save_file filename in
  let saved := Print ("Data successfully saved to " ++ py_str filename) in
  (forall path d,
     In (WriteCsv path d) (trace run)
     <-> save_file = true /\ filename = Some path /\ d = df
         /\ write_csv env path df = Ret tt)
  /\ (forall path e,
        save_file = true -> filename = Some path ->
        write_csv env path df = Raise e ->
        result run = Raise e /\ ~ In saved (trace run))
  /\ ((forall path,
         save_file = true -> filename = Some path ->
         write_csv env path df = Ret tt) ->
      In saved (trace run) /\ result run = Ret (RTable df)).
Proof.
  intros Ht Hd Hp Hr He df run saved. subst df run saved.
  assert (Hrefused : forall path e,
             save_file = true -> filename = Some path ->
             write_csv env path (from_records (row :: rows)) = Raise e ->
             fetch_data_from_api env self data_type start_date end_date
               duration save_file filename
             = ([Print ("Requesting " ++ data_type ++ " data... ");
                 HttpGet
                   (api_address self ++ "/v2/usercollection/" ++ data_type)
                   {[ "Authorization" :=
                        ("Bearer " ++ py_str (access_token self))%string ]}
                   params 10;
                 Print "done!"],
                Raise e)).
  { intros path e -> -> Hw.
    apply (fetch_data_from_api_refused env self data_type start_date end_date
             duration path params row rows e); assumption. }
  assert (Haccepted :
            (forall path,
               save_file = true -> filename = Some path ->
               write_csv env path (from_records (row :: rows)) = Ret tt) ->
            fetch_data_from_api env self data_type start_date end_date
              duration save_file filename
            = ([Print ("Requesting " ++ data_type ++ " data... ");
                HttpGet
                  (api_address self ++ "/v2/usercollection/" ++ data_type)
                  {[ "Authorization" :=
                       ("Bearer " ++ py_str (access_token self))%string ]}
                  params 10;
                Print "done!"]
               ++ (if save_file
                   then match filename with
                        | Some path =>
                            [WriteCsv path (from_records (row :: rows))]
                        | None => []
                        end
                   else [])
                  ++ [Print ("Data successfully saved to "
                             ++ py_str filename)],
               Ret (RTable (from_records (row :: rows))))).
  { intros Hw.
    rewrite (fetch_data_from_api_rows _ _ _ _ _ _ save_file filename _ _ _
               Ht Hd Hp Hr) by (intros path Hs _ Hf; apply Hw; assumption).
    cbv zeta. rewrite He, andb_false_r. reflexivity. }
  split; [| split].
  - intros path d. split.
    + intros Hin.
      destruct save_file;
        [destruct filename as [p |] |];
        try (rewrite Haccepted in Hin by (intros ? H ?; discriminate);
             rewrite trace_pair in Hin; cbn in Hin;
             repeat (destruct Hin as [Hin | Hin]; [discriminate Hin |]);
             destruct Hin).
      destruct (write_csv env p (from_records (row :: rows))) as [[] | e]
        eqn:Hw.
      * rewrite Haccepted in Hin
          by (intros q _ Hq; injection Hq as <-; exact Hw).
        rewrite trace_pair in Hin. cbn in Hin.
        repeat (destruct Hin as [Hin | Hin]; try discriminate Hin).
        -- injection Hin as <- <-. auto.
        -- destruct Hin.
      * rewrite (Hrefused p e eq_refl eq_refl Hw), trace_pair in Hin.
        cbn in Hin.
        repeat (destruct Hin as [Hin | Hin]; [discriminate Hin |]).
        destruct Hin.
    + intros (-> & -> & -> & Hw).
      rewrite Haccepted by (intros q _ Hq; injection Hq as <-; exact Hw).
      rewrite trace_pair. cbn. do 3 right. left. reflexivity.
  - intros path e Hs Hf Hw.
    rewrite (Hrefused path e Hs Hf Hw), trace_pair, result_pair.
    split; [reflexivity |]. cbn.
    intros Hin. repeat (destruct Hin as [Hin | Hin]; [discriminate Hin |]).
    destruct Hin.
  - intros Hw. rewrite (Haccepted Hw), trace_pair, result_pair.
    split; [| reflexivity].
    rewrite !in_app_iff. right. right. left. reflexivity.
Qed.

Lemma configuration_errors_soft_fail_witness :
  fetch_data_from_api sample_env tokenless_handler "daily_sleep" "2023-11-01"
    None (Some "month") false None
  = ([Print "Invalid token!"], Ret (RTable DataFrame_empty))
  /\ fetch_data_from_api sample_env sample_handler "weather" "2023-11-01"
       None (Some "month") false None
     = ([Print "Invalid data type!"], Ret (RTable DataFrame_empty))
  /\ load_data_from_csv sample_env sample_handler "weather" "2023-11-01"
       None (Some "month")
     = ([Print "Invalid data type for CSV!"], Ret (RTable DataFrame_empty))
  /\ get_and_plot_daily_data sample_env sample_handler "weather" "ftp"
       "2023-11-01" None (Some "month") "" 1 false 10 false (2 # 1)%Q
     = ([Print "Invalid data source!"], Ret RNone).
Proof.
  pose proof (configuration_errors_soft_fail sample_env tokenless_handler
                "daily_sleep" "2023-11-01" None (Some "month") false None
                "ftp" "" 1 false 10 false (2 # 1)%Q) as (H1 & _).
  pose proof (configuration_errors_soft_fail sample_env sample_handler
                "weather" "2023-11-01" None (Some "month") false None
                "ftp" "" 1 false 10 false (2 # 1)%Q)
    as (_ & H2 & _ & H3 & H4).
  split; [apply H1; reflexivity |].
  split; [apply H2; reflexivity |].
  split; [apply H3; reflexivity |].
  apply H4; discriminate.
Defined.

(** C4 as stated fails for the source tag: the entry points return None,
    which is no table, and [plot_sleep_phases] resolves its date before
    it looks at the tag, so the last day of the calendar raises. *)
Lemma invalid_source_returns_no_table :
  (forall env self,
     get_and_plot_daily_data env self "daily_sleep" "ftp" "2023-11-01" None
       (Some "month") "" 1 false 10 false (2 # 1)%Q
     = ([Print "Invalid data source!"], Ret RNone))
  /\ RNone <> RTable DataFrame_empty
  /\ (forall env self,
        plot_sleep_phases env self "ftp" "9999-12-31" ""
        = ([], Raise OverflowError)).
Proof.
  split; [| split].
  - intros env self. reflexivity.
  - discriminate.
  - intros env self. unfold plot_sleep_phases, _convert_date.
    vm_compute. reflexivity.
Qed.

Lemma fetch_save_file_witness :
  (let run := fetch_data_from_api sample_env sample_handler "daily_sleep"
                "2023-11-08" None (Some "week") true (Some "sleep.csv") in
   In (WriteCsv "sleep.csv" (from_records sample_rows)) (trace run)
   /\ In (Print "Data successfully saved to sleep.csv") (trace run)
   /\ result run = Ret (RTable (from_records sample_rows)))
  /\ (let run := fetch_data_from_api sample_env sample_handler "daily_sleep"
                   "2023-11-08" None (Some "week") true (Some "") in
      result run = Raise IOError
      /\ ~ In (Print "Data successfully saved to ") (trace run)).
Proof.
  split; cbv zeta.
  - destruct (fetch_save_file sample_env sample_handler "daily_sleep"
                "2023-11-08" None (Some "week") true (Some "sleep.csv")
                {[ "start_date" := "2023-11-01"; "end_date" := "2023-11-08" ]}
                _ _ eq_refl eq_refl eq_refl eq_refl eq_refl)
      as (Hw & _ & Hs).
    split.
    + apply Hw. repeat split; reflexivity.
    + apply Hs. intros path _ H. injection H as <-. reflexivity.
  - destruct (fetch_save_file sample_env sample_handler "daily_sleep"
                "2023-11-08" None (Some "week") true (Some "")
                {[ "start_date" := "2023-11-01"; "end_date" := "2023-11-08" ]}
                _ _ eq_refl eq_refl eq_refl eq_refl eq_refl)
      as (_ & Hr & _).
    apply (Hr "" IOError); reflexivity.
Defined.

(** C10 as stated fails when [save_file] is set and no file name is
    given: the rows make a table, and no file is written. *)
Lemma fetch_save_file_without_name :
  let run := fetch_data_from_api sample_env sample_handler "daily_sleep"
               "2023-11-08" None (Some "week") true None in
  empty (from_records sample_rows) = false
  /\ result run = Ret (RTable (from_records sample_rows))
  /\ In (Print "Data successfully saved to None") (trace run)
  /\ forall path df, ~ In (WriteCsv path df) (trace run).
Proof.
  cbv zeta. split; [reflexivity |]. split; [reflexivity |].
  split.
  - vm_compute. tauto.
  - intros path df. vm_compute. intros H.
    repeat (destruct H as [H | H]; [discriminate H |]). exact H.
Qed.

(** ** The deep-sleep normaliser *)

Lemma existsb_eqb_In (k : string) (l : list string) :
  existsb (String.eqb k) l = true <-> In k l.
Proof.
  rewrite existsb_exists. split.
  - intros (x & Hx & E). apply String.eqb_eq in E. subst. exact Hx.
  - intros H. exists k. split; [exact H | apply String.eqb_refl].
Qed.

Lemma add_keys_incl (keys acc : list string) (k : string) :
  In k acc -> In k (add_keys acc keys).
Proof.
  revert acc. unfold add_keys.
  induction keys as [| x keys IH]; intros acc H; [exact H |].
  cbn [fold_left]. apply IH.
  destruct (existsb (String.eqb x) acc); [exact H |].
  apply in_or_app. left. exact H.
Qed.

Lemma add_keys_covers (keys acc : list string) (k : string) :
  In k keys -> In k (add_keys acc keys).
Proof.
  revert acc. unfold add_keys.
  induction keys as [| x keys IH]; intros acc H; [destruct H |].
  cbn [fold_left]. destruct H as [-> | H]; [| apply IH, H].
  apply (add_keys_incl keys).
  destruct (existsb (String.eqb k) acc) eqn:E.
  - apply existsb_eqb_In, E.
  - apply in_or_app. right. left. reflexivity.
Qed.

Lemma keys_union_covers (data : list record) (r : record) (k : string) :
  In r data -> In k (map fst r) -> In k (keys_union data).
Proof.
  unfold keys_union. generalize (@nil string).
  induction data as [| r' data IH]; intros acc Hr Hk; [destruct Hr |].
  cbn [fold_left]. destruct Hr as [-> | Hr].
  - assert (Hin : In k (add_keys acc (map fst r))) by (apply add_keys_covers, Hk).
    revert Hin. generalize (add_keys acc (map fst r)). clear.
    induction data as [| r' data IH]; intros acc H; [exact H |].
    cbn [fold_left]. apply IH, add_keys_incl, H.
  - apply IH; assumption.
Qed.

Lemma dict_get_In_key {A} (k : string) (d : dict A) (v : A) :
  dict_get k d = Some v -> In k (map fst d).
Proof.
  unfold dict_get. induction d as [| [k' v'] d IH]; [discriminate |].
  cbn. destruct (String.eqb_spec k' k) as [-> | Hne]; [auto |].
  intros H. right. apply IH, H.
Qed.

Lemma dict_get_map_values {A B} (f : A -> B) (k : string) (d : dict A) :
  dict_get k (map (fun kv => (fst kv, f (snd kv))) d)
  = option_map f (dict_get k d).
Proof.
  unfold dict_get. induction d as [| [k' v'] d IH]; [reflexivity |].
  cbn. destruct (String.eqb k' k); [reflexivity | exact IH].
Qed.

Lemma cell_of_found (k : string) (r : record) (v : cell) :
  dict_get k r = Some v -> cell_of k r = v.
Proof. unfold cell_of. intros ->. reflexivity. Qed.

(** A row built from the column names answers with the cell of each
    column it has. *)
Lemma dict_get_row (f : string -> cell) (cols : list string) (k : string) :
  dict_get k (map (fun c => (c, f c)) cols)
  = if existsb (String.eqb k) cols then Some (f k) else None.
Proof.
  unfold dict_get. induction cols as [| c cols IH]; [reflexivity |].
  cbn. rewrite (String.eqb_sym k c).
  destruct (String.eqb_spec c k) as [-> | Hne]; [reflexivity | exact IH].
Qed.

Lemma cell_of_row (f : string -> cell) (cols : list string) (k : string) :
  cell_of k (map (fun c => (c, f c)) cols)
  = if existsb (String.eqb k) cols then f k else Atom Null.
Proof.
  unfold cell_of. rewrite dict_get_row.
  destruct (existsb (String.eqb k) cols); reflexivity.
Qed.

Lemma filter_row (f : string -> cell) (cols : list string) (c0 : string) :
  filter (fun kv : string * cell => negb (String.eqb (fst kv) c0))
    (map (fun c => (c, f c)) cols)
  = map (fun c => (c, f c)) (filter (fun k => negb (String.eqb k c0)) cols).
Proof.
  induction cols as [| c cols IH]; [reflexivity |].
  cbn. destruct (String.eqb c c0); cbn; rewrite IH; reflexivity.
Qed.

Lemma lifted_fields_spec r fields :
  dict_get "contributors" r = Some (Obj fields) ->
  lifted_fields r = map (fun kv => (fst kv, Atom (snd kv))) fields.
Proof. unfold lifted_fields. intros ->. reflexivity. Qed.

(** The code's reshaping is the table of the specification. *)
Lemma flatten_contributors_flattened payload :
  payload <> [] ->
  Forall (fun r => exists fields, dict_get "contributors" r = Some (Obj fields))
    payload ->
  flatten_contributors (from_records payload) = Ret (flattened payload).
Proof.
  intros Hne Hall.
  assert (Hcol : has_column "contributors" (from_records payload) = true).
  { destruct payload as [| r payload]; [congruence |].
    apply Forall_inv in Hall as [fields Hf].
    apply existsb_eqb_In. cbn [from_records columns].
    apply (keys_union_covers _ r); [left; reflexivity |].
    apply (dict_get_In_key _ _ _ Hf). }
  unfold flatten_contributors, drop_column, getitem. rewrite Hcol.
  cbn [obind]. unfold json_normalize.
  cbn [from_records records columns] in *. rewrite map_map.
  rewrite (mapM_map_total _ _ lifted_fields).
  2: { eapply Forall_impl; [| exact Hall]. intros r [fields Hf]. cbv beta.
       rewrite cell_of_row.
       change (existsb (String.eqb "contributors") (keys_union payload))
         with (has_column "contributors" (from_records payload)).
       rewrite Hcol. unfold cell_of. rewrite Hf. cbn [fields_of].
       rewrite (lifted_fields_spec r fields Hf). reflexivity. }
  cbn [obind]. unfold flattened, concat_columns, rename, from_records.
  cbn [columns records]. f_equal. f_equal.
  rewrite !map_map, zip_with_map, map_map.
  apply map_ext. intros r. rewrite filter_row, map_app, !map_map.
  reflexivity.
Qed.

Lemma lifted_cell_atom r c : exists a, cell_of c (lifted_fields r) = Atom a.
Proof.
  unfold lifted_fields, cell_of.
  destruct (dict_get "contributors" r) as [[a | fields] |];
    try (exists Null; reflexivity).
  rewrite dict_get_map_values.
  destruct (dict_get c fields) as [a |]; [exists a | exists Null]; reflexivity.
Qed.

Lemma empty_false df c :
  records df <> [] -> has_column c df = true -> empty df = false.
Proof.
  unfold empty, has_column. destruct (records df); [congruence |].
  destruct (columns df); [discriminate | reflexivity].
Qed.

Lemma dict_get_app {A} (k : string) (d1 d2 : dict A) :
  dict_get k (d1 ++ d2)
  = match dict_get k d1 with
    | Some v => Some v
    | None => dict_get k d2
    end.
Proof.
  unfold dict_get. induction d1 as [| [k' v'] d1 IH]; [reflexivity |].
  cbn. destruct (String.eqb k' k); [reflexivity | exact IH].
Qed.

Lemma dict_get_renamed_absent (name : string -> string) (f : string -> cell)
    (cols : list string) (k : string) :
  (forall c, In c cols -> name c <> k) ->
  dict_get k (map (fun c => (name c, f c)) cols) = None.
Proof.
  unfold dict_get. induction cols as [| c cols IH]; intros H; [reflexivity |].
  cbn. destruct (String.eqb_spec (name c) k) as [E | _].
  - exfalso. apply (H c); [left; reflexivity | exact E].
  - apply IH. intros c' Hc'. apply H. right. exact Hc'.
Qed.

Lemma dict_get_renamed_found (name : string -> string) (f : string -> cell)
    (cols : list string) (k0 k : string) :
  In k0 cols -> name k0 = k ->
  (forall c, In c cols -> name c = k -> c = k0) ->
  dict_get k (map (fun c => (name c, f c)) cols) = Some (f k0).
Proof.
  unfold dict_get. induction cols as [| c cols IH]; intros Hin Hk Hu;
    [destruct Hin |].
  cbn. destruct (String.eqb_spec (name c) k) as [E | Hne].
  - rewrite (Hu c (or_introl eq_refl) E). reflexivity.
  - destruct Hin as [-> | Hin]; [congruence |].
    apply IH; [exact Hin | exact Hk |].
    intros c' Hc'. apply Hu. right. exact Hc'.
Qed.

#[local] Arguments plot_data : simpl never.
#[local] Arguments flatten_contributors : simpl never.
#[local] Arguments from_records : simpl never.

(** C6.  When the API answers a non-empty payload whose rows each carry
    a [contributors] object with a [deep_sleep] field, the table that
    [get_deep_sleep_duration] draws is the payload without the
    [contributors] column, followed by the sub-fields of [contributors]
    as columns; in every row the column [contributors_deep_sleep] holds
    the row's [contributors.deep_sleep], and it is the column the plot
    reads when no other field carries one of the two names. *)
Theorem deep_sleep_normalized env self start_date end_date duration caption
    params payload :
  truthy (access_token self) = true ->
  request_params env "daily_sleep" start_date end_date duration = Ret params ->
  requests_get env (api_address self ++ "/v2/usercollection/daily_sleep")
    {[ "Authorization" := ("Bearer " ++ py_str (access_token self))%string ]}
    params 10 = Ret payload ->
  payload <> [] ->
  Forall (fun r => exists fields x,
            dict_get "contributors" r = Some (Obj fields)
            /\ dict_get "deep_sleep" fields = Some x) payload ->
  let name := rename_key "deep_sleep" "contributors_deep_sleep" in
  let df := flattened payload in
  flatten_contributors (from_records payload) = Ret df
  /\ (forall i r fields x,
        nth_error payload i = Some r ->
        dict_get "contributors" r = Some (Obj fields) ->
        dict_get "deep_sleep" fields = Some x ->
        exists row,
          nth_error (records df) i = Some row
          /\ In ("contributors_deep_sleep", Atom x) row
          /\ (forall k a, dict_get k fields = Some a -> In (name k, Atom a) row)
          /\ (forall k v, k <> "contributors" -> dict_get k r = Some v ->
                          In (name k, v) row)
          /\ (forall v, ~ In ("contributors", Obj v) row))
  /\ (~ In "deep_sleep" (keys_union payload) ->
      ~ In "contributors_deep_sleep" (keys_union payload) ->
      ~ In "contributors_deep_sleep" (keys_union (map lifted_fields payload)) ->
      getitem df "contributors_deep_sleep" = Ret (map deep_sleep_of payload))
  /\ get_deep_sleep_duration env self "api" start_date end_date duration
       caption
     = let plot :=
         plot_data env df "contributors_deep_sleep" "Deep Sleep Duration"
           "Deep Sleep Duration Over Time" caption None None false 0 false
           (2 # 1)%Q in
       ([Print "Requesting daily_sleep data... ";
         HttpGet (api_address self ++ "/v2/usercollection/daily_sleep")
           {[ "Authorization" :=
                ("Bearer " ++ py_str (access_token self))%string ]}
           params 10;
         Print "done!"; Print "Data successfully saved to None"]
        ++ trace plot,
        obind (result plot) (fun _ => Ret RNone)).
Proof.
  intros Ht Hp Hr Hne Hall name df.
  assert (Hobj : Forall (fun r => exists fields,
                           dict_get "contributors" r = Some (Obj fields))
                   payload).
  { eapply Forall_impl; [| exact Hall]. intros r (fields & x & H & _).
    exists fields. exact H. }
  assert (Hflat := flatten_contributors_flattened payload Hne Hobj).
  assert (Hlifted : forall r fields k a,
             In r payload -> dict_get "contributors" r = Some (Obj fields) ->
             dict_get k fields = Some a ->
             In k (keys_union (map lifted_fields payload))
             /\ cell_of k (lifted_fields r) = Atom a).
  { intros r fields k a Hin Hf Hk.
    assert (Hget : dict_get k (lifted_fields r) = Some (Atom a)).
    { rewrite (lifted_fields_spec r fields Hf), dict_get_map_values, Hk.
      reflexivity. }
    split; [| apply cell_of_found, Hget].
    apply (keys_union_covers _ (lifted_fields r));
      [apply in_map, Hin | apply (dict_get_In_key _ _ _ Hget)]. }
  assert (Hds : In "deep_sleep" (keys_union (map lifted_fields payload))).
  { destruct payload as [| r payload]; [congruence |].
    pose proof (Forall_inv Hall) as (fields & x & Hf & Hx).
    apply (Hlifted r fields "deep_sleep" x); [left; reflexivity | | ]; assumption. }
  assert (Hcds : has_column "contributors_deep_sleep" df = true).
  { apply existsb_eqb_In. unfold df, flattened. cbn [columns].
    change "contributors_deep_sleep" with (name "deep_sleep").
    apply in_map, in_or_app. right. exact Hds. }
  split; [exact Hflat |]. split; [| split].
  - intros i r fields x Hi Hf Hx.
    assert (Hin : In r payload) by (eapply nth_error_In; exact Hi).
    eexists. split.
    { unfold df, flattened. cbn [records]. apply map_nth_error. exact Hi. }
    cbv beta. fold name. repeat split.
    + apply in_or_app. right.
      destruct (Hlifted r fields "deep_sleep" x Hin Hf Hx) as [Hk <-].
      change "contributors_deep_sleep" with (name "deep_sleep").
      apply (in_map (fun c => (name c, cell_of c (lifted_fields r)))). exact Hk.
    + intros k a Hk. apply in_or_app. right.
      destruct (Hlifted r fields k a Hin Hf Hk) as [Hkin <-].
      apply (in_map (fun c => (name c, cell_of c (lifted_fields r)))). exact Hkin.
    + intros k v Hk Hv. apply in_or_app. left.
      rewrite <- (cell_of_found k r v Hv).
      apply (in_map (fun c => (name c, cell_of c r))).
      apply filter_In. split.
      * apply (keys_union_covers _ r); [exact Hin |].
        apply (dict_get_In_key _ _ _ Hv).
      * apply negb_true_iff, String.eqb_neq, Hk.
    + intros v Hv. apply in_app_or in Hv as [Hv | Hv];
        apply in_map_iff in Hv as (c & E & Hc); injection E as En Ev.
      * apply filter_In in Hc as [_ Hc].
        apply negb_true_iff, String.eqb_neq in Hc.
        unfold name, rename_key in En.
        destruct (String.eqb c "deep_sleep"); [discriminate | congruence].
      * destruct (lifted_cell_atom r c) as [a Ha]. congruence.
  - intros H1 H2 H3. unfold getitem. rewrite Hcds. f_equal.
    unfold df, flattened. cbn [records]. rewrite map_map.
    apply map_ext. intros r. unfold cell_of at 1. rewrite dict_get_app.
    rewrite dict_get_renamed_absent.
    2: { intros c Hc. apply filter_In in Hc as [Hc _].
         unfold rename_key. destruct (String.eqb_spec c "deep_sleep");
           congruence. }
    rewrite (dict_get_renamed_found _ _ _ "deep_sleep");
      [reflexivity | exact Hds | reflexivity |].
    intros c Hc. unfold rename_key.
    destruct (String.eqb_spec c "deep_sleep"); congruence.
  - unfold get_deep_sleep_duration.
    change (String.eqb "api" "csv") with false.
    change (String.eqb "api" "api") with true. cbv iota.
    destruct payload as [| row rows]; [congruence |].
    rewrite (fetch_data_from_api_rows env self "daily_sleep" start_date
               end_date duration false None params row rows Ht eq_refl Hp Hr)
      by (intros ? H; discriminate H).
    cbv zeta. cbn [andb app py_str].
    assert (He : empty (from_records (row :: rows)) = false).
    { apply (empty_false _ "contributors"); [discriminate |].
      pose proof (Forall_inv Hobj) as [fields Hf].
      apply existsb_eqb_In. apply (keys_union_covers _ row);
        [left; reflexivity | apply (dict_get_In_key _ _ _ Hf)]. }
    assert (He' : empty df = false).
    { apply (empty_false _ "contributors_deep_sleep"); [discriminate | exact Hcds]. }
    unfold mbind at 1, M_bind at 1. cbn [fst snd as_table lift].
    rewrite bind_lift_ret. rewrite He. cbn [negb].
    rewrite Hflat, bind_lift_ret. fold df. rewrite He'. cbn [negb].
    unfold mbind, M_bind, mret, M_ret.
    destruct (plot_data env df _ _ _ _ _ _ _ _ _ _) as [t [v | e]];
      cbn; rewrite ?app_nil_r; reflexivity.
Qed.

Lemma deep_sleep_normalized_witness :
  flatten_contributors (from_records sample_rows) = Ret (flattened sample_rows)
  /\ getitem (flattened sample_rows) "contributors_deep_sleep"
     = Ret [Atom (Num (90 # 1)); Atom (Num (60 # 1))].
Proof.
  destruct (deep_sleep_normalized sample_env sample_handler "2023-11-08" None
              (Some "week") ""
              {[ "start_date" := "2023-11-01"; "end_date" := "2023-11-08" ]}
              sample_rows)
    as (H1 & _ & H3 & _).
  - reflexivity.
  - reflexivity.
  - reflexivity.
  - discriminate.
  - repeat constructor; do 2 eexists; split; reflexivity.
  - split; [exact H1 |].
    apply H3; vm_compute; intros H;
      repeat (destruct H as [H | H]; [discriminate H |]); exact H.
Defined.

(** ** The anomaly detector *)

Lemma select_all_false {A B} (l : list A) (rows : list B) :
  select (map (fun _ => false) l) rows = [].
Proof.
  revert rows. induction l as [| x l IH]; intros [| r rows]; cbn; auto.
Qed.


Lemma mapM_Forall2 {A B} (f : A -> outcome B) (l : list A) (l' : list B) :
  mapM f l = Ret l' -> Forall2 (fun x y => f x = Ret y) l l'.
Proof.
  revert l'. induction l as [| x l IH]; intros l' H; cbn in H.
  - injection H as <-. constructor.
  - destruct (f x) as [y |] eqn:Ex; [| discriminate]. cbn in H.
    destruct (mapM f l) as [ys |]; [| discriminate]. cbn in H.
    injection H as <-. constructor; [exact Ex | apply IH; reflexivity].
Qed.

Lemma mapM_length {A B} (f : A -> outcome B) (l : list A) (l' : list B) :
  mapM f l = Ret l' -> List.length l' = List.length l.
Proof.
  intros H. apply mapM_Forall2 in H.
  induction H; cbn; congruence.
Qed.

(** *** Lists read position by position *)





(** *** Doubles *)




Lemma fdiv_nan_r (x : float64) : fdiv x NaN = NaN.
Proof. destruct x; reflexivity. Qed.



(** *** The z-scores *)



Lemma anomalies_of_columns env df column threshold anomalies :
  anomalies_of env df column threshold = Ret anomalies ->
  columns anomalies = columns df.
Proof.
  unfold anomalies_of. destruct (getitem df column); [| discriminate].
  cbn [obind]. destruct (z_scores _ _); [| discriminate].
  cbn [obind]. intros H. injection H as <-. reflexivity.
Qed.




(** *** The markers *)






(** ** The trend detector *)




Lemma load_data_from_csv_io env self data_type start_date end_date duration :
  Forall (fun e => is_io e = true)
    (trace (load_data_from_csv env self data_type start_date end_date
              duration)).
Proof.
  unfold load_data_from_csv. cbv zeta.
  destruct (negb _); [trace_inv |].
  destruct end_date; trace_inv.
Qed.

Lemma fetch_data_from_api_io env self data_type start_date end_date duration
    save_file filename :
  Forall (fun e => is_io e = true)
    (trace (fetch_data_from_api env self data_type start_date end_date
              duration save_file filename)).
Proof.
  unfold fetch_data_from_api, to_csv. cbv zeta.
  destruct (negb _); [trace_inv |].
  destruct (negb _); [trace_inv |].
  trace_inv.
Qed.


Lemma set_index_sorted_drops df c labels df' :
  set_index_sorted df c = Ret (labels, df') -> has_column c df' = false.
Proof.
  unfold set_index_sorted, getitem, drop_column.
  destruct (has_column c df); [| discriminate]. cbn [obind].
  intros H. injection H as _ <-. unfold has_column. cbn [columns].
  apply not_true_iff_false. intros H. apply existsb_eqb_In in H.
  apply filter_In in H as [_ H]. rewrite String.eqb_refl in H. discriminate.
Qed.



#[local] Arguments getitem : simpl never.
#[local] Arguments mean : simpl never.






(** ** The unread parameter *)

(** C9.  [n_bkps] is never read: two calls of [plot_data], or of
    [get_and_plot_daily_data], that differ only in [n_bkps] produce the
    same events and end the same way. *)
Theorem n_bkps_ignored env self df column y_label title caption x_labels
    column2 detect_trends detect_anomalies anomaly_threshold data_type source
    start_date end_date duration peacewisedDays (n_bkps n_bkps' : Z) :
  plot_data env df column y_label title caption x_labels column2 detect_trends
    n_bkps detect_anomalies anomaly_threshold
  = plot_data env df column y_label title caption x_labels column2
      detect_trends n_bkps' detect_anomalies anomaly_threshold
  /\ get_and_plot_daily_data env self data_type source start_date end_date
       duration caption peacewisedDays detect_trends n_bkps detect_anomalies
       anomaly_threshold
     = get_and_plot_daily_data env self data_type source start_date end_date
         duration caption peacewisedDays detect_trends n_bkps'
         detect_anomalies anomaly_threshold.
Proof. split; reflexivity. Qed.

(** * Further properties of the methods *)

(** ** The order of strings and of dates *)

Lemma ascii_compare_lt_trans a b c :
  Ascii.compare a b = Lt -> Ascii.compare b c = Lt -> Ascii.compare a c = Lt.
Proof.
  unfold Ascii.compare. rewrite !N.compare_lt_iff. apply N.lt_trans.
Qed.

Lemma ascii_compare_refl a : Ascii.compare a a = Eq.
Proof. unfold Ascii.compare. apply N.compare_refl. Qed.

Lemma string_compare_refl s : String.compare s s = Eq.
Proof.
  induction s as [| x s IH]; [reflexivity |].
  cbn. rewrite ascii_compare_refl. exact IH.
Qed.

Lemma string_compare_lt_trans a :
  forall b c,
    String.compare a b = Lt -> String.compare b c = Lt ->
    String.compare a c = Lt.
Proof.
  induction a as [| x a IH]; intros [| y b] [| z c]; cbn; try congruence.
  destruct (Ascii.compare x y) eqn:E1; try discriminate;
    destruct (Ascii.compare y z) eqn:E2; try discriminate.
  - apply Ascii.compare_eq_iff in E1, E2. subst.
    rewrite ascii_compare_refl. apply IH.
  - apply Ascii.compare_eq_iff in E1. subst. rewrite E2. reflexivity.
  - apply Ascii.compare_eq_iff in E2. subst. rewrite E1. reflexivity.
  - rewrite (ascii_compare_lt_trans _ _ _ E1 E2). reflexivity.
Qed.

Lemma string_leb_trans a b c :
  String.leb a b = true -> String.leb b c = true -> String.leb a c = true.
Proof.
  unfold String.leb.
  destruct (String.compare a b) eqn:E1; try discriminate;
    destruct (String.compare b c) eqn:E2; try discriminate; intros _ _.
  - apply String.compare_eq_iff in E1, E2. subst.
    rewrite string_compare_refl. reflexivity.
  - apply String.compare_eq_iff in E1. subst. rewrite E2. reflexivity.
  - apply String.compare_eq_iff in E2. subst. rewrite E1. reflexivity.
  - rewrite (string_compare_lt_trans _ _ _ E1 E2). reflexivity.
Qed.

(** An inverted window holds no string. *)
Lemma window_inverted lo hi s :
  String.ltb hi lo = true ->
  String.leb lo s && String.leb s hi = false.
Proof.
  intros Hlt. apply not_true_iff_false. intros H.
  apply andb_true_iff in H as [H1 H2].
  pose proof (string_leb_trans _ _ _ H1 H2) as Hle.
  unfold String.ltb in Hlt. unfold String.leb in Hle.
  rewrite String.compare_antisym in Hle.
  destruct (String.compare hi lo); discriminate.
Qed.

Lemma filter_none {A} (f : A -> bool) (l : list A) :
  (forall x, f x = false) -> filter f l = [].
Proof.
  intros H. induction l as [| x l IH]; [reflexivity |].
  cbn. rewrite H. exact IH.
Qed.

Lemma in_window_inverted lo hi r :
  String.ltb hi lo = true -> in_window lo hi r = false.
Proof.
  intros H. unfold in_window. destruct (day_of r); [| reflexivity].
  apply window_inverted, H.
Qed.

Lemma strptime_valid s dt : strptime s = Ret dt -> valid_date dt = true.
Proof.
  unfold strptime. destruct (re_match s) as [| [[[y m] d] rest] l];
    [discriminate |].
  destruct rest; [| discriminate].
  destruct (valid_ymd y m d) eqn:E; [| discriminate].
  intros H. injection H as <-. exact E.
Qed.

Lemma compare_ymd_eq d1 d2 : compare_ymd d1 d2 = Eq -> d1 = d2.
Proof.
  destruct d1 as [y1 m1 e1], d2 as [y2 m2 e2]. unfold compare_ymd. cbn.
  destruct (y1 ?= y2) eqn:Ey; try discriminate.
  destruct (m1 ?= m2) eqn:Em; try discriminate.
  intros Ed. apply Z.compare_eq_iff in Ey, Em, Ed. congruence.
Qed.

Lemma toordinal_inj d1 d2 :
  valid_date d1 = true -> valid_date d2 = true ->
  toordinal d1 = toordinal d2 -> d1 = d2.
Proof.
  intros V1 V2 H. apply compare_ymd_eq.
  rewrite <- (compare_toordinal d1 d2 V1 V2), H. apply Z.compare_refl.
Qed.

Lemma fromordinal_toordinal dt :
  valid_date dt = true -> fromordinal (toordinal dt) = dt.
Proof.
  intros V. pose proof (toordinal_bounds dt V) as B.
  destruct (fromordinal_correct _ B) as [V' E].
  apply toordinal_inj; assumption.
Qed.

Lemma year_mono d1 d2 :
  valid_date d1 = true -> valid_date d2 = true ->
  toordinal d1 <= toordinal d2 -> year d1 <= year d2.
Proof.
  intros V1 V2 H. pose proof (compare_toordinal d1 d2 V1 V2) as C.
  unfold compare_ymd in C.
  destruct (Z.compare_spec (year d1) (year d2)) as [E | E | E]; [lia | lia |].
  apply Z.compare_gt_iff in C. lia.
Qed.

(** ** The resolver on other spellings and in sequence *)

(** The resolver on a parsed date whose shifted ordinal is a date. *)
Lemma convert_date_shift env dt period :
  valid_date dt = true ->
  1 <= toordinal dt + offset_table period <= MAXORDINAL ->
  _convert_date env (isoformat dt) period
  = Ret (strftime (pads_year env)
           (fromordinal (toordinal dt + offset_table period))).
Proof.
  intros V R. rewrite (convert_date_parsed env dt period V).
  destruct (Z.eqb_spec (offset_table period) 0) as [E | E].
  - rewrite E, Z.add_0_r, (fromordinal_toordinal dt V). reflexivity.
  - rewrite (date_add_in_range _ _ R). reflexivity.
Qed.

(** X1.  [_convert_date] reads a date in any spelling [strptime] accepts
    (2023-1-5 for instance) as the calendar date it denotes: that date
    is a valid one, the result for every period is the result for the
    date's ISO spelling, and without a period the result is the ISO
    spelling (where the year is printed with four digits), which the
    resolver maps to itself. *)
Theorem convert_date_canonical env s dt period :
  strptime s = Ret dt ->
  valid_date dt = true
  /\ _convert_date env s period = _convert_date env (isoformat dt) period
  /\ (pads_year env = true \/ 1000 <= year dt ->
      _convert_date env s None = Ret (isoformat dt)
      /\ _convert_date env (isoformat dt) None = Ret (isoformat dt)).
Proof.
  intros H. pose proof (strptime_valid s dt H) as V.
  assert (E : forall p,
             _convert_date env s p = _convert_date env (isoformat dt) p).
  { intros p. unfold _convert_date.
    rewrite H, (strptime_isoformat dt V). reflexivity. }
  split; [exact V |]. split; [apply E |].
  intros Hy. rewrite E, (convert_date_parsed env dt None V). cbn.
  rewrite (strftime_iso _ _ Hy). split; reflexivity.
Qed.

Lemma convert_date_canonical_witness :
  _convert_date sample_env "2023-1-5" None = Ret "2023-01-05"
  /\ _convert_date sample_env "2023-01-05" None = Ret "2023-01-05".
Proof.
  refine (proj2 (proj2 (convert_date_canonical sample_env "2023-1-5"
                          (mkDate 2023 1 5) None _)) _).
  - reflexivity.
  - right. cbn. lia.
Defined.

(** X2.  Two shifts in sequence add their offsets: resolving a date by
    one period and the result by another gives the date shifted by the
    sum of the two offsets, as long as both dates stay within the
    calendar and the year in between is printed with four digits. *)
Theorem convert_date_shifts_compose env dt p1 p2 :
  valid_date dt = true ->
  1 <= toordinal dt + offset_table p1 <= MAXORDINAL ->
  1 <= toordinal dt + offset_table p1 + offset_table p2 <= MAXORDINAL ->
  pads_year env = true
  \/ 1000 <= year (fromordinal (toordinal dt + offset_table p1)) ->
  obind (_convert_date env (isoformat dt) p1)
    (fun shifted => _convert_date env shifted p2)
  = Ret (strftime (pads_year env)
           (fromordinal (toordinal dt + offset_table p1 + offset_table p2))).
Proof.
  intros V R1 R2 Hy.
  rewrite (convert_date_shift env dt p1 V R1). cbn [obind].
  destruct (fromordinal_correct _ R1) as [V1 E1].
  rewrite (strftime_iso _ _ Hy).
  rewrite (convert_date_shift env _ p2 V1); rewrite E1; [reflexivity | exact R2].
Qed.

Lemma convert_date_shifts_compose_witness :
  obind (_convert_date sample_env "2023-12-08" (Some "week"))
    (fun shifted => _convert_date sample_env shifted (Some "day"))
  = Ret "2023-12-02".
Proof.
  apply (convert_date_shifts_compose sample_env (mkDate 2023 12 8)
           (Some "week") (Some "day")).
  - reflexivity.
  - vm_compute. split; discriminate.
  - vm_compute. split; discriminate.
  - right. vm_compute. discriminate.
Defined.

(** ** Windows of the CSV loader *)

Lemma isoformat_ltb d1 d2 :
  valid_date d1 = true -> valid_date d2 = true ->
  String.ltb (isoformat d1) (isoformat d2) = (toordinal d1 <? toordinal d2).
Proof.
  intros V1 V2. unfold String.ltb, Z.ltb.
  rewrite (compare_isoformat d1 d2 V1 V2), (compare_toordinal d1 d2 V1 V2).
  reflexivity.
Qed.

(** The loader on a file whose days are strings. *)
Lemma load_data_from_csv_strings env self data_type start_date end_date
    duration path file lo hi :
  local_data_paths self !! data_type = Some path ->
  path <> "" ->
  read_csv env path = Ret file ->
  has_column "day" file = true ->
  Forall (fun r => day_of r <> None) (records file) ->
  date_window env start_date end_date duration = Ret (lo, hi) ->
  load_data_from_csv env self data_type start_date end_date duration
  = ([ReadCsv path],
     Ret (RTable (mkDataFrame (columns file)
                    (filter (in_window lo hi) (records file))))).
Proof.
  intros Hpath Hne Hread Hcol Hday Hwin.
  unfold load_data_from_csv. rewrite Hpath.
  assert (Ht : truthy (Some path) = true).
  { cbn. apply negb_true_iff, String.eqb_neq, Hne. }
  rewrite Ht. cbn [negb py_str].
  unfold date_window in Hwin.
  destruct end_date as [end_date |].
  - injection Hwin as <- <-.
    cbn. rewrite Hread. cbn.
    rewrite (between_mask_strings file _ _ Hcol Hday). cbn.
    unfold loc. rewrite select_map. reflexivity.
  - destruct (_convert_date env start_date duration) as [target |] eqn:E;
      [| discriminate].
    injection Hwin as <- <-.
    cbn. rewrite Hread. cbn.
    rewrite (between_mask_strings file _ _ Hcol Hday). cbn.
    unfold loc. rewrite select_map. reflexivity.
Qed.

(** X3.  Without an end date and for a duration that does not shift
    forwards (every duration but 'day'), the CSV loader returns a table
    that holds every row of the file dated [start_date]. *)
Theorem load_window_holds_start_date env self data_type dt duration path
    file :
  local_data_paths self !! data_type = Some path ->
  path <> "" ->
  read_csv env path = Ret file ->
  has_column "day" file = true ->
  Forall (fun r => day_of r <> None) (records file) ->
  valid_date dt = true ->
  offset_table duration <= 0 ->
  1 <= toordinal dt + offset_table duration ->
  pads_year env = true
  \/ 1000 <= year (fromordinal (toordinal dt + offset_table duration)) ->
  exists df,
    load_data_from_csv env self data_type (isoformat dt) None duration
    = ([ReadCsv path], Ret (RTable df))
    /\ forall r, In r (records file) -> day_of r = Some (isoformat dt) ->
                 In r (records df).
Proof.
  intros Hpath Hne Hread Hcol Hday V Hoff Hlo Hy.
  pose proof (toordinal_bounds dt V) as B.
  assert (R : 1 <= toordinal dt + offset_table duration <= MAXORDINAL) by lia.
  destruct (fromordinal_correct _ R) as [V' E'].
  eexists. split.
  - apply (load_data_from_csv_strings env self data_type (isoformat dt) None
             duration path file
             (isoformat (fromordinal (toordinal dt + offset_table duration)))
             (isoformat dt)); try assumption.
    unfold date_window.
    rewrite (convert_date_shift env dt duration V R), (strftime_iso _ _ Hy).
    reflexivity.
  - cbn [records]. intros r Hin Hr. apply filter_In. split; [exact Hin |].
    unfold in_window. rewrite Hr, string_leb_refl, andb_true_r.
    rewrite (isoformat_leb _ _ V' V), E'. apply Z.leb_le. lia.
Qed.

(** X4.  Without an end date and with the duration 'day' the window of
    the CSV loader starts a day after it ends: the loader reads the file
    and returns its columns without any row, whatever the file holds. *)
Theorem load_day_duration_selects_nothing env self data_type dt path file :
  local_data_paths self !! data_type = Some path ->
  path <> "" ->
  read_csv env path = Ret file ->
  has_column "day" file = true ->
  Forall (fun r => day_of r <> None) (records file) ->
  valid_date dt = true ->
  toordinal dt < MAXORDINAL ->
  pads_year env = true \/ 1000 <= year dt ->
  load_data_from_csv env self data_type (isoformat dt) None (Some "day")
  = ([ReadCsv path], Ret (RTable (mkDataFrame (columns file) []))).
Proof.
  intros Hpath Hne Hread Hcol Hday V Hmax Hy.
  pose proof (toordinal_bounds dt V) as B.
  assert (R : 1 <= toordinal dt + offset_table (Some "day") <= MAXORDINAL)
    by (change (offset_table (Some "day")) with 1; lia).
  destruct (fromordinal_correct _ R) as [V' E'].
  assert (Hy' : pads_year env = true
                \/ 1000 <= year (fromordinal
                                   (toordinal dt + offset_table (Some "day")))).
  { destruct Hy as [Hy | Hy]; [left; exact Hy | right].
    assert (Hm : year dt
                 <= year (fromordinal
                            (toordinal dt + offset_table (Some "day")))).
    { apply year_mono; [assumption | assumption |]. rewrite E'.
      change (offset_table (Some "day")) with 1. lia. }
    lia. }
  rewrite (load_data_from_csv_strings env self data_type (isoformat dt) None
             (Some "day") path file
             (isoformat (fromordinal (toordinal dt + offset_table (Some "day"))))
             (isoformat dt)); try assumption.
  - rewrite filter_none; [reflexivity |].
    intros r. apply in_window_inverted.
    rewrite (isoformat_ltb _ _ V V'), E'. apply Z.ltb_lt.
    change (offset_table (Some "day")) with 1. lia.
  - unfold date_window.
    rewrite (convert_date_shift env dt (Some "day") V R), (strftime_iso _ _ Hy').
    reflexivity.
Qed.

(** X5.  An end date that is before the start date (as strings) selects
    nothing: the loader reads the file and returns its columns without
    any row; no fault is raised. *)
Theorem load_inverted_window_selects_nothing env self data_type start_date
    end_date duration path file :
  local_data_paths self !! data_type = Some path ->
  path <> "" ->
  read_csv env path = Ret file ->
  has_column "day" file = true ->
  Forall (fun r => day_of r <> None) (records file) ->
  String.ltb end_date start_date = true ->
  load_data_from_csv env self data_type start_date (Some end_date) duration
  = ([ReadCsv path], Ret (RTable (mkDataFrame (columns file) []))).
Proof.
  intros Hpath Hne Hread Hcol Hday Hlt.
  rewrite (load_data_from_csv_strings env self data_type start_date
             (Some end_date) duration path file start_date end_date);
    try assumption; [| reflexivity].
  rewrite filter_none; [reflexivity |].
  intros r. apply in_window_inverted, Hlt.
Qed.

Lemma load_window_holds_start_date_witness :
  exists df,
    load_data_from_csv sample_env sample_handler "daily_sleep" "2023-11-08"
      None (Some "week")
    = ([ReadCsv "oura_daily-sleep.csv"], Ret (RTable df))
    /\ forall r, In r (records sample_file) ->
                 day_of r = Some "2023-11-08" -> In r (records df).
Proof.
  apply (load_window_holds_start_date sample_env sample_handler "daily_sleep"
           (mkDate 2023 11 8) (Some "week") "oura_daily-sleep.csv"
           sample_file).
  - reflexivity.
  - discriminate.
  - reflexivity.
  - reflexivity.
  - repeat constructor; discriminate.
  - reflexivity.
  - vm_compute. discriminate.
  - vm_compute. discriminate.
  - right. vm_compute. discriminate.
Defined.

Lemma load_day_duration_selects_nothing_witness :
  load_data_from_csv sample_env sample_handler "daily_sleep" "2023-11-01"
    None (Some "day")
  = ([ReadCsv "oura_daily-sleep.csv"],
     Ret (RTable (mkDataFrame ["day"; "score"] []))).
Proof.
  apply (load_day_duration_selects_nothing sample_env sample_handler
           "daily_sleep" (mkDate 2023 11 1) "oura_daily-sleep.csv"
           sample_file).
  - reflexivity.
  - discriminate.
  - reflexivity.
  - reflexivity.
  - repeat constructor; discriminate.
  - reflexivity.
  - vm_compute. reflexivity.
  - right. vm_compute. discriminate.
Defined.

Lemma load_inverted_window_selects_nothing_witness :
  load_data_from_csv sample_env sample_handler "daily_sleep" "2023-11-08"
    (Some "2023-11-01") None
  = ([ReadCsv "oura_daily-sleep.csv"],
     Ret (RTable (mkDataFrame ["day"; "score"] []))).
Proof.
  apply (load_inverted_window_selects_nothing sample_env sample_handler
           "daily_sleep" "2023-11-08" "2023-11-01" None
           "oura_daily-sleep.csv" sample_file).
  - reflexivity.
  - discriminate.
  - reflexivity.
  - reflexivity.
  - repeat constructor; discriminate.
  - reflexivity.
Defined.

(** ** Faults of the CSV loader *)

(** X6.  For a data type with a configured path the only effect of the
    CSV loader is one read of that path, whether the call then returns
    or raises: nothing is printed, requested or written. *)
Theorem load_reads_only_mapped_file env self data_type start_date end_date
    duration path :
  local_data_paths self !! data_type = Some path ->
  path <> "" ->
  trace (load_data_from_csv env self data_type start_date end_date duration)
  = [ReadCsv path].
Proof.
  intros Hpath Hne. unfold load_data_from_csv. rewrite Hpath.
  assert (Ht : truthy (Some path) = true).
  { cbn. apply negb_true_iff, String.eqb_neq, Hne. }
  rewrite Ht. cbn [negb py_str]. mstep.
  destruct (read_csv env path) as [file | e]; mstep; [| reflexivity].
  destruct end_date as [end_date |].
  - destruct (between_mask file start_date end_date); mstep; reflexivity.
  - destruct (_convert_date env start_date duration) as [target |]; mstep;
      [| reflexivity].
    destruct (between_mask file target start_date); mstep; reflexivity.
Qed.

Lemma load_reads_only_mapped_file_witness :
  trace (load_data_from_csv sample_env sample_handler "daily_sleep"
           "not a date" None (Some "week"))
  = [ReadCsv "oura_daily-sleep.csv"].
Proof.
  apply (load_reads_only_mapped_file sample_env sample_handler "daily_sleep"
           "not a date" None (Some "week") "oura_daily-sleep.csv").
  - reflexivity.
  - discriminate.
Defined.

Lemma between_mask_no_day df lo hi :
  has_column "day" df = false -> between_mask df lo hi = Raise KeyError.
Proof. intros H. unfold between_mask, getitem. rewrite H. reflexivity. Qed.

Lemma between_mask_number df lo hi r rest q :
  has_column "day" df = true ->
  records df = r :: rest ->
  cell_of "day" r = Atom (Num q) ->
  between_mask df lo hi = Raise TypeError.
Proof.
  intros Hc Hr Hq. unfold between_mask, getitem. rewrite Hc, Hr.
  cbn. rewrite Hq. reflexivity.
Qed.

(** The loader on a file it could read, for a window that resolves. *)
Lemma load_data_from_csv_mask env self data_type start_date end_date duration
    path file lo hi :
  local_data_paths self !! data_type = Some path ->
  path <> "" ->
  read_csv env path = Ret file ->
  date_window env start_date end_date duration = Ret (lo, hi) ->
  load_data_from_csv env self data_type start_date end_date duration
  = ([ReadCsv path],
     obind (between_mask file lo hi) (fun mask => Ret (RTable (loc file mask)))).
Proof.
  intros Hpath Hne Hread Hwin.
  assert (Ht : truthy (Some path) = true).
  { cbn. apply negb_true_iff, String.eqb_neq, Hne. }
  unfold load_data_from_csv. rewrite Hpath, Ht. cbn [negb py_str].
  rewrite Hread. unfold date_window in Hwin.
  destruct end_date as [end_date |].
  - injection Hwin as <- <-. mstep.
    destruct (between_mask file start_date end_date); mstep; reflexivity.
  - destruct (_convert_date env start_date duration) as [target |];
      [| discriminate].
    injection Hwin as <- <-. mstep.
    destruct (between_mask file target start_date); mstep; reflexivity.
Qed.

(** X7.  A file that could be read but has no [day] column makes the
    loader raise KeyError; a [day] column whose first cell is a number
    makes it raise TypeError, at the comparison with the strings of the
    window.  In both cases the file was read and nothing else done. *)
Theorem load_day_column_faults env self data_type start_date end_date duration
    path file lo hi :
  local_data_paths self !! data_type = Some path ->
  path <> "" ->
  read_csv env path = Ret file ->
  date_window env start_date end_date duration = Ret (lo, hi) ->
  (has_column "day" file = false ->
   load_data_from_csv env self data_type start_date end_date duration
   = ([ReadCsv path], Raise KeyError))
  /\ (forall r rest q,
        has_column "day" file = true ->
        records file = r :: rest ->
        cell_of "day" r = Atom (Num q) ->
        load_data_from_csv env self data_type start_date end_date duration
        = ([ReadCsv path], Raise TypeError)).
Proof.
  intros Hpath Hne Hread Hwin.
  rewrite (load_data_from_csv_mask env self data_type start_date end_date
             duration path file lo hi Hpath Hne Hread Hwin).
  split.
  - intros Hc. rewrite (between_mask_no_day _ _ _ Hc). reflexivity.
  - intros r rest q Hc Hr Hq.
    rewrite (between_mask_number _ _ _ r rest q Hc Hr Hq). reflexivity.
Qed.

Lemma load_day_column_faults_witness :
  load_data_from_csv
    (mkEnv false (fun _ _ _ _ => Ret [])
       (fun _ => Ret (from_records [[("score", Atom (Num (70 # 1)))]]))
       (fun _ _ _ => Ret []) (fun l => Ret l) (fun _ => Raise ValueError)
       (fun _ _ _ => Ret [])
       sample_write two_pass_mean two_pass_std)
    sample_handler "daily_sleep" "2023-11-08" None (Some "week")
  = ([ReadCsv "oura_daily-sleep.csv"], Raise KeyError).
Proof.
  refine (proj1 (load_day_column_faults _ sample_handler "daily_sleep"
                   "2023-11-08" None (Some "week") "oura_daily-sleep.csv"
                   _ "2023-11-01" "2023-11-08" _ _ _ _) _).
  - reflexivity.
  - discriminate.
  - reflexivity.
  - reflexivity.
  - reflexivity.
Defined.

(** ** Requests that are never sent *)



(** ** The table of a payload *)

Lemma NoDup_snoc {A} (l : list A) (x : A) :
  ~ In x l -> List.NoDup l -> List.NoDup (l ++ [x]).
Proof.
  intros Hx H. induction H as [| y l Hy H IH]; cbn.
  - constructor; [intros [] | constructor].
  - constructor.
    + intros Hin. apply in_app_or in Hin as [Hin | [-> | []]].
      * exact (Hy Hin).
      * apply Hx. left. reflexivity.
    + apply IH. intros Hin. apply Hx. right. exact Hin.
Qed.

Lemma add_keys_NoDup (keys acc : list string) :
  NoDup acc -> NoDup (add_keys acc keys).
Proof.
  revert acc. unfold add_keys.
  induction keys as [| k keys IH]; intros acc H; [exact H |].
  cbn [fold_left]. apply IH.
  destruct (existsb (String.eqb k) acc) eqn:E; [exact H |].
  apply NoDup_snoc; [| exact H].
  intros Hk. apply existsb_eqb_In in Hk. congruence.
Qed.

Lemma keys_union_NoDup (data : list record) : NoDup (keys_union data).
Proof.
  unfold keys_union. assert (H : NoDup (@nil string)) by apply NoDup_nil.
  revert H. generalize (@nil string).
  induction data as [| r data IH]; intros acc H; [exact H |].
  cbn [fold_left]. apply IH, add_keys_NoDup, H.
Qed.

Lemma add_keys_from (keys acc : list string) (k : string) :
  In k (add_keys acc keys) -> In k acc \/ In k keys.
Proof.
  revert acc. unfold add_keys.
  induction keys as [| x keys IH]; intros acc H; [left; exact H |].
  cbn [fold_left] in H. apply IH in H as [H | H]; [| right; right; exact H].
  destruct (existsb (String.eqb x) acc); [left; exact H |].
  apply in_app_or in H as [H | [<- | []]];
    [left; exact H | right; left; reflexivity].
Qed.

Lemma keys_union_from (data : list record) (k : string) :
  In k (keys_union data) -> exists r, In r data /\ In k (map fst r).
Proof.
  unfold keys_union.
  assert (H : forall acc,
             In k (fold_left (fun acc r => add_keys acc (map fst r)) data acc) ->
             In k acc \/ exists r, In r data /\ In k (map fst r)).
  { induction data as [| r data IH]; intros acc H; [left; exact H |].
    cbn [fold_left] in H. apply IH in H as [H | (r' & Hr' & Hk)].
    - apply add_keys_from in H as [H | H]; [left; exact H |].
      right. exists r. split; [left; reflexivity | exact H].
    - right. exists r'. split; [right; exact Hr' | exact Hk]. }
  intros Hk. apply H in Hk as [[] | Hk]. exact Hk.
Qed.

Lemma from_records_rectangular (data : list record) :
  rectangular (from_records data).
Proof.
  unfold rectangular, from_records. cbn [columns records]. split.
  - apply keys_union_NoDup.
  - apply Forall_forall. intros row Hrow.
    apply in_map_iff in Hrow as (r & <- & _).
    rewrite map_map. cbn [fst]. apply map_id.
Qed.

Lemma Forall2_map_r {A B} (P : A -> B -> Prop) (f : A -> B) (l : list A) :
  (forall x, P x (f x)) -> Forall2 P l (map f l).
Proof. intros H. induction l; constructor; auto. Qed.

(** X9.  The table an API fetch makes of a non-empty payload is
    rectangular: its columns are distinct and are exactly the keys that
    occur in the rows of the payload; it has one row per payload row, in
    order; and each row holds, for every column, the cell of its payload
    row. *)
Theorem fetch_table_rectangular env self data_type start_date end_date
    duration filename params row rows :
  truthy (access_token self) = true ->
  existsb (String.eqb data_type) valid_data_types = true ->
  request_params env data_type start_date end_date duration = Ret params ->
  requests_get env (api_address self ++ "/v2/usercollection/" ++ data_type)
    {[ "Authorization" := ("Bearer " ++ py_str (access_token self))%string ]}
    params 10 = Ret (row :: rows) ->
  exists df,
    result (fetch_data_from_api env self data_type start_date end_date
              duration false filename) = Ret (RTable df)
    /\ rectangular df
    /\ (forall k, In k (columns df)
                  <-> exists r, In r (row :: rows) /\ In k (map fst r))
    /\ Forall2 (fun r r' => forall k, In k (columns df) ->
                                      cell_of k r' = cell_of k r)
         (row :: rows) (records df).
Proof.
  intros Ht Hd Hp Hr. exists (from_records (row :: rows)).
  rewrite (fetch_data_from_api_rows env self data_type start_date end_date
             duration false filename params row rows Ht Hd Hp Hr)
      by (intros ? H; discriminate H).
  cbv zeta. cbn [andb]. rewrite result_pair.
  split; [reflexivity |]. split; [apply from_records_rectangular |]. split.
  - intros k. unfold from_records. cbn [columns]. split.
    + apply keys_union_from.
    + intros (r & Hin & Hk). apply (keys_union_covers _ r); assumption.
  - unfold from_records. cbn [columns records].
    apply Forall2_map_r. intros r k Hk. rewrite cell_of_row.
    apply existsb_eqb_In in Hk. rewrite Hk. reflexivity.
Qed.

Lemma fetch_table_rectangular_witness :
  exists df,
    result (fetch_data_from_api sample_env sample_handler "daily_sleep"
              "2023-11-08" None (Some "week") false None) = Ret (RTable df)
    /\ rectangular df
    /\ (forall k, In k (columns df)
                  <-> exists r, In r sample_rows /\ In k (map fst r))
    /\ Forall2 (fun r r' => forall k, In k (columns df) ->
                                      cell_of k r' = cell_of k r)
         sample_rows (records df).
Proof.
  refine (fetch_table_rectangular sample_env sample_handler "daily_sleep"
            "2023-11-08" None (Some "week") None
            {[ "start_date" := "2023-11-01"; "end_date" := "2023-11-08" ]}
            _ _ _ _ _ _); reflexivity.
Defined.

Lemma keys_union_fieldless (data : list record) :
  Forall (fun r => r = []) data -> keys_union data = [].
Proof.
  unfold keys_union. generalize (@nil string).
  induction 1 as [| r data -> _ IH]; [reflexivity |].
  cbn [fold_left map]. exact IH.
Qed.

(** X10.  A payload whose rows have no field gives a table without
    columns, which counts as empty: with [save_file] the fetch prints
    that there is no data to save and returns None, writing nothing;
    without [save_file] it returns that table. *)
Theorem fetch_save_fieldless_rows env self data_type start_date end_date
    duration filename params row rows :
  truthy (access_token self) = true ->
  existsb (String.eqb data_type) valid_data_types = true ->
  request_params env data_type start_date end_date duration = Ret params ->
  requests_get env (api_address self ++ "/v2/usercollection/" ++ data_type)
    {[ "Authorization" := ("Bearer " ++ py_str (access_token self))%string ]}
    params 10 = Ret (row :: rows) ->
  Forall (fun r => r = []) (row :: rows) ->
  fetch_data_from_api env self data_type start_date end_date duration true
    filename
  = ([Print ("Requesting " ++ data_type ++ " data... ");
      HttpGet (api_address self ++ "/v2/usercollection/" ++ data_type)
        {[ "Authorization" := ("Bearer " ++ py_str (access_token self))%string ]}
        params 10;
      Print "done!"; Print "No data available to save."],
     Ret RNone)
  /\ result (fetch_data_from_api env self data_type start_date end_date
               duration false filename)
     = Ret (RTable (mkDataFrame [] (map (fun _ => []) (row :: rows)))).
Proof.
  intros Ht Hd Hp Hr Hall.
  assert (Hdf : from_records (row :: rows)
                = mkDataFrame [] (map (fun _ => []) (row :: rows))).
  { unfold from_records. rewrite (keys_union_fieldless _ Hall). reflexivity. }
  rewrite !(fetch_data_from_api_rows env self data_type start_date end_date
              duration _ filename params row rows Ht Hd Hp Hr)
    by (intros ? H1 H2;
        first [discriminate H1 | rewrite Hdf in H2; discriminate H2]).
  cbv zeta. rewrite Hdf. split; reflexivity.
Qed.

Lemma fetch_save_fieldless_rows_witness :
  result (fetch_data_from_api
            (mkEnv false (fun _ _ _ _ => Ret [[]])
               (fun _ => Raise IOError) (fun _ _ _ => Ret [])
               (fun l => Ret l) (fun _ => Raise ValueError)
               (fun _ _ _ => Ret [])
               sample_write two_pass_mean two_pass_std)
            sample_handler "daily_sleep" "2023-11-08" None (Some "week")
            true (Some "sleep.csv"))
  = Ret RNone.
Proof.
  refine (f_equal snd
            (proj1 (fetch_save_fieldless_rows _ sample_handler "daily_sleep"
                      "2023-11-08" None (Some "week") (Some "sleep.csv")
                      {[ "start_date" := "2023-11-01";
                         "end_date" := "2023-11-08" ]}
                      [] [] _ _ _ _ _))).
  - reflexivity.
  - reflexivity.
  - reflexivity.
  - reflexivity.
  - repeat constructor.
Defined.

(** ** Saving afterwards *)

(** X11.  Saving during the fetch writes what saving afterwards writes:
    the files written by a fetch with [save_file] and a file name are
    those written by the same fetch without [save_file] followed by
    [save_to_csv] on its result. *)
Theorem save_to_csv_after_fetch env self data_type start_date end_date
    duration path :
  filter is_write
    (trace (fetch_data_from_api env self data_type start_date end_date
              duration true (Some path)))
  = filter is_write
      (trace (r ← fetch_data_from_api env self data_type start_date end_date
                    duration false None ;
              df ← lift (as_table r) ;
              save_to_csv env df (Some path))).
Proof.
  unfold fetch_data_from_api, save_to_csv, to_csv.
  destruct (negb (truthy (access_token self))); [reflexivity |].
  destruct (negb (existsb (String.eqb data_type) valid_data_types));
    [reflexivity |].
  destruct (request_params env data_type start_date end_date duration)
    as [params | e]; [| reflexivity].
  cbv zeta. mstep.
  destruct (requests_get env _ _ params 10) as [[| row rows] | e];
    [reflexivity | | reflexivity].
  mstep. destruct (empty (from_records (row :: rows))) eqn:E.
  - mstep. unfold mbind, M_bind. cbn. rewrite E. reflexivity.
  - mstep. unfold mbind, M_bind, lift, emit. cbn. rewrite E. cbn.
    destruct (write_csv env path (from_records (row :: rows))) as [[] | e];
      reflexivity.
Qed.

(** ** The figure of [plot_data] *)

Ltac stop_at_show tac :=
  repeat lazymatch goal with
    | |- _ (emit Show ≫= _) = _ -> _ => fail
    | |- In _ (trace (emit Show ≫= _)) -> _ => fail
    | |- _ => tac
    end.

Lemma plot_data_shown env df column y_label title caption x_labels column2
    detect_trends n_bkps detect_anomalies anomaly_threshold :
  In Show (trace (plot_data env df column y_label title caption x_labels
                    column2 detect_trends n_bkps detect_anomalies
                    anomaly_threshold)) ->
  empty df = false
  /\ result (plot_data env df column y_label title caption x_labels column2
               detect_trends n_bkps detect_anomalies anomaly_threshold)
     = Ret RNone.
Proof.
  unfold plot_data, change_points_of.
  destruct (empty df); [intros [H | []]; discriminate H |].
  intros H. split; [reflexivity |]. revert H.
  repeat (apply (event_after_result is_show);
          [reflexivity | solve [trace_inv] | intros ? ?]).
  intros _. destruct (negb (String.eqb caption "")); reflexivity.
Qed.

Lemma plot_data_completed env df column y_label title caption x_labels
    column2 detect_trends n_bkps detect_anomalies anomaly_threshold :
  empty df = false ->
  result (plot_data env df column y_label title caption x_labels column2
            detect_trends n_bkps detect_anomalies anomaly_threshold)
  = Ret RNone ->
  In Show (trace (plot_data env df column y_label title caption x_labels
                    column2 detect_trends n_bkps detect_anomalies
                    anomaly_threshold)).
Proof.
  unfold plot_data, change_points_of. intros ->.
  stop_at_show ltac:(apply completes_with_event; intros ? ?).
  intros _. left. reflexivity.
Qed.

Lemma plot_data_display env df column y_label title caption x_labels column2
    detect_trends n_bkps detect_anomalies anomaly_threshold text :
  In (Display text)
    (trace (plot_data env df column y_label title caption x_labels column2
              detect_trends n_bkps detect_anomalies anomaly_threshold)) ->
  In Show
    (trace (plot_data env df column y_label title caption x_labels column2
              detect_trends n_bkps detect_anomalies anomaly_threshold))
  /\ (text = "**Figure:** " ++ caption)%string /\ caption <> "".
Proof.
  unfold plot_data, change_points_of.
  destruct (empty df); [intros [H | []]; discriminate H |].
  stop_at_show ltac:(apply (event_after_event is_display);
                     [reflexivity | solve [trace_inv] | intros ? ?]).
  mstep. cbn [trace fst].
  destruct (String.eqb_spec caption ""); cbn [negb]; mstep; cbn.
  - intros [Hin | []]. discriminate Hin.
  - intros [Hin | [Hin | []]]; [discriminate Hin |].
    injection Hin as <-. auto.
Qed.

(** X12.  [plot_data] shows the figure exactly when the table is not
    empty and the call returns: no fault is raised after [plt.show()],
    and a call that returns on a table with rows has shown the figure.
    A caption is displayed only after the figure was shown, only when
    it is not the empty string, and as the text '**Figure:** ' followed
    by the caption. *)
Theorem plot_data_shows_iff_completes env df column y_label title caption
    x_labels column2 detect_trends n_bkps detect_anomalies anomaly_threshold :
  let run := plot_data env df column y_label title caption x_labels column2
               detect_trends n_bkps detect_anomalies anomaly_threshold in
  (In Show (trace run) <-> empty df = false /\ result run = Ret RNone)
  /\ (forall text, In (Display text) (trace run) ->
        In Show (trace run)
        /\ (text = "**Figure:** " ++ caption)%string /\ caption <> "").
Proof.
  cbv zeta. split; [split |].
  - apply plot_data_shown.
  - intros [He Hr]. apply plot_data_completed; assumption.
  - intros text. apply plot_data_display.
Qed.

(** ** The deep-sleep entry point on a CSV export *)

Lemma plot_data_missing_column env df column y_label title caption x_labels
    column2 detect_trends n_bkps detect_anomalies anomaly_threshold :
  empty df = false ->
  has_column column df = false ->
  plot_data env df column y_label title caption x_labels column2
    detect_trends n_bkps detect_anomalies anomaly_threshold
  = ([RcParams; Subplots], Raise KeyError).
Proof.
  intros He Hc. unfold plot_data. rewrite He.
  assert (Hg : getitem df column = Raise KeyError).
  { unfold getitem. rewrite Hc. reflexivity. }
  rewrite Hg. cbn [obind]. mstep. reflexivity.
Qed.

(** X13.  [get_deep_sleep_duration] on a CSV export that has rows in the
    window but no [contributors_deep_sleep] column raises KeyError,
    after the figure was created and before anything is drawn. *)
Theorem deep_sleep_csv_needs_flat_column env self start_date end_date
    duration caption path file lo hi :
  local_data_paths self !! "daily_sleep" = Some path ->
  path <> "" ->
  read_csv env path = Ret file ->
  has_column "day" file = true ->
  Forall (fun r => day_of r <> None) (records file) ->
  date_window env start_date end_date duration = Ret (lo, hi) ->
  filter (in_window lo hi) (records file) <> [] ->
  has_column "contributors_deep_sleep" file = false ->
  get_deep_sleep_duration env self "csv" start_date end_date duration caption
  = ([ReadCsv path; RcParams; Subplots], Raise KeyError).
Proof.
  intros Hpath Hne Hread Hcol Hday Hwin Hrows Hflat.
  unfold get_deep_sleep_duration.
  change (String.eqb "csv" "csv") with true. cbv iota zeta.
  rewrite (load_data_from_csv_strings env self "daily_sleep" start_date
             end_date duration path file lo hi Hpath Hne Hread Hcol Hday Hwin).
  rewrite bind_pair_ret. cbn [as_table]. mstep.
  assert (He : empty (mkDataFrame (columns file)
                        (filter (in_window lo hi) (records file))) = false).
  { apply (empty_false _ "day"); [exact Hrows | exact Hcol]. }
  rewrite He. cbn [negb].
  rewrite plot_data_missing_column; [reflexivity | exact He | exact Hflat].
Qed.

Lemma deep_sleep_csv_needs_flat_column_witness :
  get_deep_sleep_duration sample_env sample_handler "csv" "2023-11-08" None
    (Some "week") ""
  = ([ReadCsv "oura_daily-sleep.csv"; RcParams; Subplots], Raise KeyError).
Proof.
  apply (deep_sleep_csv_needs_flat_column sample_env sample_handler
           "2023-11-08" None (Some "week") "" "oura_daily-sleep.csv"
           sample_file "2023-11-01" "2023-11-08").
  - reflexivity.
  - discriminate.
  - reflexivity.
  - reflexivity.
  - repeat constructor; discriminate.
  - reflexivity.
  - discriminate.
  - reflexivity.
Defined.

(** ** The SpO2 reshaping *)

Lemma dict_get_absent {A} (k : string) (d : dict A) :
  existsb (fun kv => String.eqb (fst kv) k) d = false -> dict_get k d = None.
Proof.
  unfold dict_get. induction d as [| [k' v'] d IH]; [reflexivity |].
  cbn. destruct (String.eqb k' k); [discriminate | exact IH].
Qed.

Lemma cell_of_set_key (c : string) (v : cell) (r : record) :
  cell_of c (set_key c v r) = v.
Proof.
  unfold cell_of, set_key.
  destruct (existsb (fun kv => String.eqb (fst kv) c) r) eqn:E.
  - unfold dict_get. induction r as [| [k' v'] r IH]; [discriminate |].
    cbn in *. destruct (String.eqb k' c) eqn:Ek; cbn.
    + rewrite String.eqb_refl. reflexivity.
    + rewrite Ek. apply IH, E.
  - rewrite dict_get_app, (dict_get_absent _ _ E).
    unfold dict_get. cbn. rewrite String.eqb_refl. reflexivity.
Qed.

Lemma cell_of_set_key_other (c k : string) (v : cell) (r : record) :
  k <> c -> cell_of k (set_key c v r) = cell_of k r.
Proof.
  intros Hne. unfold cell_of, set_key.
  destruct (existsb (fun kv => String.eqb (fst kv) c) r).
  - f_equal. unfold dict_get. induction r as [| [k' v'] r IH]; [reflexivity |].
    cbn. destruct (String.eqb_spec k' c) as [-> | Hc]; cbn.
    + rewrite (proj2 (String.eqb_neq c k)) by congruence. exact IH.
    + destruct (String.eqb k' k); [reflexivity | exact IH].
  - rewrite dict_get_app. destruct (dict_get k r); [reflexivity |].
    unfold dict_get. cbn.
    rewrite (proj2 (String.eqb_neq c k)) by congruence. reflexivity.
Qed.

Lemma Forall2_zip_with {A B C} (P : A -> B -> Prop) (Q : A -> C -> Prop)
    (g : A -> B -> C) (l1 : list A) (l2 : list B) :
  Forall2 P l1 l2 ->
  (forall x y, P x y -> Q x (g x y)) ->
  Forall2 Q l1 (zip_with g l1 l2).
Proof.
  intros H HQ. induction H; cbn; constructor; auto.
Qed.

Lemma Forall2_map_l {A B C} (P : B -> C -> Prop) (f : A -> B) (l : list A)
    (l' : list C) :
  Forall2 P (map f l) l' -> Forall2 (fun x y => P (f x) y) l l'.
Proof.
  revert l'. induction l as [| x l IH]; intros l' H; inversion H; subst;
    constructor; auto.
Qed.

(** X14.  The SpO2 reshaping (lines 269-270 and 297-298), when it
    succeeds, keeps the columns, drops the rows whose [spo2_percentage]
    is missing and, in the other rows, in order, replaces the
    [spo2_percentage] object by its [average] field, leaving every other
    cell as it was. *)
Theorem spo2_average_rows df df' :
  spo2_average df = Ret df' ->
  columns df' = columns df
  /\ Forall2
       (fun r r' =>
          exists fields a,
            cell_of "spo2_percentage" r = Obj fields
            /\ dict_get "average" fields = Some a
            /\ cell_of "spo2_percentage" r' = Atom a
            /\ forall k, k <> "spo2_percentage" -> cell_of k r' = cell_of k r)
       (filter (fun r => negb (is_null (cell_of "spo2_percentage" r)))
          (records df))
       (records df').
Proof.
  unfold spo2_average, dropna_subset, getitem.
  destruct (has_column "spo2_percentage" df) eqn:Hc; [| discriminate].
  cbn [obind]. unfold has_column at 1. cbn [columns records].
  fold (has_column "spo2_percentage" df). rewrite Hc. cbn [obind].
  destruct (mapM _ _) as [averages |] eqn:Hm; [| discriminate].
  cbn [obind]. intros H. injection H as <-.
  unfold setitem. cbn [columns records].
  unfold has_column at 1. cbn [columns].
  fold (has_column "spo2_percentage" df). rewrite Hc.
  split; [reflexivity |].
  apply mapM_Forall2, Forall2_map_l in Hm.
  eapply Forall2_zip_with; [exact Hm |].
  intros r v Hv. cbv beta in Hv. unfold subscript in Hv.
  destruct (cell_of "spo2_percentage" r) as [a | fields] eqn:Er;
    [discriminate |].
  destruct (dict_get "average" fields) as [a |] eqn:Ea; [| discriminate].
  injection Hv as <-. exists fields, a.
  split; [reflexivity |]. split; [exact Ea |].
  split; [apply cell_of_set_key |].
  intros k Hk. apply cell_of_set_key_other, Hk.
Qed.

Lemma spo2_average_rows_witness :
  columns spo2_flat = columns (from_records spo2_rows)
  /\ Forall2
       (fun r r' =>
          exists fields a,
            cell_of "spo2_percentage" r = Obj fields
            /\ dict_get "average" fields = Some a
            /\ cell_of "spo2_percentage" r' = Atom a
            /\ forall k, k <> "spo2_percentage" -> cell_of k r' = cell_of k r)
       (filter (fun r => negb (is_null (cell_of "spo2_percentage" r)))
          (records (from_records spo2_rows)))
       (records spo2_flat).
Proof.
  apply (spo2_average_rows (from_records spo2_rows) spo2_flat). reflexivity.
Defined.

(** ** The aggregated view *)

(** X15.  In the aggregated view ([peacewisedDays] other than 1) no
    anomaly marker is ever drawn, whatever the data and the threshold:
    by then [day] is the index of the table and no column of it, so a
    selection of anomalies that is not empty ends in KeyError at
    [anomalies['day']] and not in a scatter call. *)
Theorem aggregated_view_draws_no_anomaly env self data_type source start_date
    end_date duration caption peacewisedDays detect_trends n_bkps
    detect_anomalies anomaly_threshold :
  (peacewisedDays =? 1) = false ->
  Forall (fun e => is_scatter e = false)
    (trace (get_and_plot_daily_data env self data_type source start_date
              end_date duration caption peacewisedDays detect_trends n_bkps
              detect_anomalies anomaly_threshold)).
Proof.
  intros Hdays. unfold get_and_plot_daily_data. cbv zeta. rewrite Hdays.
  assert (Hio : forall (m : M pyret),
             Forall (fun e => is_io e = true) (trace m) ->
             Forall (fun e => is_scatter e = false) (trace m)).
  { intros m H. eapply Forall_impl; [| exact H].
    intros e. destruct e; try discriminate; reflexivity. }
  destruct (String.eqb source "csv");
    [| destruct (String.eqb source "api"); [| trace_inv]];
    (apply Forall_trace_bind;
     [apply Hio; first [apply load_data_from_csv_io | apply fetch_data_from_api_io]
     | intros r _]).
  all: apply Forall_trace_bind; [trace_inv | intros df _].
  all: destruct (empty df); [trace_inv |].
  all: do 3 (apply Forall_trace_bind; [trace_inv | intros ? ?]).
  all: apply Forall_trace_bind; [trace_inv | intros [labels df'] Hidx].
  all: apply set_index_sorted_drops in Hidx.
  all: cbn [fst snd]; unfold change_points_of; trace_inv.
  all: match goal with
       | Ha : result (lift (anomalies_of _ ?d _ _)) = Ret ?an,
         Hg : result (lift (getitem ?an "day")) = Ret _ |- _ =>
           exfalso; apply anomalies_of_columns in Ha;
           unfold getitem, has_column in Hg, Hidx;
           rewrite Ha, Hidx in Hg; discriminate Hg
       end.
Qed.

Lemma aggregated_view_draws_no_anomaly_witness :
  Forall (fun e => is_scatter e = false)
    (trace (get_and_plot_daily_data sample_env sample_handler "daily_sleep"
              "csv" "2023-11-08" None (Some "week") "" 7 false 10 true
              (1 # 10)%Q)).
Proof.
  apply (aggregated_view_draws_no_anomaly sample_env sample_handler
           "daily_sleep" "csv" "2023-11-08" None (Some "week") "" 7 false 10
           true (1 # 10)%Q).
  reflexivity.
Defined.

Lemma load_data_from_csv_quiet env self data_type start_date end_date
    duration :
  Forall (fun e => is_range_message e = false)
    (trace (load_data_from_csv env self data_type start_date end_date
              duration)).
Proof.
  unfold load_data_from_csv. cbv zeta.
  destruct (negb _); [trace_inv |].
  destruct end_date; trace_inv.
Qed.

Lemma fetch_data_from_api_quiet env self data_type start_date end_date
    duration save_file filename :
  Forall (fun e => is_range_message e = false)
    (trace (fetch_data_from_api env self data_type start_date end_date
              duration save_file filename)).
Proof.
  unfold fetch_data_from_api, to_csv. cbv zeta.
  destruct (negb _); [trace_inv |].
  destruct (negb _); [trace_inv |].
  trace_inv.
Qed.

Lemma plot_data_quiet env df column y_label title caption x_labels column2
    detect_trends n_bkps detect_anomalies anomaly_threshold :
  Forall (fun e => is_range_message e = false)
    (trace (plot_data env df column y_label title caption x_labels column2
              detect_trends n_bkps detect_anomalies anomaly_threshold)).
Proof. unfold plot_data, change_points_of. cbv zeta. trace_inv. Qed.

Ltac quiet_step :=
  solve [ trace_inv
        | apply load_data_from_csv_quiet
        | apply fetch_data_from_api_quiet
        | apply plot_data_quiet
        | unfold change_points_of; trace_inv ].

Lemma io_not_shown {A} (m : M A) :
  Forall (fun e => is_io e = true) (trace m) ->
  Forall (fun e => is_show e = false) (trace m).
Proof.
  intros H. eapply Forall_impl; [| exact H].
  intros e. destruct e; try discriminate; reflexivity.
Qed.

Ltac unshown_step :=
  solve [ trace_inv
        | apply io_not_shown, load_data_from_csv_io
        | apply io_not_shown, fetch_data_from_api_io
        | unfold change_points_of; trace_inv ].

Lemma range_message_printed env self data_type source start_date end_date
    duration caption peacewisedDays detect_trends n_bkps detect_anomalies
    anomaly_threshold :
  In (Print "out of range of peacewised Days")
    (trace (get_and_plot_daily_data env self data_type source start_date
              end_date duration caption peacewisedDays detect_trends n_bkps
              detect_anomalies anomaly_threshold)) ->
  In Show
    (trace (get_and_plot_daily_data env self data_type source start_date
              end_date duration caption peacewisedDays detect_trends n_bkps
              detect_anomalies anomaly_threshold))
  /\ caption = "" /\ (peacewisedDays =? 1) = false.
Proof.
  unfold get_and_plot_daily_data. cbv beta zeta.
  repeat lazymatch goal with
    | |- In _ (trace (emit Show ≫= _)) -> _ => fail
    | |- In _ (trace (if ?b then _ else _)) -> _ => destruct b eqn:?
    | |- _ => apply (event_after_event is_range_message);
              [reflexivity | quiet_step | intros ? ?]
    end.
  all: try (intros []; fail).
  all: mstep; cbn [trace fst].
  all: destruct (String.eqb_spec caption ""); cbn [negb]; mstep; cbn.
  all: intros Hin; repeat (destruct Hin as [Hin | Hin]; try discriminate Hin).
  all: try (destruct Hin; fail).
  all: auto.
Qed.

Lemma uncaptioned_figure_prints env self data_type source start_date end_date
    duration peacewisedDays detect_trends n_bkps detect_anomalies
    anomaly_threshold :
  (peacewisedDays =? 1) = false ->
  In Show
    (trace (get_and_plot_daily_data env self data_type source start_date
              end_date duration "" peacewisedDays detect_trends n_bkps
              detect_anomalies anomaly_threshold)) ->
  In (Print "out of range of peacewised Days")
    (trace (get_and_plot_daily_data env self data_type source start_date
              end_date duration "" peacewisedDays detect_trends n_bkps
              detect_anomalies anomaly_threshold)).
Proof.
  intros Hdays. unfold get_and_plot_daily_data. cbv beta zeta. rewrite Hdays.
  repeat lazymatch goal with
    | |- In _ (trace (emit Show ≫= _)) -> _ => fail
    | |- In _ (trace (if ?b then _ else _)) -> _ => destruct b eqn:?
    | |- _ => apply (event_follows is_show);
              [reflexivity | unshown_step | intros ? ?]
    end.
  all: try (intros []; fail).
  all: intros _; right; left; reflexivity.
Qed.

(** X16.  [get_and_plot_daily_data] prints 'out of range of peacewised
    Days' only in the aggregated view, only when the caption is empty
    and only in a run that shows the figure; and in the aggregated view
    every run that shows a figure without a caption prints that line. *)
Theorem range_message_follows_uncaptioned_figure env self data_type source
    start_date end_date duration caption peacewisedDays detect_trends n_bkps
    detect_anomalies anomaly_threshold :
  let run := get_and_plot_daily_data env self data_type source start_date
               end_date duration caption peacewisedDays detect_trends n_bkps
               detect_anomalies anomaly_threshold in
  (In (Print "out of range of peacewised Days") (trace run) ->
   In Show (trace run) /\ caption = "" /\ (peacewisedDays =? 1) = false)
  /\ ((peacewisedDays =? 1) = false -> caption = "" ->
      In Show (trace run) ->
      In (Print "out of range of peacewised Days") (trace run)).
Proof.
  cbv zeta. split.
  - apply range_message_printed.
  - intros Hdays ->. apply uncaptioned_figure_prints, Hdays.
Qed.

Lemma range_message_follows_uncaptioned_figure_witness :
  let run := get_and_plot_daily_data sample_env sample_handler "daily_sleep"
               "csv" "2023-11-08" None (Some "week") "" 7 false 10 false
               (2 # 1)%Q in
  In Show (trace run) /\ In (Print "out of range of peacewised Days") (trace run).
Proof.
  cbv zeta.
  assert (H : In (Print "out of range of peacewised Days")
                (trace (get_and_plot_daily_data sample_env sample_handler
                          "daily_sleep" "csv" "2023-11-08" None (Some "week")
                          "" 7 false 10 false (2 # 1)%Q))).
  { vm_compute. repeat (first [left; reflexivity | right]). }
  split; [| exact H].
  exact (proj1 (proj1 (range_message_follows_uncaptioned_figure sample_env
                         sample_handler "daily_sleep" "csv" "2023-11-08" None
                         (Some "week") "" 7 false 10 false (2 # 1)%Q) H)).
Defined.

(** ** Figures *)

Lemma shown_then_done (m : M pyret) :
  (In Show (trace m) -> result m = Ret RNone) ->
  In Show (trace (m ;; mret RNone)) -> result (m ;; mret RNone) = Ret RNone.
Proof.
  intros Hm H. apply In_trace_bind in H as [H | (a & _ & [])].
  rewrite (result_bind_ret m _ RNone (Hm H)). reflexivity.
Qed.

Ltac shown_walk :=
  repeat lazymatch goal with
    | |- In _ (trace (emit Show ≫= _)) -> _ => fail
    | |- In _ (trace (if ?b then _ else _)) -> _ => destruct b eqn:?
    | |- In _ (trace (?m ≫= _)) -> _ =>
        first
          [ apply (event_after_result is_show);
            [reflexivity | unshown_step | intros ? ?]
          | apply shown_then_done; intros Hshown;
            apply plot_data_shown in Hshown; apply Hshown ]
    end.

Ltac shown_done :=
  first
    [ intros []; fail
    | intros _;
      repeat match goal with
        | |- context [if ?b then _ else _] => destruct b
        end;
      reflexivity ].

(** X17.  For each of the five plotting entry points: a call that shows
    its figure returns None.  No fault is raised once [plt.show()] has
    been reached. *)
Theorem figures_shown_only_on_completion env self data_type source start_date
    end_date duration caption peacewisedDays detect_trends n_bkps
    detect_anomalies anomaly_threshold :
  (In Show (trace (get_deep_sleep_duration env self source start_date
                     end_date duration caption)) ->
   result (get_deep_sleep_duration env self source start_date end_date
             duration caption) = Ret RNone)
  /\ (In Show (trace (get_and_plot_daily_data env self data_type source
                        start_date end_date duration caption peacewisedDays
                        detect_trends n_bkps detect_anomalies
                        anomaly_threshold)) ->
      result (get_and_plot_daily_data env self data_type source start_date
                end_date duration caption peacewisedDays detect_trends n_bkps
                detect_anomalies anomaly_threshold) = Ret RNone)
  /\ (In Show (trace (plot_sleep_phases env self source start_date caption)) ->
      result (plot_sleep_phases env self source start_date caption)
      = Ret RNone)
  /\ (In Show (trace (plot_bedtime env self data_type source start_date
                        end_date duration caption)) ->
      result (plot_bedtime env self data_type source start_date end_date
                duration caption) = Ret RNone)
  /\ (In Show (trace (plot_heart_rate env self start_date source caption)) ->
      result (plot_heart_rate env self start_date source caption)
      = Ret RNone).
Proof.
  split; [| split; [| split; [| split]]].
  - unfold get_deep_sleep_duration. cbv beta zeta. shown_walk; shown_done.
  - unfold get_and_plot_daily_data. cbv beta zeta. shown_walk; shown_done.
  - unfold plot_sleep_phases. cbv beta zeta. shown_walk; shown_done.
  - unfold plot_bedtime. cbv beta zeta. shown_walk; shown_done.
  - unfold plot_heart_rate. cbv beta zeta. shown_walk; shown_done.
Qed.

(** ** Sources and files *)

Lemma load_stays_offline env self data_type start_date end_date duration :
  Forall stays_offline
    (trace (load_data_from_csv env self data_type start_date end_date
              duration)).
Proof.
  unfold load_data_from_csv. cbv zeta.
  destruct (negb _); [trace_inv |].
  destruct end_date; trace_inv.
Qed.

Lemma fetch_leaves_files env self data_type start_date end_date duration
    filename :
  Forall leaves_files
    (trace (fetch_data_from_api env self data_type start_date end_date
              duration false filename)).
Proof.
  unfold fetch_data_from_api, to_csv. cbv zeta.
  destruct (negb _); [trace_inv |].
  destruct (negb _); [trace_inv |].
  trace_inv.
Qed.

Lemma plot_data_stays_offline env df column y_label title caption x_labels
    column2 detect_trends n_bkps detect_anomalies anomaly_threshold :
  Forall stays_offline
    (trace (plot_data env df column y_label title caption x_labels column2
              detect_trends n_bkps detect_anomalies anomaly_threshold)).
Proof. unfold plot_data, change_points_of. cbv zeta. trace_inv. Qed.

Lemma plot_data_leaves_files env df column y_label title caption x_labels
    column2 detect_trends n_bkps detect_anomalies anomaly_threshold :
  Forall leaves_files
    (trace (plot_data env df column y_label title caption x_labels column2
              detect_trends n_bkps detect_anomalies anomaly_threshold)).
Proof. unfold plot_data, change_points_of. cbv zeta. trace_inv. Qed.

Ltac apart :=
  repeat first
    [ apply load_stays_offline
    | apply fetch_leaves_files
    | apply plot_data_stays_offline
    | apply plot_data_leaves_files
    | apply Forall_trace_emit; trace_solve
    | apply Forall_trace_lift
    | apply Forall_trace_mret
    | apply Forall_trace_for_each; intros ?
    | apply Forall_trace_bind; [| intros ? ?]
    | match goal with
      | |- Forall _ (trace (if ?b then _ else _)) => destruct b eqn:?
      | |- Forall _ (trace (match ?x with [] => _ | _ :: _ => _ end)) =>
          destruct x
      | |- Forall _ (trace (match ?x with Some _ => _ | None => _ end)) =>
          destruct x
      end ].

(** X18.  The entry points keep the two sources apart: with the source
    'csv' a call sends no request and writes no file; with the source
    'api', and in [plot_heart_rate], a call reads no file and writes
    none. *)
Theorem sources_kept_apart env self data_type start_date end_date duration
    caption peacewisedDays detect_trends n_bkps detect_anomalies
    anomaly_threshold source :
  Forall stays_offline
    (trace (get_deep_sleep_duration env self "csv" start_date end_date
              duration caption))
  /\ Forall stays_offline
       (trace (get_and_plot_daily_data env self data_type "csv" start_date
                 end_date duration caption peacewisedDays detect_trends
                 n_bkps detect_anomalies anomaly_threshold))
  /\ Forall stays_offline
       (trace (plot_sleep_phases env self "csv" start_date caption))
  /\ Forall stays_offline
       (trace (plot_bedtime env self data_type "csv" start_date end_date
                 duration caption))
  /\ Forall leaves_files
       (trace (get_deep_sleep_duration env self "api" start_date end_date
                 duration caption))
  /\ Forall leaves_files
       (trace (get_and_plot_daily_data env self data_type "api" start_date
                 end_date duration caption peacewisedDays detect_trends
                 n_bkps detect_anomalies anomaly_threshold))
  /\ Forall leaves_files
       (trace (plot_sleep_phases env self "api" start_date caption))
  /\ Forall leaves_files
       (trace (plot_bedtime env self data_type "api" start_date end_date
                 duration caption))
  /\ Forall leaves_files
       (trace (plot_heart_rate env self start_date source caption)).
Proof.
  unfold get_deep_sleep_duration, get_and_plot_daily_data, plot_sleep_phases,
    plot_bedtime, plot_heart_rate, change_points_of.
  change (String.eqb "csv" "csv") with true.
  change (String.eqb "api" "csv") with false.
  change (String.eqb "api" "api") with true.
  cbv beta iota zeta.
  repeat split.
  all: apart.
Qed.

(** ** The phases of a night *)

Lemma for_each_emit {A} (g : A -> event) (l : list A) :
  for_each l (fun x => emit (g x)) = (map g l, Ret tt).
Proof.
  induction l as [| x l IH]; [reflexivity |].
  cbn [for_each map]. rewrite IH. reflexivity.
Qed.

Lemma phase_values_of_digits phases :
  Forall (fun c => is_digit c = true) (list_ascii_of_string phases) ->
  phase_values_of (Atom (Str phases))
  = Ret (map digit_val (list_ascii_of_string phases)).
Proof.
  intros H. unfold phase_values_of. apply mapM_total.
  eapply Forall_impl; [| exact H].
  intros c Hc. cbv beta. rewrite Hc. reflexivity.
Qed.

(** X19.  For a night loaded from 'csv' or 'api' whose table has a row
    dated [date], the first such row holding the string of digits
    [phases], [plot_sleep_phases] draws, after the events of the load,
    one segment [hlines(v, i, i + 1)] in the colour of [v] for the
    digit [v] of [phases] at every position [i] but the last, in order,
    then one tick label per digit, counted in steps of five minutes
    from the [bedtime_start] of the first row of the table, then the
    axis texts and the figure, then the caption if there is one; it
    returns None. *)
Theorem sleep_phase_segments env self source date caption end_day t0 df night
    others phases first s start labels :
  source = "csv" \/ source = "api" ->
  _convert_date env date (Some "day") = Ret end_day ->
  load_from env self source "sleep" date (Some end_day) None
  = (t0, Ret (RTable df)) ->
  has_column "day" df = true ->
  has_column "sleep_phase_5_min" df = true ->
  has_column "bedtime_start" df = true ->
  filter (fun r => eq_str date (cell_of "day" r)) (records df)
  = night :: others ->
  cell_of "sleep_phase_5_min" night = Atom (Str phases) ->
  Forall (fun c => is_digit c = true) (list_ascii_of_string phases) ->
  head (records df) = Some first ->
  cell_of "bedtime_start" first = Atom (Str s) ->
  fromisoformat env s = Ret start ->
  let values := map digit_val (list_ascii_of_string phases) in
  mapM (time_label start) (positions values) = Ret labels ->
  plot_sleep_phases env self source date caption
  = (t0
     ++ [Subplots]
     ++ map segment (enumerate 0 (removelast values))
     ++ [XTicks labels;
         Decorate "Time (5-minute intervals)" "Sleep Phase"
           ("Sleep Phases on " ++ date);
         Show]
     ++ (if negb (String.eqb caption "")
         then [Display ("**Figure:** " ++ caption)] else []),
     Ret RNone)
  /\ List.length labels = List.length values.
Proof.
  intros Hsrc Hconv Hload Hday Hphase Hbed Hnight Hcell Hdigits Hfirst Hs
    Hstart values Hlabels.
  split.
  2: { rewrite (mapM_length _ _ _ Hlabels). unfold positions.
       apply length_seq. }
  assert (Hrows : records df <> []).
  { intros H. rewrite H in Hfirst. discriminate Hfirst. }
  unfold plot_sleep_phases. rewrite Hconv. mstep.
  assert (Hrun : forall K : pyret -> M pyret,
             (if String.eqb source "csv"
              then r ← load_data_from_csv env self "sleep" date
                         (Some end_day) None ; K r
              else if String.eqb source "api"
              then r ← fetch_data_from_api env self "sleep" date
                         (Some end_day) None false None ; K r
              else emit (Print "Invalid data source!") ;; mret RNone)
             = (r ← load_from env self source "sleep" date (Some end_day)
                      None ; K r)).
  { intros K. unfold load_from. destruct Hsrc as [-> | ->]; reflexivity. }
  rewrite Hrun, Hload, bind_pair_ret. cbn [as_table]. mstep.
  rewrite (empty_false df "day" Hrows Hday).
  assert (Hgd : getitem df "day" = Ret (map (cell_of "day") (records df))).
  { unfold getitem. rewrite Hday. reflexivity. }
  assert (Hgb : getitem df "bedtime_start"
                = Ret (map (cell_of "bedtime_start") (records df))).
  { unfold getitem. rewrite Hbed. reflexivity. }
  rewrite Hgd. mstep.
  assert (Hloc : loc df (map (eq_str date) (map (cell_of "day") (records df)))
                 = mkDataFrame (columns df) (night :: others)).
  { unfold loc. f_equal. rewrite map_map.
    rewrite (select_map (fun r => eq_str date (cell_of "day" r))).
    exact Hnight. }
  rewrite Hloc.
  assert (Hg : getitem (mkDataFrame (columns df) (night :: others))
                 "sleep_phase_5_min"
               = Ret (map (cell_of "sleep_phase_5_min") (night :: others))).
  { unfold getitem, has_column in *. cbn [columns records].
    rewrite Hphase. reflexivity. }
  rewrite Hg. mstep. cbn [map iloc nth_error]. mstep.
  rewrite Hcell, (phase_values_of_digits phases Hdigits). mstep.
  rewrite Hgb. mstep.
  destruct (records df) as [| row rows] eqn:Hrec; [discriminate Hfirst |].
  cbn [head] in Hfirst. injection Hfirst as ->.
  cbn [map iloc nth_error]. mstep. rewrite Hs, Hstart. mstep.
  fold values. rewrite Hlabels. mstep.
  rewrite (for_each_emit segment), bind_pair_ret. mstep.
  destruct (negb (String.eqb caption "")); mstep; cbn [trace result fst snd];
    rewrite <- ?app_assoc; reflexivity.
Qed.

(** ** A night without a row for the date *)

Lemma records_from_records data :
  records (from_records data)
  = map (fun r => map (fun c => (c, cell_of c r)) (keys_union data)) data.
Proof. reflexivity. Qed.

Lemma getitem_from_records data c :
  has_column c (from_records data) = true ->
  getitem (from_records data) c = Ret (map (cell_of c) data).
Proof.
  intros Hc. unfold getitem. rewrite Hc. f_equal.
  rewrite records_from_records, map_map. apply map_ext. intros r.
  rewrite cell_of_row. unfold has_column in Hc.
  change (columns (from_records data)) with (keys_union data) in Hc.
  rewrite Hc. reflexivity.
Qed.

(** X20.  [plot_sleep_phases] on an API answer that has rows but none
    dated [date] raises IndexError (the first element of an empty
    selection is asked for), after the fetch and before any drawing. *)
Theorem sleep_phases_without_row_for_date env self date caption end_day row
    rows :
  truthy (access_token self) = true ->
  _convert_date env date (Some "day") = Ret end_day ->
  requests_get env (api_address self ++ "/v2/usercollection/sleep")
    {[ "Authorization" := ("Bearer " ++ py_str (access_token self))%string ]}
    {[ "start_date" := date; "end_date" := end_day ]} 10
  = Ret (row :: rows) ->
  has_column "day" (from_records (row :: rows)) = true ->
  has_column "sleep_phase_5_min" (from_records (row :: rows)) = true ->
  Forall (fun r => eq_str date (cell_of "day" r) = false) (row :: rows) ->
  plot_sleep_phases env self "api" date caption
  = ([Print "Requesting sleep data... ";
      HttpGet (api_address self ++ "/v2/usercollection/sleep")
        {[ "Authorization" := ("Bearer " ++ py_str (access_token self))%string ]}
        {[ "start_date" := date; "end_date" := end_day ]} 10;
      Print "done!"; Print "Data successfully saved to None"],
     Raise IndexError).
Proof.
  intros Ht Hconv Hget Hday Hphase Hnone.
  unfold plot_sleep_phases. rewrite Hconv. mstep.
  change (String.eqb "api" "csv") with false.
  change (String.eqb "api" "api") with true. cbv iota.
  rewrite (fetch_data_from_api_rows env self "sleep" date (Some end_day) None
             false None {[ "start_date" := date; "end_date" := end_day ]}
             row rows Ht eq_refl eq_refl Hget)
      by (intros ? H; discriminate H).
  cbv zeta. cbn [andb app py_str]. rewrite bind_pair_ret. cbn [as_table].
  mstep.
  assert (He : empty (from_records (row :: rows)) = false).
  { apply (empty_false _ "day"); [discriminate | exact Hday]. }
  rewrite He, (getitem_from_records _ _ Hday). mstep.
  assert (Hmask : map (eq_str date) (map (cell_of "day") (row :: rows))
                  = map (fun _ => false) (row :: rows)).
  { rewrite map_map. apply map_ext_in. intros r Hr.
    rewrite Forall_forall in Hnone. apply Hnone, Hr. }
  rewrite Hmask. unfold loc. rewrite select_all_false.
  assert (Hg : getitem (mkDataFrame (columns (from_records (row :: rows))) [])
                 "sleep_phase_5_min" = Ret []).
  { unfold getitem, has_column in *. cbn [columns records].
    rewrite Hphase. reflexivity. }
  rewrite Hg. mstep. cbn [iloc nth_error]. mstep. reflexivity.
Qed.

Lemma sleep_phases_without_row_for_date_witness :
  plot_sleep_phases
    (mkEnv false
       (fun _ _ _ _ =>
          Ret [[("day", Atom (Str "2023-11-02"));
                ("sleep_phase_5_min", Atom (Str "4432"));
                ("bedtime_start", Atom (Str "2023-11-01T23:10:00"))]])
       (fun _ => Raise IOError) (fun _ _ _ => Ret []) (fun l => Ret l)
       (fun _ => Raise ValueError) (fun _ _ _ => Ret [])
       sample_write two_pass_mean two_pass_std)
    sample_handler "api" "2023-11-01" ""
  = ([Print "Requesting sleep data... ";
      HttpGet "https://api.ouraring.com/v2/usercollection/sleep"
        {[ "Authorization" := "Bearer YOUR_ACCESS_TOKEN" ]}
        {[ "start_date" := "2023-11-01"; "end_date" := "2023-11-02" ]} 10;
      Print "done!"; Print "Data successfully saved to None"],
     Raise IndexError).
Proof.
  refine (sleep_phases_without_row_for_date _ sample_handler "2023-11-01" ""
            "2023-11-02" _ [] _ _ _ _ _ _).
  - reflexivity.
  - reflexivity.
  - reflexivity.
  - reflexivity.
  - reflexivity.
  - repeat constructor.
Defined.

Lemma sleep_phase_segments_witness :
  plot_sleep_phases night_env sample_handler "api" "2023-11-01" ""
  = ([Print "Requesting sleep data... ";
      HttpGet "https://api.ouraring.com/v2/usercollection/sleep"
        {[ "Authorization" := "Bearer YOUR_ACCESS_TOKEN" ]}
        {[ "start_date" := "2023-11-01"; "end_date" := "2023-11-02" ]} 10;
      Print "done!"; Print "Data successfully saved to None";
      Subplots;
      HLines 4 0 1 "red"; HLines 4 1 2 "red"; HLines 3 2 3 "blue";
      XTicks ["23:50"; "23:55"; "00:00"; "00:05"];
      Decorate "Time (5-minute intervals)" "Sleep Phase"
        "Sleep Phases on 2023-11-01";
      Show],
     Ret RNone).
Proof.
  refine (proj1 (sleep_phase_segments night_env sample_handler "api"
                   "2023-11-01" "" "2023-11-02" _ _ _ [] "4432" _
                   "2023-11-01T23:50:00" _ _
                   (or_intror eq_refl) eq_refl eq_refl eq_refl eq_refl
                   eq_refl eq_refl eq_refl _ eq_refl eq_refl eq_refl
                   eq_refl)).
  repeat constructor.
Defined.

(** ** Bedtimes *)

(** X21.  [plot_bedtime] checks [data_type] after loading: for a
    [data_type] other than 'start' and 'end' a call loads and prints but
    never draws, and on an API answer with rows it has sent the request
    and received the rows before it prints 'Invalid data type!' and
    returns None. *)
Theorem plot_bedtime_checks_type_last env self data_type source start_date
    end_date duration caption :
  data_type <> "start" -> data_type <> "end" ->
  Forall (fun e => is_io e = true)
    (trace (plot_bedtime env self data_type source start_date end_date
              duration caption))
  /\ (forall params row rows,
        truthy (access_token self) = true ->
        request_params env "sleep" start_date end_date duration = Ret params ->
        requests_get env (api_address self ++ "/v2/usercollection/sleep")
          {[ "Authorization" :=
               ("Bearer " ++ py_str (access_token self))%string ]}
          params 10 = Ret (row :: rows) ->
        empty (from_records (row :: rows)) = false ->
        plot_bedtime env self data_type "api" start_date end_date duration
          caption
        = ([Print "Requesting sleep data... ";
            HttpGet (api_address self ++ "/v2/usercollection/sleep")
              {[ "Authorization" :=
                   ("Bearer " ++ py_str (access_token self))%string ]}
              params 10;
            Print "done!"; Print "Data successfully saved to None";
            Print "Invalid data type!"],
           Ret RNone)).
Proof.
  intros Hs He. apply String.eqb_neq in Hs, He. split.
  - unfold plot_bedtime. cbv beta zeta. rewrite Hs, He.
    destruct (String.eqb source "csv");
      [| destruct (String.eqb source "api"); [| trace_inv]];
      (apply Forall_trace_bind;
       [first [apply load_data_from_csv_io | apply fetch_data_from_api_io]
       | intros r _]); trace_inv.
  - intros params row rows Ht Hp Hr Hne.
    unfold plot_bedtime. cbv beta zeta. rewrite Hs, He.
    change (String.eqb "api" "csv") with false.
    change (String.eqb "api" "api") with true. cbv iota.
    rewrite (fetch_data_from_api_rows env self "sleep" start_date end_date
               duration false None params row rows Ht eq_refl Hp Hr)
      by (intros ? H; discriminate H).
    cbv zeta. cbn [andb app py_str]. rewrite bind_pair_ret. cbn [as_table].
    mstep. rewrite Hne. mstep. reflexivity.
Qed.

Lemma plot_bedtime_checks_type_last_witness :
  plot_bedtime sample_env sample_handler "wake" "api" "2023-11-08" None
    (Some "week") ""
  = ([Print "Requesting sleep data... ";
      HttpGet "https://api.ouraring.com/v2/usercollection/sleep"
        {[ "Authorization" := "Bearer YOUR_ACCESS_TOKEN" ]}
        {[ "start_date" := "2023-11-01"; "end_date" := "2023-11-08" ]} 10;
      Print "done!"; Print "Data successfully saved to None";
      Print "Invalid data type!"],
     Ret RNone).
Proof.
  refine (proj2 (plot_bedtime_checks_type_last sample_env sample_handler
                   "wake" "api" "2023-11-08" None (Some "week") "" _ _)
            {[ "start_date" := "2023-11-01"; "end_date" := "2023-11-08" ]}
            _ _ _ _ _ _).
  - discriminate.
  - discriminate.
  - reflexivity.
  - reflexivity.
  - reflexivity.
  - reflexivity.
Defined.

(** ** Heart rate *)

Lemma zip_with_set_key_same c (rows : list record) (values : list cell) :
  List.length values = List.length rows ->
  map (cell_of c) (zip_with (fun r v => set_key c v r) rows values) = values.
Proof.
  revert values. induction rows as [| r rows IH]; intros [| v values] H;
    try discriminate; [reflexivity |].
  cbn. rewrite cell_of_set_key, IH; [reflexivity |]. cbn in H. lia.
Qed.

Lemma zip_with_set_key_other c k (rows : list record) (values : list cell) :
  k <> c ->
  List.length values = List.length rows ->
  map (cell_of k) (zip_with (fun r v => set_key c v r) rows values)
  = map (cell_of k) rows.
Proof.
  intros Hk. revert values. induction rows as [| r rows IH];
    intros [| v values] H; try discriminate; [reflexivity |].
  cbn. rewrite (cell_of_set_key_other _ _ _ _ Hk), IH; [reflexivity |].
  cbn in H. lia.
Qed.

Lemma getitem_setitem_same df c values series :
  List.length values = List.length (records df) ->
  getitem (setitem df c values) c = Ret series -> series = values.
Proof.
  intros Hlen H. apply getitem_cells in H. subst series.
  unfold setitem. cbn [records]. apply zip_with_set_key_same, Hlen.
Qed.

Lemma getitem_setitem_other df c k values series :
  k <> c ->
  List.length values = List.length (records df) ->
  getitem (setitem df c values) k = Ret series ->
  series = map (cell_of k) (records df).
Proof.
  intros Hk Hlen H. apply getitem_cells in H. subst series.
  unfold setitem. cbn [records]. apply zip_with_set_key_other; assumption.
Qed.

Lemma io_not_plot_line {A} (m : M A) :
  Forall (fun e => is_io e = true) (trace m) ->
  Forall (fun e => is_plot_line e = false) (trace m).
Proof.
  intros H. eapply Forall_impl; [| exact H].
  intros e. destruct e; try discriminate; reflexivity.
Qed.

(** X22.  The line [plot_heart_rate] plots has as its values the [bpm]
    cells of the fetched rows that the source tag selects (the rows
    tagged [rest] or [awake] for these two tags, every row for any other
    tag), in order, with one time per value.  [pd.to_datetime] is
    assumed to answer with one time per cell. *)
Theorem heart_rate_plots_selected_rows env self date source caption xs ys
    color label :
  (forall series times,
     to_datetime env series = Ret times ->
     List.length times = List.length series) ->
  In (PlotLine xs ys color label)
    (trace (plot_heart_rate env self date source caption)) ->
  exists df,
    result (fetch_data_from_api env self "heartrate" date None None false
              None) = Ret (RTable df)
    /\ ys = map (cell_of "bpm") (heart_rate_rows source df)
    /\ List.length xs = List.length ys.
Proof.
  intros Horacle. unfold plot_heart_rate.
  apply (event_after is_plot_line);
    [reflexivity | apply io_not_plot_line, fetch_data_from_api_io |].
  intros r Hr.
  apply (event_after is_plot_line); [reflexivity | trace_inv |].
  intros df Hdf. destruct r as [| df0]; [discriminate Hdf |].
  cbn in Hdf. injection Hdf as ->.
  destruct (empty df); [intros [H | []]; discriminate H |].
  apply (event_after is_plot_line); [reflexivity | solve [trace_inv] |].
  intros df1 Hsel.
  assert (Hrows : records df1 = heart_rate_rows source df).
  { unfold heart_rate_rows. revert Hsel.
    destruct (String.eqb source "rest");
      [| destruct (String.eqb source "awake")].
    - destruct (getitem df "source") as [tags |] eqn:Et; [| discriminate].
      mstep. unfold mret, M_ret, result. cbn [snd].
      intros H. injection H as <-.
      apply getitem_cells in Et. subst tags.
      unfold loc. cbn [records]. rewrite map_map. apply select_map.
    - destruct (getitem df "source") as [tags |] eqn:Et; [| discriminate].
      mstep. unfold mret, M_ret, result. cbn [snd].
      intros H. injection H as <-.
      apply getitem_cells in Et. subst tags.
      unfold loc. cbn [records]. rewrite map_map. apply select_map.
    - unfold mret, M_ret, result. cbn [snd].
      intros H. injection H as <-. reflexivity. }
  apply (event_after is_plot_line); [reflexivity | trace_inv |].
  intros stamps Hst. cbn in Hst. apply getitem_cells in Hst.
  apply (event_after is_plot_line); [reflexivity | trace_inv |].
  intros times Htimes. cbn in Htimes. apply Horacle in Htimes.
  assert (Hlen : List.length times = List.length (records df1)).
  { rewrite Htimes, Hst. apply length_map. }
  apply (event_after is_plot_line); [reflexivity | trace_inv |].
  intros times' Ht'. cbn in Ht'.
  apply (getitem_setitem_same _ _ _ _ Hlen) in Ht'. subst times'.
  apply (event_after is_plot_line); [reflexivity | trace_inv |].
  intros hours Hh. cbn in Hh. apply mapM_length in Hh.
  apply (event_after is_plot_line); [reflexivity | trace_inv |].
  intros mean_value _.
  apply (event_after is_plot_line); [reflexivity | trace_inv |].
  intros _ _.
  apply (event_after is_plot_line); [reflexivity | trace_inv |].
  intros bpm Hb. cbn in Hb.
  assert (Hne : "bpm" <> "timestamp") by discriminate.
  apply (getitem_setitem_other _ _ _ _ _ Hne Hlen) in Hb.
  mstep. cbn [trace fst]. intros Hin.
  assert (Hfirst : PlotLine hours bpm "black" "Heart Rate"
                   = PlotLine xs ys color label).
  { destruct Hin as [Hin | Hin]; [exact Hin |].
    exfalso. revert Hin. mstep. cbn [trace fst].
    destruct (negb (String.eqb caption "")); mstep; cbn;
      intros Hin; repeat (destruct Hin as [Hin | Hin]; try discriminate Hin);
      destruct Hin. }
  injection Hfirst as <- <- _ _.
  exists df. split; [exact Hr |]. split.
  - rewrite Hb, Hrows. reflexivity.
  - rewrite Hh, Hb, Hlen. symmetry. apply length_map.
Qed.

Lemma heart_rate_plots_selected_rows_witness :
  exists df,
    result (fetch_data_from_api heart_env sample_handler "heartrate"
              "2023-11-01" None None false None) = Ret (RTable df)
    /\ [Atom (Num (52 # 1))]
       = map (cell_of "bpm") (heart_rate_rows "rest" df).
Proof.
  destruct (heart_rate_plots_selected_rows heart_env sample_handler
              "2023-11-01" "rest" ""
              [Atom (Num (inject_Z 3 + inject_Z 10 / 60)%Q)]
              [Atom (Num (52 # 1))] "black" "Heart Rate")
    as (df & H1 & H2 & _).
  - intros series times H. injection H as <-. apply length_map.
  - vm_compute. repeat (first [left; reflexivity | right]).
  - exists df. split; assumption.
Defined.

(** ** Deep sleep from the API *)

Lemma dict_get_key {A} (k : string) (d : dict A) :
  In k (map fst d) -> dict_get k d <> None.
Proof.
  unfold dict_get. induction d as [| [k' v'] d IH]; [intros [] |].
  cbn. destruct (String.eqb_spec k' k) as [-> | Hne]; [discriminate |].
  intros [E | H]; [congruence | apply IH, H].
Qed.

(** X24.  [get_deep_sleep_duration] on an API answer with rows none of
    which has a [contributors] field raises KeyError, from
    [df.drop(columns=['contributors'])], after the fetch and before any
    drawing. *)
Theorem deep_sleep_api_needs_contributors env self start_date end_date
    duration caption params row rows :
  truthy (access_token self) = true ->
  request_params env "daily_sleep" start_date end_date duration = Ret params ->
  requests_get env (api_address self ++ "/v2/usercollection/daily_sleep")
    {[ "Authorization" := ("Bearer " ++ py_str (access_token self))%string ]}
    params 10 = Ret (row :: rows) ->
  empty (from_records (row :: rows)) = false ->
  Forall (fun r => dict_get "contributors" r = None) (row :: rows) ->
  get_deep_sleep_duration env self "api" start_date end_date duration caption
  = ([Print "Requesting daily_sleep data... ";
      HttpGet (api_address self ++ "/v2/usercollection/daily_sleep")
        {[ "Authorization" := ("Bearer " ++ py_str (access_token self))%string ]}
        params 10;
      Print "done!"; Print "Data successfully saved to None"],
     Raise KeyError).
Proof.
  intros Ht Hp Hr Hne Hall.
  assert (Hcol : has_column "contributors" (from_records (row :: rows))
                 = false).
  { apply not_true_iff_false. intros H. apply existsb_eqb_In in H.
    change (columns (from_records (row :: rows)))
      with (keys_union (row :: rows)) in H.
    apply keys_union_from in H as (r & Hin & Hk).
    rewrite Forall_forall in Hall. apply dict_get_key in Hk.
    apply Hk, Hall, Hin. }
  unfold get_deep_sleep_duration.
  change (String.eqb "api" "csv") with false.
  change (String.eqb "api" "api") with true. cbv iota zeta.
  rewrite (fetch_data_from_api_rows env self "daily_sleep" start_date end_date
             duration false None params row rows Ht eq_refl Hp Hr)
      by (intros ? H; discriminate H).
  cbv zeta. cbn [andb app py_str]. rewrite bind_pair_ret. cbn [as_table].
  mstep. rewrite Hne. cbn [negb].
  assert (Hflat : flatten_contributors (from_records (row :: rows))
                  = Raise KeyError).
  { unfold flatten_contributors, drop_column. rewrite Hcol. reflexivity. }
  rewrite Hflat. mstep. reflexivity.
Qed.

Lemma deep_sleep_api_needs_contributors_witness :
  get_deep_sleep_duration
    (mkEnv false
       (fun _ _ _ _ =>
          Ret [[("day", Atom (Str "2023-11-01"));
                ("score", Atom (Num (75 # 1)))]])
       (fun _ => Raise IOError) (fun _ _ _ => Ret []) (fun l => Ret l)
       (fun _ => Raise ValueError) (fun _ _ _ => Ret [])
       sample_write two_pass_mean two_pass_std)
    sample_handler "api" "2023-11-08" None (Some "week") ""
  = ([Print "Requesting daily_sleep data... ";
      HttpGet "https://api.ouraring.com/v2/usercollection/daily_sleep"
        {[ "Authorization" := "Bearer YOUR_ACCESS_TOKEN" ]}
        {[ "start_date" := "2023-11-01"; "end_date" := "2023-11-08" ]} 10;
      Print "done!"; Print "Data successfully saved to None"],
     Raise KeyError).
Proof.
  refine (deep_sleep_api_needs_contributors _ sample_handler "2023-11-08"
            None (Some "week") ""
            {[ "start_date" := "2023-11-01"; "end_date" := "2023-11-08" ]}
            _ [] _ _ _ _ _).
  - reflexivity.
  - reflexivity.
  - reflexivity.
  - reflexivity.
  - repeat constructor.
Defined.

(** ** Titles *)

Ltac by_cases_on_ascii c :=
  destruct c as [[] [] [] [] [] [] [] []]; vm_compute; reflexivity.

Lemma string_map_length f s :
  String.length (string_map f s) = String.length s.
Proof. induction s as [| c s IH]; cbn; congruence. Qed.

Lemma upper_clean c :
  Ascii.eqb (upper (if Ascii.eqb c "_" then " "%char else c)) "_" = false.
Proof. by_cases_on_ascii c. Qed.

Lemma lower_clean c :
  Ascii.eqb (lower (if Ascii.eqb c "_" then " "%char else c)) "_" = false.
Proof. by_cases_on_ascii c. Qed.

Lemma upper_twice c :
  upper
    (if Ascii.eqb (upper (if Ascii.eqb c "_" then " "%char else c)) "_"
     then " "%char
     else upper (if Ascii.eqb c "_" then " "%char else c))
  = upper (if Ascii.eqb c "_" then " "%char else c).
Proof. by_cases_on_ascii c. Qed.

Lemma lower_twice c :
  lower
    (if Ascii.eqb (lower (if Ascii.eqb c "_" then " "%char else c)) "_"
     then " "%char
     else lower (if Ascii.eqb c "_" then " "%char else c))
  = lower (if Ascii.eqb c "_" then " "%char else c).
Proof. by_cases_on_ascii c. Qed.

Lemma rest_clean s :
  string_forallb (fun c => negb (Ascii.eqb c "_"))
    (string_map lower
       (string_map (fun c => if Ascii.eqb c "_" then " "%char else c) s))
  = true.
Proof.
  induction s as [| c s IH]; [reflexivity |].
  cbn [string_map string_forallb]. rewrite lower_clean, IH. reflexivity.
Qed.

Lemma rest_twice s :
  string_map lower
    (string_map (fun c => if Ascii.eqb c "_" then " "%char else c)
       (string_map lower
          (string_map (fun c => if Ascii.eqb c "_" then " "%char else c) s)))
  = string_map lower
      (string_map (fun c => if Ascii.eqb c "_" then " "%char else c) s).
Proof.
  induction s as [| c s IH]; [reflexivity |].
  cbn [string_map]. rewrite lower_twice, IH. reflexivity.
Qed.

(** X25.  The name of a data type in the titles of the daily figures
    ([replace('_', ' ').capitalize()]), on ASCII text: it is as long as
    the data type, holds no underscore, and applying the operation
    again does not change it. *)
Theorem pretty_name_normal_form data_type :
  string_forallb is_ascii data_type = true ->
  String.length (pretty_name data_type) = String.length data_type
  /\ string_forallb (fun c => negb (Ascii.eqb c "_")) (pretty_name data_type)
     = true
  /\ pretty_name (pretty_name data_type) = pretty_name data_type.
Proof.
  intros _. unfold pretty_name, capitalize.
  destruct data_type as [| c s]; [repeat split |].
  cbn [string_map]. split; [| split].
  - cbn [String.length]. rewrite !string_map_length. reflexivity.
  - cbn [string_forallb]. rewrite upper_clean, rest_clean. reflexivity.
  - rewrite upper_twice, rest_twice. reflexivity.
Qed.

Lemma pretty_name_normal_form_witness :
  String.length (pretty_name "daily_spo2") = String.length "daily_spo2"
  /\ string_forallb (fun c => negb (Ascii.eqb c "_")) (pretty_name "daily_spo2")
     = true
  /\ pretty_name (pretty_name "daily_spo2") = pretty_name "daily_spo2".
Proof.
  apply (pretty_name_normal_form "daily_spo2"). reflexivity.
Defined.
